(** * Job lifecycle of the Farcaster box backend

    A shallow embedding of the three request handlers of the backend
    ([/api/start-generation], [/api/status], [/api/mint-nft]) and of the
    in-memory job cache [MINT_CACHE] they share.  The repository carries
    two versions of the server:

    - [Full]: [src/index.js], the server wired to Neynar, Replicate,
      Pinata and Thirdweb;
    - [Mvp]:  [src/unnamed/part_000], the MVP server with a placeholder
      image and a mock mint.

    Both import the same [ipfs_uploader.js], embedded in [IpfsUploader].

    Third-party services are oracles gathered in a [World]; every handler
    invocation receives its own [World], so a service may answer
    differently from one request to the next.  A handler returns its HTTP
    response, the server state after its synchronous part, the list of
    service calls it made, and the cache writes it performs after an
    [await] (which other requests may overtake). *)

From stdpp Require Import base option list strings pretty gmap fin_maps.
From Stdlib Require Import ZArith Ascii String Lia.

Local Open Scope string_scope.

(** ** JavaScript values carried by requests *)

(** Values a request field can hold after [express.json()] or the query
    parser; a field that the body or the query does not carry is
    [JUndefined].  [JNum] carries integer-valued numbers below 10^21 in
    magnitude (a FID is one), whose [ToString] is the decimal numeral;
    [JStr] carries the bytes of the string. *)
Inductive jsval :=
| JUndefined
| JNull
| JBool (b : bool)
| JNum (n : Z)
| JStr (s : string).

(** [!v] is [negb (truthy v)]. *)
Definition truthy (v : jsval) : bool :=
  match v with
  | JUndefined | JNull => false
  | JBool b => b
  | JNum n => negb (n =? 0)%Z
  | JStr s => negb (String.eqb s "")
  end.

(** [String(v)], also the property key of [MINT_CACHE[v]] and the text a
    template literal interpolates. *)
Definition to_key (v : jsval) : string :=
  match v with
  | JUndefined => "undefined"
  | JNull => "null"
  | JBool true => "true"
  | JBool false => "false"
  | JNum n => pretty n
  | JStr s => s
  end.

(** A nullable string: [None] is [null]. *)
Definition truthy_str (o : option string) : bool :=
  match o with
  | Some s => negb (String.eqb s "")
  | None => false
  end.

(** ** Job records and the cache *)

Inductive Status := Processing | Ready | Error.

Global Instance Status_eq_dec : EqDecision Status.
Proof. solve_decision. Defined.

Definition status_str (st : Status) : string :=
  match st with
  | Processing => "processing"
  | Ready => "ready"
  | Error => "error"
  end.

(** The objects stored in [MINT_CACHE]:
    [{ status, ipfsUri, metadataUri, message? }]; a property that the
    object literal does not list is [None]. *)
Record JobRecord := mkJob {
  status : Status;
  ipfsUri : option string;
  metadataUri : option string;
  message : option string
}.

Global Instance JobRecord_eq_dec : EqDecision JobRecord.
Proof. solve_decision. Defined.

(** [{ status: "processing" }] *)
Definition rec_processing : JobRecord := mkJob Processing None None None.
(** [{ status: "ready", ipfsUri, metadataUri }] *)
Definition rec_ready (ipfs meta : string) : JobRecord :=
  mkJob Ready (Some ipfs) (Some meta) None.
(** [{ status: "error", message }] *)
Definition rec_error (msg : string) : JobRecord :=
  mkJob Error None None (Some msg).

(** [MINT_CACHE], the plain object [{}] used as a map.  The map holds
    its own properties, keyed by [to_key fid].  The slot ["__proto__"]
    of the map stands for the prototype of the object: assigning a
    record to [MINT_CACHE["__proto__"]] creates no property but makes
    that record the prototype, and it is what [MINT_CACHE["__proto__"]]
    then reads; while the slot is empty the prototype is
    [Object.prototype]. *)
Abbreviation Cache := (gmap string JobRecord).

(** The names every object inherits from [Object.prototype] as
    methods; ["__proto__"] is the accessor handled by [read]. *)
Definition object_prototype_methods : list string :=
  ["constructor"; "__defineGetter__"; "__defineSetter__"; "hasOwnProperty";
   "__lookupGetter__"; "__lookupSetter__"; "isPrototypeOf";
   "propertyIsEnumerable"; "toString"; "valueOf"; "toLocaleString"].

(** What [MINT_CACHE[key]] can evaluate to. *)
Inductive Entry :=
| EUndefined
| ERecord (r : JobRecord)
| EObjectPrototype
| EMethod (name : string)
| EText (s : string).

(** The property [k] of a record object, when it has one. *)
Definition field (k : string) (r : JobRecord) : option string :=
  if String.eqb k "status" then Some (status_str (status r))
  else if String.eqb k "ipfsUri" then ipfsUri r
  else if String.eqb k "metadataUri" then metadataUri r
  else if String.eqb k "message" then message r
  else None.

(** [MINT_CACHE[k]]: an own property first, then the properties of a
    record installed as prototype, then [Object.prototype]. *)
Definition read (c : Cache) (k : string) : Entry :=
  if String.eqb k "__proto__" then
    match c !! k with
    | Some r => ERecord r
    | None => EObjectPrototype
    end
  else
    match c !! k with
    | Some r => ERecord r
    | None =>
        match (c !! "__proto__") ≫= field k with
        | Some s => EText s
        | None =>
            if bool_decide (k ∈ object_prototype_methods) then EMethod k
            else EUndefined
        end
    end.

(** [delete MINT_CACHE[k]]: removes an own property; there is none
    under ["__proto__"], so that [delete] changes nothing. *)
Definition remove (k : string) (c : Cache) : Cache :=
  if String.eqb k "__proto__" then c else delete k c.

(** [!e] is [negb (entry_truthy e)]: objects and functions are truthy,
    a string unless it is empty. *)
Definition entry_truthy (e : Entry) : bool :=
  match e with
  | EUndefined => false
  | ERecord _ | EObjectPrototype | EMethod _ => true
  | EText s => negb (String.eqb s "")
  end.

(** The record an entry is, if it is one; only a record has the
    properties [status], [ipfsUri], [metadataUri]. *)
Definition entry_record (e : Entry) : option JobRecord :=
  match e with
  | ERecord r => Some r
  | _ => None
  end.

(** [e.status], [undefined] being [None]. *)
Definition entry_status (e : Entry) : option Status :=
  status <$> entry_record e.

(** [e && p(e.status)] *)
Definition entry_and (e : Entry) (p : option Status -> bool) : bool :=
  entry_truthy e && p (entry_status e).

(** A cache write performed after an [await]. *)
Inductive Write :=
| Put (key : string) (r : JobRecord)
| Del (key : string).

Definition apply_write (wr : Write) (c : Cache) : Cache :=
  match wr with
  | Put k r => <[k := r]> c
  | Del k => remove k c
  end.

(** ** HTTP responses *)

(** What [res.json(value)] sends: the text of a JSON object, of a JSON
    string, or nothing at all when [JSON.stringify] gives [undefined]. *)
Inductive Json :=
| JObject (members : list (string * jsval))
| JText (s : string)
| JNothing.

Record Response := Respond {
  code : Z;
  payload : Json
}.

(** [res.status(c).json({ ... })] *)
Definition mkRes (c : Z) (members : list (string * jsval)) : Response :=
  Respond c (JObject members).

(** The members of the object a response carries. *)
Definition body (r : Response) : list (string * jsval) :=
  match payload r with
  | JObject members => members
  | JText _ | JNothing => []
  end.

Definition json (b : list (string * jsval)) : Response := mkRes 200 b.

Definition opt_field (name : string) (o : option string) : list (string * jsval) :=
  match o with
  | Some s => [(name, JStr s)]
  | None => []
  end.

(** [res.json(MINT_CACHE[fid])]: the record with the properties it has. *)
Definition record_json (r : JobRecord) : list (string * jsval) :=
  ("status", JStr (status_str (status r)))
    :: (opt_field "ipfsUri" (ipfsUri r)
          ++ opt_field "metadataUri" (metadataUri r)
          ++ opt_field "message" (message r))%list.

(** [res.json(MINT_CACHE[fid])] for whatever the lookup found: a record
    with its properties, [Object.prototype] as [{}], a string as a JSON
    string, a function as no text. *)
Definition entry_json (e : Entry) : Json :=
  match e with
  | ERecord r => JObject (record_json r)
  | EObjectPrototype => JObject []
  | EText s => JText s
  | EMethod _ | EUndefined => JNothing
  end.

(** ** Service calls, their outcomes, and the effect monad *)

Inductive outcome (A : Type) :=
| Returned (a : A)
| Threw (msg : string).
Arguments Returned {A} a.
Arguments Threw {A} msg.

(** The metadata document of [uploadMetadataToIpfs]. *)
Record Metadata := mkMeta {
  name : string;
  description : string;
  image : string;
  attributes : list (string * string)
}.

Inductive Call :=
| NeynarFetchBulkUsers (fid : jsval)
| ReplicateRun
| AxiosGet (url : string)
| PinFileToIPFS (filepath : string)
| PinJSONToIPFS (doc : Metadata)
| ThirdwebInit
| GetContract
| Erc721Mint (to : jsval) (nft_name : string) (uri : option string)
| RandomBytes.

(** A Neynar user object; [pfp_url] may be missing. *)
Record User := mkUser { pfp_url : option string }.

(** What [replicate.run] resolves to. *)
Inductive ReplicateOutput :=
| RArray (urls : list string)
| ROther.

(** The services as one request sees them.
    - [fetchBulkUsers fid]: [neynarClient.fetchBulkUsers] for [Number(fid)],
      the [users] of its answer (none when the field is missing);
    - [replicate_run]: [replicate.run] on the fixed prompt;
    - [axios_get url]: the download of the image;
    - [pinFileToIPFS filepath], [pinJSONToIPFS doc]: the two Pinata
      endpoints, answering with the text of [data.IpfsHash];
    - [thirdweb_init]: building the provider and the [ThirdwebSDK];
    - [getContract]: [sdk.getContract];
    - [erc721_mint to name uri]: [contract.erc721.mint], answering with
      [tx.receipt.transactionHash];
    - [randomBytes]: [crypto.randomBytes(32)] in hexadecimal. *)
Record World := mkWorld {
  fetchBulkUsers : jsval -> outcome (list User);
  replicate_run : outcome ReplicateOutput;
  axios_get : string -> outcome unit;
  pinFileToIPFS : string -> outcome string;
  pinJSONToIPFS : Metadata -> outcome string;
  thirdweb_init : outcome unit;
  getContract : outcome unit;
  erc721_mint : jsval -> string -> option string -> outcome string;
  randomBytes : outcome string
}.

(** Computations that log the service calls they make and may throw. *)
Definition Eff (A : Type) : Type := (list Call * outcome A)%type.

Definition ret {A} (a : A) : Eff A := ([], Returned a).
Definition throw {A} (msg : string) : Eff A := ([], Threw msg).
Definition call {A} (c : Call) (o : outcome A) : Eff A := ([c], o).

Definition bind {A B} (m : Eff A) (f : A -> Eff B) : Eff B :=
  match m with
  | (l, Returned a) => let '(l', r) := f a in ((l ++ l')%list, r)
  | (l, Threw msg) => (l, Threw msg)
  end.

(** [try { m } catch (error) { h error.message }] *)
Definition try_catch {A} (m : Eff A) (h : string -> Eff A) : Eff A :=
  match m with
  | (l, Threw msg) => let '(l', r) := h msg in ((l ++ l')%list, r)
  | _ => m
  end.

Notation "x <~ m ;; k" := (bind m (fun x => k))
  (at level 100, m at next level, right associativity).
Notation "m ;;; k" := (bind m (fun _ => k))
  (at level 100, right associativity).

(** [if (!x) throw new Error(msg)] *)
Definition throw_unless (b : bool) (msg : string) : Eff unit :=
  if b then ret tt else throw msg.

Definition trace {A} (m : Eff A) : list Call := fst m.
Definition result {A} (m : Eff A) : outcome A := snd m.

(** [const x = await f(...); if (!x) throw new Error(msg);] and the later
    uses of [x] as a string. *)
Definition require (o : option string) (msg : string) : Eff string :=
  match o with
  | Some s => if truthy_str o then ret s else throw msg
  | None => throw msg
  end.

(** [x || null] *)
Definition or_null (o : option string) : option string :=
  if truthy_str o then o else None.

(** What a handler did: the response it sent, the server state once its
    synchronous part is over, the service calls made on its behalf and
    the cache writes it still performs after an [await]. *)
Record Handled (St : Type) := mkHandled {
  response : Response;
  server : St;
  calls : list Call;
  deferred : list Write
}.
Arguments mkHandled {St}.
Arguments response {St}.
Arguments server {St}.
Arguments calls {St}.
Arguments deferred {St}.

(** [return res.status(c).json(b)] with nothing else done. *)
Definition reply {St} (s : St) (r : Response) : Handled St :=
  mkHandled r s [] [].

(** [{ status: MINT_CACHE[fid].status }] *)
Definition status_field (o : option JobRecord) : list (string * jsval) :=
  match o with
  | Some r => [("status", JStr (status_str (status r)))]
  | None => []
  end.

(** ** [src/ipfs_uploader.js] *)

Module IpfsUploader.

Definition uploadImageToIpfs (w : World) (imageUrl : option string)
    (fid : jsval) : Eff (option string) :=
  if negb (truthy_str imageUrl) then ret None
  else
    let url := from_option id "" imageUrl in
    try_catch
      (_ <~ call (AxiosGet url) (axios_get w url) ;;
       let filepath := "box_charakter_fid_" ++ to_key fid ++ ".png" in
       hash <~ call (PinFileToIPFS filepath) (pinFileToIPFS w filepath) ;;
       ret (Some ("ipfs://" ++ hash)))
      (fun _ => ret None).

(** [fid.toString()] is evaluated outside the [try]. *)
Definition fid_toString (fid : jsval) : Eff string :=
  match fid with
  | JUndefined =>
      throw "Cannot read properties of undefined (reading 'toString')"
  | JNull =>
      throw "Cannot read properties of null (reading 'toString')"
  | _ => ret (to_key fid)
  end.

Definition uploadMetadataToIpfs (w : World) (fid : jsval)
    (ipfsImageUri : string) : Eff (option string) :=
  fidText <~ fid_toString fid ;;
  let metadata :=
    {| name := "Box Character #" ++ to_key fid;
       description :=
         "AI-generated Box Character NFT for Farcaster user FID "
           ++ to_key fid;
       image := ipfsImageUri;
       attributes :=
         [("Creator Platform", "Farcaster Frame");
          ("Style", "Box Character");
          ("FID", fidText)] |} in
  try_catch
    (hash <~ call (PinJSONToIPFS metadata) (pinJSONToIPFS w metadata) ;;
     ret (Some ("ipfs://" ++ hash)))
    (fun _ => ret None).

End IpfsUploader.

(** ** [src/index.js] *)

Module Full.
Import IpfsUploader.

Record Server := mkServer {
  MINT_CACHE : Cache;
  sdkInstance : bool
}.

Definition set_cache (c : Cache) (s : Server) : Server :=
  mkServer c (sdkInstance s).

Definition getSDK (w : World) (s : Server) : Server * Eff unit :=
  if sdkInstance s then (s, ret tt)
  else
    match thirdweb_init w with
    | Returned _ =>
        (mkServer (MINT_CACHE s) true, call ThirdwebInit (Returned tt))
    | Threw msg =>
        (s, try_catch (call ThirdwebInit (Threw msg))
              (fun _ =>
                 throw "Blockchain SDK konnte nicht initialisiert werden."))
    end.

Definition getPfpUrl (w : World) (fid : jsval) : Eff (option string) :=
  try_catch
    (users <~ call (NeynarFetchBulkUsers fid) (fetchBulkUsers w fid) ;;
     let user := head users in
     let pfpUrl := or_null (user ≫= pfp_url) in
     ret pfpUrl)
    (fun _ => ret None).

Definition generateBoxCharacter (w : World) (pfpUrl : string)
    : Eff (option string) :=
  try_catch
    (output <~ call ReplicateRun (replicate_run w) ;;
     match output with
     | RArray (first :: _) => ret (Some first)
     | _ => ret None
     end)
    (fun _ => ret None).

(** The [try] block of [/api/start-generation]; the pair is
    [(ipfsUri, metadataUri)]. *)
Definition generation (w : World) (fid : jsval) : Eff (string * string) :=
  pfpUrl0 <~ getPfpUrl w fid ;;
  pfpUrl <~ require pfpUrl0 "No PFP found." ;;
  aiImage0 <~ generateBoxCharacter w pfpUrl ;;
  aiImage <~ require aiImage0 "AI generation failed." ;;
  ipfsUri0 <~ uploadImageToIpfs w (Some aiImage) fid ;;
  ipfsUri <~ require ipfsUri0 "IPFS failed." ;;
  metadataUri0 <~ uploadMetadataToIpfs w fid ipfsUri ;;
  metadataUri <~ require metadataUri0 "Metadata failed." ;;
  ret (ipfsUri, metadataUri).

(** The record the [try]/[catch] writes back when the block is over. *)
Definition final_record (r : outcome (string * string)) : JobRecord :=
  match r with
  | Returned (ipfsUri, metadataUri) => rec_ready ipfsUri metadataUri
  | Threw msg => rec_error msg
  end.

Definition start_generation (w : World) (fid : jsval) (s : Server)
    : Handled Server :=
  let key := to_key fid in
  if negb (truthy fid) then
    reply s (mkRes 400 [("error", JStr "Missing FID")])
  else if entry_and (read (MINT_CACHE s) key)
            (fun st => negb (bool_decide (st = Some Error))) then
    reply s (json (status_field (entry_record (read (MINT_CACHE s) key))))
  else
    let job := generation w fid in
    {| response :=
         json [("status", JStr "processing");
               ("message", JStr "Generation started.")];
       server := set_cache (<[key := rec_processing]> (MINT_CACHE s)) s;
       calls := trace job;
       deferred := [Put key (final_record (result job))] |}.

Definition get_status (fid : jsval) (s : Server) : Handled Server :=
  let entry := read (MINT_CACHE s) (to_key fid) in
  if negb (truthy fid) || negb (entry_truthy entry) then
    reply s (mkRes 404 [("error", JStr "No active job.")])
  else reply s (Respond 200 (entry_json entry)).

Definition mint_nft (w : World) (fid recipientAddress : jsval)
    (s : Server) : Handled Server :=
  if negb (truthy fid) || negb (truthy recipientAddress) then
    reply s (mkRes 400 [("error", JStr "Missing parameters.")])
  else
    let entry := read (MINT_CACHE s) (to_key fid) in
    if negb (entry_and entry (fun st => bool_decide (st = Some Ready))) then
      reply s (mkRes 409 [("error", JStr "Not ready to mint.")])
    else
      let '(s1, sdk) := getSDK w s in
      match result sdk with
      | Threw _ =>
          mkHandled
            (mkRes 500 [("error", JStr "Blockchain connection failed.")])
            s1 (trace sdk) []
      | Returned _ =>
          let minting :=
            _ <~ call GetContract (getContract w) ;;
            let nft_name := "Box Character #" ++ to_key fid in
            let uri := entry_record entry ≫= metadataUri in
            call (Erc721Mint recipientAddress nft_name uri)
                 (erc721_mint w recipientAddress nft_name uri) in
          match result minting with
          | Returned txHash =>
              mkHandled
                (json [("success", JBool true); ("txHash", JStr txHash)])
                s1 (trace sdk ++ trace minting)%list [Del (to_key fid)]
          | Threw msg =>
              mkHandled
                (mkRes 500 [("error", JStr "Mint failed.");
                            ("details", JStr msg)])
                s1 (trace sdk ++ trace minting)%list []
          end
      end.

End Full.

(** ** [encodeURIComponent]

    A JavaScript string is held as its WTF-8 bytes: UTF-8, in which an
    unpaired surrogate U+D800..U+DFFF (a string may hold one) is the
    three bytes ED A0..BF 80..BF.  A surrogate pair is held as the four
    bytes of its code point, so the byte ED followed by a byte in
    A0..BF marks an unpaired surrogate, on which the built-in throws
    [URIError: URI malformed]. *)

Definition hex_digit (n : N) : ascii :=
  match n with
  | 0 => "0" | 1 => "1" | 2 => "2" | 3 => "3" | 4 => "4" | 5 => "5"
  | 6 => "6" | 7 => "7" | 8 => "8" | 9 => "9" | 10 => "A" | 11 => "B"
  | 12 => "C" | 13 => "D" | 14 => "E" | _ => "F"
  end%N%char.

Definition unreserved (c : ascii) : bool :=
  let n := N_of_ascii c in
  ((65 <=? n) && (n <=? 90) || (97 <=? n) && (n <=? 122)
   || (48 <=? n) && (n <=? 57))%N
  || bool_decide (c ∈ list_ascii_of_string "-_.!~*'()").

(** Every byte that is not unreserved becomes [%XX]. *)
Fixpoint percent_encode (s : string) : string :=
  match s with
  | EmptyString => EmptyString
  | String c rest =>
      if unreserved c then String c (percent_encode rest)
      else
        let n := N_of_ascii c in
        String "%" (String (hex_digit (n / 16)) (String (hex_digit (n mod 16))
          (percent_encode rest)))
  end.

Fixpoint lone_surrogate (s : string) : bool :=
  match s with
  | EmptyString => false
  | String c rest =>
      match rest with
      | EmptyString => false
      | String d _ =>
          ((N_of_ascii c =? 237) && (160 <=? N_of_ascii d)
           && (N_of_ascii d <=? 191))%N
          || lone_surrogate rest
      end
  end.

Definition encodeURIComponent (s : string) : outcome string :=
  if lone_surrogate s then Threw "URI malformed"
  else Returned (percent_encode s).

(** A computation that calls no service: it returns or throws. *)
Definition lift {A} (o : outcome A) : Eff A := ([], o).

(** ** [src/unnamed/part_000] *)

Module Mvp.
Import IpfsUploader.

(** The MVP server keeps no state besides [MINT_CACHE]; its image
    generator is a mock that calls no service, and throws when
    [encodeURIComponent] does. *)
Definition generateBoxCharacter (fid : jsval) : Eff string :=
  let seed := if truthy fid then to_key fid else "default" in
  encoded <~ lift (encodeURIComponent seed) ;;
  let url := "https://picsum.photos/seed/" ++ encoded ++ "/1024/1024" in
  ret url.

(** The [try] block of [/api/start-generation]; the pair is
    [(ipfsUri, metadataUri)]. *)
Definition generation (w : World) (fid : jsval) : Eff (string * string) :=
  imageUrl <~ generateBoxCharacter fid ;;
  ipfsImageUri0 <~ uploadImageToIpfs w (Some imageUrl) fid ;;
  ipfsImageUri <~ require ipfsImageUri0 "IPFS image upload failed." ;;
  metadataUri0 <~ uploadMetadataToIpfs w fid ipfsImageUri ;;
  metadataUri <~ require metadataUri0 "IPFS metadata upload failed." ;;
  ret (ipfsImageUri, metadataUri).

(** [x || fallback] on a string *)
Definition or_else (s fallback : string) : string :=
  if String.eqb s "" then fallback else s.

Definition final_record (r : outcome (string * string)) : JobRecord :=
  match r with
  | Returned (ipfsImageUri, metadataUri) =>
      rec_ready ipfsImageUri metadataUri
  | Threw msg => rec_error (or_else msg "Unknown error")
  end.

Definition start_generation (w : World) (fid : jsval) (s : Cache)
    : Handled Cache :=
  let key := to_key fid in
  if negb (truthy fid) then
    reply s (mkRes 400 [("error", JStr "Missing FID")])
  else if entry_and (read s key) (fun st => bool_decide (st = Some Ready)) then
    reply s (json (("status", JStr "ready")
                     :: opt_field "ipfsUri" (entry_record (read s key) ≫= ipfsUri)
                     ++ opt_field "metadataUri"
                          (entry_record (read s key) ≫= metadataUri))%list)
  else
    let job := generation w fid in
    {| response :=
         json [("status", JStr "processing");
               ("message", JStr "Generation started.")];
       server := <[key := rec_processing]> s;
       calls := trace job;
       deferred := [Put key (final_record (result job))] |}.

Definition get_status (fid : jsval) (s : Cache) : Handled Cache :=
  let entry := read s (to_key fid) in
  if negb (truthy fid) || negb (entry_truthy entry) then
    reply s (mkRes 404 [("error", JStr "No active job.")])
  else reply s (Respond 200 (entry_json entry)).

Definition mint_nft (w : World) (fid recipientAddress : jsval) (s : Cache)
    : Handled Cache :=
  if negb (truthy fid) || negb (truthy recipientAddress) then
    reply s (mkRes 400
               [("success", JBool false);
                ("error",
                 JStr "Missing parameters (fid oder recipientAddress).")])
  else
    let entry := read s (to_key fid) in
    if negb (entry_and entry (fun st => bool_decide (st = Some Ready))) then
      reply s (mkRes 409
                 [("success", JBool false);
                  ("error",
                   JStr "Not ready to mint – kein 'ready'-Status im Cache.")])
    else
      let hashing := call RandomBytes (randomBytes w) in
      match result hashing with
      | Returned hex =>
          mkHandled
            (json [("success", JBool true); ("txHash", JStr ("0x" ++ hex))])
            (remove (to_key fid) s) (trace hashing) []
      | Threw msg =>
          mkHandled
            (mkRes 500 [("success", JBool false);
                        ("error", JStr "Mock mint failed.");
                        ("details", JStr (or_else msg "Error"))])
            s (trace hashing) []
      end.

End Mvp.

(** ** Requests and their interleaving *)

Inductive Request :=
| StartGeneration (fid : jsval)
| GetStatus (fid : jsval)
| MintNft (fid recipientAddress : jsval).

Definition full_handle (w : World) (req : Request) (s : Full.Server)
    : Handled Full.Server :=
  match req with
  | StartGeneration fid => Full.start_generation w fid s
  | GetStatus fid => Full.get_status fid s
  | MintNft fid rcp => Full.mint_nft w fid rcp s
  end.

Definition mvp_handle (w : World) (req : Request) (s : Cache)
    : Handled Cache :=
  match req with
  | StartGeneration fid => Mvp.start_generation w fid s
  | GetStatus fid => Mvp.get_status fid s
  | MintNft fid rcp => Mvp.mint_nft w fid rcp s
  end.

(** A handler run to its end with no other request in between. *)
Definition settle (ws : list Write) (c : Cache) : Cache :=
  foldl (fun acc wr => apply_write wr acc) c ws.

Definition full_finish (h : Handled Full.Server) : Full.Server :=
  Full.set_cache (settle (deferred h) (Full.MINT_CACHE (server h))) (server h).

Definition mvp_finish (h : Handled Cache) : Cache :=
  settle (deferred h) (server h).

Section Interleaving.
Context {St : Type}.
Variable cache : St -> Cache.
Variable with_cache : Cache -> St -> St.
Variable handle : World -> Request -> St -> Handled St.

(** The server between two events: its state and the writes that
    handlers suspended at an [await] have yet to perform. *)
Record System := mkSystem {
  srv : St;
  pending : list Write
}.

Inductive step : System -> System -> Prop :=
| step_request (w : World) (req : Request) (sys : System) :
    step sys
      (mkSystem (server (handle w req (srv sys)))
                (pending sys ++ deferred (handle w req (srv sys)))%list)
| step_resume (s : St) (before after : list Write) (wr : Write) :
    step (mkSystem s (before ++ wr :: after)%list)
      (mkSystem (with_cache (apply_write wr (cache s)) s)
                (before ++ after)%list).

Inductive reachable (init : System) : System -> Prop :=
| reach_init : reachable init init
| reach_step (a b : System) :
    reachable init a -> step a b -> reachable init b.
End Interleaving.

Arguments System : clear implicits.
Arguments mkSystem {St}.
Arguments srv {St}.
Arguments pending {St}.

Definition full_step := step Full.MINT_CACHE Full.set_cache full_handle.
Definition mvp_step := step (St := Cache) id (fun c _ => c) mvp_handle.

Definition full_boot : System Full.Server :=
  mkSystem (Full.mkServer ∅ false) [].
Definition mvp_boot : System Cache := mkSystem ∅ [].

(** ** The record invariant of the data model *)

Definition record_ok (r : JobRecord) : Prop :=
  (is_Some (ipfsUri r) <-> status r = Ready)
  /\ (is_Some (metadataUri r) <-> status r = Ready)
  /\ (is_Some (message r) <-> status r = Error).

Definition write_ok (wr : Write) : Prop :=
  match wr with
  | Put _ r => record_ok r
  | Del _ => True
  end.

Definition cache_ok (c : Cache) : Prop := map_Forall (fun _ r => record_ok r) c.

Definition system_ok {St} (cache : St -> Cache) (sys : System St) : Prop :=
  cache_ok (cache (srv sys)) /\ Forall write_ok (pending sys).

(** ** The failure classes of the interface

    The handlers signal a failure by the HTTP status: 400 for a missing
    parameter (InvalidInput), 404 for a status query without a record
    (NotFound), 409 for a mint request without a Ready record
    (NotReady), and 500 either with the [details] of a failed mint
    (MintFailed) or without, when the SDK could not be built. *)

Inductive Failure :=
| InvalidInput
| NotFound
| NotReady
| MintFailed
| ConnectionFailed.

Definition error_text (r : Response) : option jsval :=
  snd <$> List.find (fun p => String.eqb (fst p) "error") (body r).

Definition failure_of (r : Response) : option Failure :=
  if (code r =? 400)%Z then Some InvalidInput
  else if (code r =? 404)%Z then Some NotFound
  else if (code r =? 409)%Z then Some NotReady
  else if (code r =? 500)%Z then
    match List.find (fun p => String.eqb (fst p) "details") (body r) with
    | Some _ => Some MintFailed
    | None => Some ConnectionFailed
    end
  else None.

(** ** Sample worlds *)

Definition world_ok : World :=
  {| fetchBulkUsers := fun _ => Returned [mkUser (Some "img://p42")];
     replicate_run := Returned (RArray ["img://gen42"]);
     axios_get := fun _ => Returned tt;
     pinFileToIPFS := fun _ => Returned "Qa";
     pinJSONToIPFS := fun _ => Returned "Qb";
     thirdweb_init := Returned tt;
     getContract := Returned tt;
     erc721_mint := fun _ _ _ => Returned "0xDEAD";
     randomBytes := Returned "c0ffee" |}.


(** Pinata rejects the metadata document. *)
Definition world_no_pin : World :=
  {| fetchBulkUsers := fetchBulkUsers world_ok;
     replicate_run := replicate_run world_ok;
     axios_get := axios_get world_ok;
     pinFileToIPFS := pinFileToIPFS world_ok;
     pinJSONToIPFS := fun _ => Threw "Request failed with status code 401";
     thirdweb_init := thirdweb_init world_ok;
     getContract := getContract world_ok;
     erc721_mint := erc721_mint world_ok;
     randomBytes := randomBytes world_ok |}.

(** The chain rejects the mint transaction. *)
Definition world_mint_reverts : World :=
  {| fetchBulkUsers := fetchBulkUsers world_ok;
     replicate_run := replicate_run world_ok;
     axios_get := axios_get world_ok;
     pinFileToIPFS := pinFileToIPFS world_ok;
     pinJSONToIPFS := pinJSONToIPFS world_ok;
     thirdweb_init := thirdweb_init world_ok;
     getContract := getContract world_ok;
     erc721_mint := fun _ _ _ => Threw "execution reverted";
     randomBytes := randomBytes world_ok |}.

Definition ready42 : JobRecord := rec_ready "ipfs://Qa" "ipfs://Qb".

(** ** Vocabulary of the properties *)

(** The answers the handlers send, by name. *)
Definition missing_fid : Response :=
  mkRes 400 [("error", JStr "Missing FID")].
Definition no_active_job : Response :=
  mkRes 404 [("error", JStr "No active job.")].

Definition generation_started : Response :=
  json [("status", JStr "processing"); ("message", JStr "Generation started.")].

(** Two sample caches for the key "42". *)
Definition processing42 : Cache := {["42" := rec_processing]}.
Definition cache42 : Cache := {["42" := ready42]}.

Definition missing_parameters_full : Response :=
  mkRes 400 [("error", JStr "Missing parameters.")].

(** The SDK is at hand: cached from an earlier request, or built now. *)
Definition sdk_available (w : World) (s : Full.Server) : Prop :=
  Full.sdkInstance s = true \/ exists u, thirdweb_init w = Returned u.

(** [`Box Character #${fid}`] *)
Definition nft_name_of (fid : jsval) : string := "Box Character #" ++ to_key fid.

(** The service calls of [getSDK]: none once the instance is cached. *)
Definition sdk_calls (s : Full.Server) : list Call :=
  if Full.sdkInstance s then [] else [ThirdwebInit].

Definition minted (txHash : string) : Response :=
  json [("success", JBool true); ("txHash", JStr txHash)].

Definition mint_failed (details : string) : Response :=
  mkRes 500 [("error", JStr "Mint failed."); ("details", JStr details)].

(** The contract lookup or the mint call throws an error with text
    [msg]. *)
Definition mint_throws (w : World) (fid rcp : jsval) (r : JobRecord)
    (msg : string) : Prop :=
  getContract w = Threw msg
  \/ ((exists u, getContract w = Returned u)
      /\ erc721_mint w rcp (nft_name_of fid) (metadataUri r) = Threw msg).

(** What a helper resolved to; the helpers of the pipeline catch what
    the services throw and resolve to [null] instead. *)
Definition value {A} (m : Eff (option A)) : option A :=
  match result m with
  | Returned o => o
  | Threw _ => None
  end.

(** The pipeline stage a service call belongs to; 5 is minting. *)
Definition stage_of (c : Call) : nat :=
  match c with
  | NeynarFetchBulkUsers _ => 1
  | ReplicateRun => 2
  | AxiosGet _ | PinFileToIPFS _ => 3
  | PinJSONToIPFS _ => 4
  | ThirdwebInit | GetContract | Erc721Mint _ _ _ | RandomBytes => 5
  end.

(** No call in [l] belongs to a stage after [k]. *)
Definition up_to_stage (k : nat) (l : list Call) : Prop :=
  Forall (fun c => stage_of c <= k) l.

(** The text thrown when stage [k] comes back empty. *)
Definition full_stage_message (k : nat) : string :=
  match k with
  | 1 => "No PFP found."
  | 2 => "AI generation failed."
  | 3 => "IPFS failed."
  | _ => "Metadata failed."
  end.

(** Stage [k] is the first whose helper resolves to an empty or null
    result. *)
Inductive full_stage_fails (w : World) (fid : jsval) : nat -> Prop :=
| full_fails_profile :
    truthy_str (value (Full.getPfpUrl w fid)) = false ->
    full_stage_fails w fid 1
| full_fails_generator (p : string) :
    value (Full.getPfpUrl w fid) = Some p -> p <> "" ->
    truthy_str (value (Full.generateBoxCharacter w p)) = false ->
    full_stage_fails w fid 2
| full_fails_image_pin (p a : string) :
    value (Full.getPfpUrl w fid) = Some p -> p <> "" ->
    value (Full.generateBoxCharacter w p) = Some a -> a <> "" ->
    truthy_str (value (IpfsUploader.uploadImageToIpfs w (Some a) fid)) = false ->
    full_stage_fails w fid 3
| full_fails_metadata_pin (p a i : string) :
    value (Full.getPfpUrl w fid) = Some p -> p <> "" ->
    value (Full.generateBoxCharacter w p) = Some a -> a <> "" ->
    value (IpfsUploader.uploadImageToIpfs w (Some a) fid) = Some i -> i <> "" ->
    truthy_str (value (IpfsUploader.uploadMetadataToIpfs w fid i)) = false ->
    full_stage_fails w fid 4.

(** All four helpers resolve to a non-empty result; [i] and [m] are the
    two URIs. *)
Definition full_stages_succeed (w : World) (fid : jsval) (i m : string)
    : Prop :=
  exists p a,
    value (Full.getPfpUrl w fid) = Some p /\ p <> ""
    /\ value (Full.generateBoxCharacter w p) = Some a /\ a <> ""
    /\ value (IpfsUploader.uploadImageToIpfs w (Some a) fid) = Some i
    /\ i <> ""
    /\ value (IpfsUploader.uploadMetadataToIpfs w fid i) = Some m
    /\ m <> "".

(** The MVP pipeline has no profile lookup.  Its generator, stage 2,
    is a mock that fails only by throwing the [URIError] of
    [encodeURIComponent]; the two pinning stages, 3 and 4, fail by
    coming back empty. *)
Definition mvp_stage_message (k : nat) : string :=
  match k with
  | 2 => "URI malformed"
  | 3 => "IPFS image upload failed."
  | _ => "IPFS metadata upload failed."
  end.

(** The placeholder URL the mock generator resolves to when the text
    of the [fid] has no unpaired surrogate. *)
Definition placeholder (fid : jsval) : string :=
  "https://picsum.photos/seed/"
    ++ percent_encode (if truthy fid then to_key fid else "default")
    ++ "/1024/1024".

Inductive mvp_stage_fails (w : World) (fid : jsval) : nat -> Prop :=
| mvp_fails_generator :
    result (Mvp.generateBoxCharacter fid) = Threw "URI malformed" ->
    mvp_stage_fails w fid 2
| mvp_fails_image_pin :
    result (Mvp.generateBoxCharacter fid) = Returned (placeholder fid) ->
    truthy_str
      (value (IpfsUploader.uploadImageToIpfs w (Some (placeholder fid)) fid))
    = false ->
    mvp_stage_fails w fid 3
| mvp_fails_metadata_pin (i : string) :
    result (Mvp.generateBoxCharacter fid) = Returned (placeholder fid) ->
    value (IpfsUploader.uploadImageToIpfs w (Some (placeholder fid)) fid)
    = Some i ->
    i <> "" ->
    truthy_str (value (IpfsUploader.uploadMetadataToIpfs w fid i)) = false ->
    mvp_stage_fails w fid 4.

Definition mvp_stages_succeed (w : World) (fid : jsval) (i m : string)
    : Prop :=
  result (Mvp.generateBoxCharacter fid) = Returned (placeholder fid)
  /\ value (IpfsUploader.uploadImageToIpfs w (Some (placeholder fid)) fid)
     = Some i
  /\ i <> ""
  /\ value (IpfsUploader.uploadMetadataToIpfs w fid i) = Some m
  /\ m <> "".


(** The body of the status answer for a Ready record. *)
Definition ready_payload (i m : string) : Response :=
  json [("status", JStr "ready"); ("ipfsUri", JStr i);
        ("metadataUri", JStr m)].

(** The states either server can be in after boot. *)
Definition full_reachable : System Full.Server -> Prop :=
  reachable Full.MINT_CACHE Full.set_cache full_handle full_boot.
Definition mvp_reachable : System Cache -> Prop :=
  reachable (St := Cache) id (fun c _ => c) mvp_handle mvp_boot.

(** Boot, a start request for "42" in a world where all services
    answer, then the write-back of the pipeline. *)
Definition run42 : System Cache := mkSystem cache42 [].

Definition mid42 : System Cache :=
  mkSystem (<["42" := rec_processing]> ∅) [Put "42" ready42].

(** A text that holds the unpaired surrogate U+D800 (bytes ED A0 80),
    as the JSON body [{"fid": "\ud800"}] gives it. *)
Definition lone_d800 : string :=
  String (ascii_of_N 237) (String (ascii_of_N 160) (String (ascii_of_N 128) "")).

(** ** CORS policy of both servers *)

Definition allowedOrigins : list string :=
  ["https://farcaster-box-frontend.vercel.app";
   "https://farcaster-box-frame.vercel.app"].

(** [corsOptions.origin]: [callback(null, true)] is [Returned true],
    [callback(new Error(...))] is [Threw]; a request without an
    [Origin] header has [origin] undefined. *)
Definition cors_origin (origin : option string) : outcome bool :=
  if negb (truthy_str origin)
     || bool_decide (from_option id "" origin ∈ allowedOrigins)
  then Returned true
  else Threw "Not allowed by CORS".

(** ** Vocabulary of the further properties *)

(** A key under which the cache inherits nothing: not ["__proto__"],
    not a method of [Object.prototype], not a property of a record
    installed as prototype. *)
Definition plain_key (c : Cache) (k : string) : Prop :=
  k <> "__proto__" /\ (k ∉ object_prototype_methods)
  /\ (c !! "__proto__") ≫= field k = None.

(** The cache key a request addresses, and the key a write touches. *)
Definition key_of (req : Request) : string :=
  match req with
  | StartGeneration fid | GetStatus fid | MintNft fid _ => to_key fid
  end.

Definition write_key (wr : Write) : string :=
  match wr with
  | Put k _ | Del k => k
  end.

(** [`box_charakter_fid_${fid}.png`] *)
Definition image_filepath (fid : jsval) : string :=
  "box_charakter_fid_" ++ to_key fid ++ ".png".

(** The document [uploadMetadataToIpfs] builds for a [fid] that has a
    [toString]. *)
Definition metadata_of (fid : jsval) (ipfsImageUri : string) : Metadata :=
  {| name := "Box Character #" ++ to_key fid;
     description :=
       "AI-generated Box Character NFT for Farcaster user FID " ++ to_key fid;
     image := ipfsImageUri;
     attributes :=
       [("Creator Platform", "Farcaster Frame");
        ("Style", "Box Character");
        ("FID", to_key fid)] |}.

(** The records a cache of [src/index.js] can hold. *)
Definition full_record_shape (r : JobRecord) : Prop :=
  r = rec_processing
  \/ (exists h1 h2, r = rec_ready ("ipfs://" ++ h1) ("ipfs://" ++ h2))
  \/ (exists k, 1 <= k <= 4 /\ r = rec_error (full_stage_message k)).

(** The records a cache of the MVP server can hold. *)
Definition mvp_record_shape (r : JobRecord) : Prop :=
  r = rec_processing
  \/ (exists h1 h2, r = rec_ready ("ipfs://" ++ h1) ("ipfs://" ++ h2))
  \/ (exists k, 2 <= k <= 4 /\ r = rec_error (mvp_stage_message k)).

(** A character that [encodeURIComponent] leaves or produces. *)
Definition url_safe (c : ascii) : bool :=
  unreserved c || bool_decide (c = "%"%char).

(** Neither the SDK nor the random source can be had. *)
Definition world_no_chain : World :=
  {| fetchBulkUsers := fetchBulkUsers world_ok;
     replicate_run := replicate_run world_ok;
     axios_get := axios_get world_ok;
     pinFileToIPFS := pinFileToIPFS world_ok;
     pinJSONToIPFS := pinJSONToIPFS world_ok;
     thirdweb_init := Threw "invalid private key";
     getContract := getContract world_ok;
     erc721_mint := erc721_mint world_ok;
     randomBytes := Threw "" |}.

(** A predicate on the record a write stores. *)
Definition write_keeps (P : JobRecord -> Prop) (wr : Write) : Prop :=
  match wr with
  | Put _ r => P r
  | Del _ => True
  end.

(** * Properties *)

(** ** Shared facts *)

Lemma truthy_str_nonempty (o : option string) :
  truthy_str o = true -> exists s, o = Some s /\ s <> "".
Proof.
  destruct o as [s|]; simpl; [|discriminate].
  intros H. exists s. split; [reflexivity|].
  intros ->. discriminate.
Qed.

Lemma truthy_str_some (s : string) : s <> "" -> truthy_str (Some s) = true.
Proof.
  intros H. simpl. destruct (String.eqb_spec s ""); [contradiction|reflexivity].
Qed.

Lemma ipfs_uri_nonempty (hash : string) : "ipfs://" ++ hash <> "".
Proof. discriminate. Qed.

(** The record a lookup reads is the one the map holds under the key. *)
Lemma entry_record_read (c : Cache) (k : string) :
  entry_record (read c k) = c !! k.
Proof.
  unfold read. destruct (String.eqb k "__proto__").
  - destruct (c !! k); reflexivity.
  - destruct (c !! k); [reflexivity|].
    destruct (_ ≫= _); [reflexivity|].
    destruct (bool_decide _); reflexivity.
Qed.

Lemma read_record (c : Cache) (k : string) (r : JobRecord) :
  c !! k = Some r -> read c k = ERecord r.
Proof.
  intros H. unfold read. rewrite H.
  destruct (String.eqb k "__proto__"); reflexivity.
Qed.

Lemma read_insert_eq (c : Cache) (k : string) (r : JobRecord) :
  read (<[k := r]> c) k = ERecord r.
Proof. apply read_record. apply lookup_insert_eq. Qed.

(** A key that names nothing every object inherits reads [undefined]
    when the map holds no record for it and no record was installed
    as prototype. *)
Lemma read_ordinary (c : Cache) (k : string) :
  k <> "__proto__" -> k ∉ object_prototype_methods ->
  c !! k = None -> c !! "__proto__" = None ->
  read c k = EUndefined.
Proof.
  intros Hp Hm Hk Hproto. unfold read.
  destruct (String.eqb_spec k "__proto__"); [contradiction|].
  rewrite Hk, Hproto. simpl.
  rewrite bool_decide_eq_false_2 by exact Hm. reflexivity.
Qed.

Lemma entry_ready_true (c : Cache) (k : string) (r : JobRecord) :
  c !! k = Some r -> status r = Ready ->
  entry_and (read c k) (fun st => bool_decide (st = Some Ready)) = true.
Proof.
  intros Hk H. rewrite (read_record c k r Hk).
  unfold entry_and, entry_status. simpl. rewrite H. reflexivity.
Qed.

Lemma entry_ready_false (c : Cache) (k : string) :
  (forall r, c !! k = Some r -> status r <> Ready) ->
  entry_and (read c k) (fun st => bool_decide (st = Some Ready)) = false.
Proof.
  intros H. unfold entry_and, entry_status. rewrite entry_record_read.
  destruct (c !! k) as [r|]; simpl.
  - rewrite bool_decide_eq_false_2; [apply andb_false_r|].
    intros E. injection E as E. exact (H r eq_refl E).
  - apply andb_false_r.
Qed.

Lemma remove_lookup_eq (c : Cache) (k : string) :
  k <> "__proto__" -> remove k c !! k = None.
Proof.
  intros H. unfold remove.
  destruct (String.eqb_spec k "__proto__"); [contradiction|].
  apply lookup_delete_eq.
Qed.

Lemma remove_lookup_ne (c : Cache) (k j : string) :
  j <> k -> remove k c !! j = c !! j.
Proof.
  intros H. unfold remove. destruct (String.eqb k "__proto__");
    [reflexivity|].
  apply lookup_delete_ne. congruence.
Qed.

Lemma remove_insert_id (c : Cache) (k : string) (r : JobRecord) :
  k <> "__proto__" -> c !! k = None -> remove k (<[k := r]> c) = c.
Proof.
  intros H Hc. unfold remove.
  destruct (String.eqb_spec k "__proto__"); [contradiction|].
  rewrite delete_insert_eq. apply delete_id. exact Hc.
Qed.

(** A lookup that reads [undefined] is at a key other than
    ["__proto__"] that has no record of its own. *)
Lemma read_undefined (c : Cache) (k : string) :
  read c k = EUndefined -> c !! k = None /\ k <> "__proto__".
Proof.
  intros H. split.
  - rewrite <- entry_record_read, H. reflexivity.
  - intros ->. unfold read in H. simpl in H.
    destruct (c !! "__proto__"); discriminate.
Qed.

Lemma settle_nil (c : Cache) : settle [] c = c.
Proof. reflexivity. Qed.

Lemma settle_put (k : string) (r : JobRecord) (c : Cache) :
  settle [Put k r] c !! k = Some r.
Proof. simpl. apply lookup_insert_eq. Qed.

Lemma settle_del (k : string) (c : Cache) :
  k <> "__proto__" -> settle [Del k] c !! k = None.
Proof. intros H. simpl. apply remove_lookup_eq. exact H. Qed.

(** ** Validation of the key *)

(** C9. A start-generation request whose [fid] is missing or empty
    (falsy: [undefined], [null], the empty string, and also [0] and
    [false]) is answered at once with 400 "Missing FID" (InvalidInput);
    the cache is the one it was, no service is called and no write is
    left pending, in both servers. *)
Theorem start_rejects_missing_key (w : World) (fid : jsval) :
  truthy fid = false ->
  (forall s, Full.start_generation w fid s = mkHandled missing_fid s [] [])
  /\ (forall c, Mvp.start_generation w fid c = mkHandled missing_fid c [] [])
  /\ failure_of missing_fid = Some InvalidInput.
Proof.
  intros Hf. repeat split.
  - intros s. unfold Full.start_generation. rewrite Hf. reflexivity.
  - intros c. unfold Mvp.start_generation. rewrite Hf. reflexivity.
Qed.

Lemma start_rejects_missing_key_witness :
  truthy (JStr "") = false
  /\ Full.start_generation world_ok (JStr "")
       (Full.mkServer {["42" := ready42]} false)
     = mkHandled missing_fid (Full.mkServer {["42" := ready42]} false) [] []
  /\ Mvp.start_generation world_ok JUndefined {["42" := ready42]}
     = mkHandled missing_fid {["42" := ready42]} [] [].
Proof.
  split; [reflexivity|]. split.
  - apply (start_rejects_missing_key world_ok (JStr "")). reflexivity.
  - apply (start_rejects_missing_key world_ok JUndefined). reflexivity.
Defined.

(** C10. The status handler answers a missing or empty [fid] with the
    404 "No active job." (NotFound), never with InvalidInput: the same
    answer it gives for a key at which the cache reads [undefined], as
    it does at every key that names nothing an object inherits, has no
    record and meets no record installed as prototype.  Whatever the
    query, the handler leaves the server state as it was, calls no
    service and defers no write. *)
Theorem status_missing_key_not_found (fid : jsval) :
  (forall s,
      server (Full.get_status fid s) = s
      /\ calls (Full.get_status fid s) = []
      /\ deferred (Full.get_status fid s) = [])
  /\ (forall c,
      server (Mvp.get_status fid c) = c
      /\ calls (Mvp.get_status fid c) = []
      /\ deferred (Mvp.get_status fid c) = [])
  /\ (forall s,
      truthy fid = false
      \/ read (Full.MINT_CACHE s) (to_key fid) = EUndefined ->
      response (Full.get_status fid s) = no_active_job)
  /\ (forall c,
      truthy fid = false \/ read c (to_key fid) = EUndefined ->
      response (Mvp.get_status fid c) = no_active_job)
  /\ (forall c : Cache,
      to_key fid <> "__proto__" ->
      to_key fid ∉ object_prototype_methods ->
      c !! to_key fid = None -> c !! "__proto__" = None ->
      read c (to_key fid) = EUndefined)
  /\ failure_of no_active_job = Some NotFound.
Proof.
  repeat split.
  - unfold Full.get_status. destruct (_ || _); reflexivity.
  - unfold Full.get_status. destruct (_ || _); reflexivity.
  - unfold Full.get_status. destruct (_ || _); reflexivity.
  - unfold Mvp.get_status. destruct (_ || _); reflexivity.
  - unfold Mvp.get_status. destruct (_ || _); reflexivity.
  - unfold Mvp.get_status. destruct (_ || _); reflexivity.
  - intros s [Hf | Hn]; unfold Full.get_status.
    + rewrite Hf. reflexivity.
    + rewrite Hn. rewrite orb_true_r. reflexivity.
  - intros c [Hf | Hn]; unfold Mvp.get_status.
    + rewrite Hf. reflexivity.
    + rewrite Hn. rewrite orb_true_r. reflexivity.
  - intros c. apply read_ordinary.
Qed.

Lemma status_missing_key_not_found_witness :
  response (Full.get_status JUndefined
              (Full.mkServer {["undefined" := ready42]} false))
  = no_active_job
  /\ response (Mvp.get_status (JStr "") {["42" := ready42]}) = no_active_job
  /\ response (Mvp.get_status (JStr "7") {["42" := ready42]}) = no_active_job.
Proof.
  split; [|split].
  - apply (status_missing_key_not_found JUndefined). left. reflexivity.
  - apply (status_missing_key_not_found (JStr "")). left. reflexivity.
  - apply (status_missing_key_not_found (JStr "7")). right. reflexivity.
Defined.

(** ** Admission control of [/api/start-generation] *)

(** C1, as stated, fails on the MVP server: with a Processing record
    under "42", a further start request calls the services again and
    leaves a second write-back pending; it is not answered with the
    current status alone. *)
Lemma start_on_processing_respawns_mvp :
  processing42 !! "42" = Some rec_processing
  /\ calls (Mvp.start_generation world_ok (JStr "42") processing42) <> []
  /\ deferred (Mvp.start_generation world_ok (JStr "42") processing42)
     = [Put "42" ready42]
  /\ response (Mvp.start_generation world_ok (JStr "42") processing42)
     = generation_started.
Proof.
  split; [reflexivity|]. split; [discriminate|]. split; reflexivity.
Qed.

(** C1 (amended). In [src/index.js] a start request for a key that
    holds a Processing record is answered with the current status;
    the state is untouched, no service is called, no write is left
    pending.  In the MVP server only a Ready record short-circuits: the
    same request rewrites the record as [{status: "processing"}] and
    runs the pipeline again.  In both servers an accepted start leaves
    exactly one write-back pending. *)
Theorem start_on_processing (w : World) (fid : jsval) (r : JobRecord) :
  truthy fid = true ->
  status r = Processing ->
  (forall s,
      Full.MINT_CACHE s !! to_key fid = Some r ->
      Full.start_generation w fid s
      = mkHandled (json [("status", JStr "processing")]) s [] [])
  /\ (forall c,
      c !! to_key fid = Some r ->
      Mvp.start_generation w fid c
      = mkHandled generation_started (<[to_key fid := rec_processing]> c)
          (trace (Mvp.generation w fid))
          [Put (to_key fid) (Mvp.final_record (result (Mvp.generation w fid)))])
  /\ (forall s,
      response (Full.start_generation w fid s) = generation_started ->
      List.length (deferred (Full.start_generation w fid s)) = 1%nat)
  /\ (forall c,
      response (Mvp.start_generation w fid c) = generation_started ->
      List.length (deferred (Mvp.start_generation w fid c)) = 1%nat).
Proof.
  intros Hf Hr. repeat split.
  - intros s Hs. unfold Full.start_generation.
    rewrite Hf, (read_record _ _ r Hs). unfold entry_and, entry_status.
    simpl. rewrite Hr. reflexivity.
  - intros c Hc. unfold Mvp.start_generation.
    rewrite Hf, (read_record _ _ r Hc). unfold entry_and, entry_status.
    simpl. rewrite Hr. reflexivity.
  - intros s. unfold Full.start_generation. rewrite Hf. simpl.
    destruct (entry_and _ _) eqn:E; [|reflexivity].
    destruct (entry_record _) as [r'|]; simpl; [|discriminate].
    destruct (status r'); discriminate.
  - intros c. unfold Mvp.start_generation. rewrite Hf. simpl.
    destruct (entry_and _ _) eqn:E; [|reflexivity].
    discriminate.
Qed.

Lemma start_on_processing_witness :
  Full.start_generation world_ok (JStr "42") (Full.mkServer processing42 true)
  = mkHandled (json [("status", JStr "processing")])
      (Full.mkServer processing42 true) [] []
  /\ deferred (Mvp.start_generation world_ok (JStr "42") processing42)
     = [Put "42" ready42].
Proof.
  split.
  - apply (start_on_processing world_ok (JStr "42") rec_processing);
      reflexivity.
  - pose proof (start_on_processing world_ok (JStr "42") rec_processing
                  eq_refl eq_refl) as (_ & H & _).
    rewrite (H processing42 eq_refl). reflexivity.
Defined.

(** C2, as stated, fails on [src/index.js]: the answer to a start
    request on a Ready record carries the status alone, neither of the
    stored URIs. *)
Lemma start_on_ready_full_omits_uris :
  cache42 !! "42" = Some (rec_ready "ipfs://Qa" "ipfs://Qb")
  /\ response (Full.start_generation world_ok (JStr "42")
                 (Full.mkServer cache42 false))
     = json [("status", JStr "ready")]
  /\ List.find (fun p => String.eqb (fst p) "ipfsUri")
       (body (response (Full.start_generation world_ok (JStr "42")
                          (Full.mkServer cache42 false))))
     = None
  /\ List.find (fun p => String.eqb (fst p) "metadataUri")
       (body (response (Full.start_generation world_ok (JStr "42")
                          (Full.mkServer cache42 false))))
     = None.
Proof. repeat split; reflexivity. Qed.

(** C2 (amended). A start request for a key whose record is Ready
    short-circuits in both servers: the state is untouched, no service
    is called and no write is left pending.  The MVP server answers
    with the status and the stored [ipfsUri] and [metadataUri];
    [src/index.js] answers with the status alone. *)
Theorem start_on_ready (w : World) (fid : jsval) (r : JobRecord) :
  truthy fid = true ->
  status r = Ready ->
  (forall s,
      Full.MINT_CACHE s !! to_key fid = Some r ->
      Full.start_generation w fid s
      = mkHandled (json [("status", JStr "ready")]) s [] [])
  /\ (forall c,
      c !! to_key fid = Some r ->
      Mvp.start_generation w fid c
      = mkHandled
          (json (("status", JStr "ready")
                   :: opt_field "ipfsUri" (ipfsUri r)
                   ++ opt_field "metadataUri" (metadataUri r))%list)
          c [] []).
Proof.
  intros Hf Hr. split.
  - intros s Hs. unfold Full.start_generation.
    rewrite Hf, (read_record _ _ r Hs). unfold entry_and, entry_status.
    simpl. rewrite Hr. reflexivity.
  - intros c Hc. unfold Mvp.start_generation.
    rewrite Hf, (read_record _ _ r Hc). unfold entry_and, entry_status.
    simpl. rewrite Hr. reflexivity.
Qed.

Lemma start_on_ready_witness :
  Mvp.start_generation world_no_pin (JNum 42) cache42
  = mkHandled
      (json [("status", JStr "ready"); ("ipfsUri", JStr "ipfs://Qa");
             ("metadataUri", JStr "ipfs://Qb")])
      cache42 [] [].
Proof.
  apply (start_on_ready world_no_pin (JNum 42) ready42); reflexivity.
Defined.

(** ** [/api/mint-nft] without a Ready record *)

(** C3, as stated, fails at an empty recipient: there is no record for
    "42", yet the request is refused with 400 "Missing parameters."
    (InvalidInput), not with NotReady. *)
Lemma mint_empty_recipient_invalid_input :
  Full.MINT_CACHE (Full.mkServer ∅ false) !! "42" = None
  /\ response (Full.mint_nft world_ok (JStr "42") (JStr "")
                 (Full.mkServer ∅ false))
     = missing_parameters_full
  /\ failure_of (response (Full.mint_nft world_ok (JStr "42") (JStr "")
                             (Full.mkServer ∅ false)))
     <> Some NotReady.
Proof. split; [reflexivity|]. split; [reflexivity|discriminate]. Qed.

(** C3 (amended). When the record of the key is absent, Processing or
    Error, a mint request calls no service at all (so the Minting
    Service is not invoked), leaves the state untouched and defers no
    write, whatever the key and the recipient; it fails with NotReady
    (409) when key and recipient are both non-empty and with
    InvalidInput (400) otherwise.  Both servers. *)
Theorem mint_without_ready_record (w : World) (fid rcp : jsval) :
  (forall s,
      (forall r, Full.MINT_CACHE s !! to_key fid = Some r -> status r <> Ready) ->
      server (Full.mint_nft w fid rcp s) = s
      /\ calls (Full.mint_nft w fid rcp s) = []
      /\ deferred (Full.mint_nft w fid rcp s) = []
      /\ failure_of (response (Full.mint_nft w fid rcp s))
         = Some (if truthy fid && truthy rcp then NotReady else InvalidInput))
  /\ (forall c,
      (forall r, c !! to_key fid = Some r -> status r <> Ready) ->
      server (Mvp.mint_nft w fid rcp c) = c
      /\ calls (Mvp.mint_nft w fid rcp c) = []
      /\ deferred (Mvp.mint_nft w fid rcp c) = []
      /\ failure_of (response (Mvp.mint_nft w fid rcp c))
         = Some (if truthy fid && truthy rcp then NotReady else InvalidInput)).
Proof.
  split.
  - intros s Hs. unfold Full.mint_nft.
    rewrite (entry_ready_false _ _ Hs).
    destruct (truthy fid), (truthy rcp); simpl; repeat split; reflexivity.
  - intros c Hc. unfold Mvp.mint_nft.
    rewrite (entry_ready_false _ _ Hc).
    destruct (truthy fid), (truthy rcp); simpl; repeat split; reflexivity.
Qed.

Lemma mint_without_ready_record_witness :
  calls (Full.mint_nft world_ok (JStr "42") (JStr "0xABC")
           (Full.mkServer processing42 false)) = []
  /\ failure_of (response (Full.mint_nft world_ok (JStr "42") (JStr "0xABC")
                             (Full.mkServer processing42 false)))
     = Some NotReady.
Proof.
  pose proof (mint_without_ready_record world_ok (JStr "42") (JStr "0xABC"))
    as [H _].
  destruct (H (Full.mkServer processing42 false)) as (_ & Hc & _ & Hf).
  - intros r Hr. vm_compute in Hr. injection Hr as <-. discriminate.
  - split; [exact Hc | exact Hf].
Defined.

(** ** [/api/mint-nft] on a Ready record *)

Lemma full_getSDK_available (w : World) (s : Full.Server) :
  sdk_available w s ->
  Full.getSDK w s
  = (Full.mkServer (Full.MINT_CACHE s) true, (sdk_calls s, Returned tt)).
Proof.
  unfold Full.getSDK, sdk_calls. destruct s as [c [|]]; simpl.
  - reflexivity.
  - intros [Hs | [u Hu]]; [discriminate|]. rewrite Hu. reflexivity.
Qed.

(** When the SDK cannot be built the request ends with 500 "Blockchain
    connection failed."; the cache is not touched. *)
Lemma full_mint_sdk_failure (w : World) (fid rcp : jsval) (s : Full.Server)
    (msg : string) :
  Full.sdkInstance s = false ->
  thirdweb_init w = Threw msg ->
  Full.MINT_CACHE (server (Full.mint_nft w fid rcp s)) = Full.MINT_CACHE s
  /\ deferred (Full.mint_nft w fid rcp s) = [].
Proof.
  intros Hs Hw. unfold Full.mint_nft, Full.getSDK. rewrite Hs, Hw.
  destruct (_ || _); [split; reflexivity|].
  destruct (negb _); split; reflexivity.
Qed.

Lemma full_mint_ready (w : World) (fid rcp : jsval) (s : Full.Server)
    (r : JobRecord) :
  truthy fid = true -> truthy rcp = true ->
  Full.MINT_CACHE s !! to_key fid = Some r -> status r = Ready ->
  sdk_available w s ->
  Full.mint_nft w fid rcp s =
  match getContract w with
  | Threw msg =>
      mkHandled
        (mkRes 500 [("error", JStr "Mint failed."); ("details", JStr msg)])
        (Full.mkServer (Full.MINT_CACHE s) true)
        (sdk_calls s ++ [GetContract])%list []
  | Returned _ =>
      let c := Erc721Mint rcp (nft_name_of fid) (metadataUri r) in
      match erc721_mint w rcp (nft_name_of fid) (metadataUri r) with
      | Threw msg =>
          mkHandled
            (mkRes 500 [("error", JStr "Mint failed.");
                        ("details", JStr msg)])
            (Full.mkServer (Full.MINT_CACHE s) true)
            (sdk_calls s ++ [GetContract; c])%list []
      | Returned txHash =>
          mkHandled
            (json [("success", JBool true); ("txHash", JStr txHash)])
            (Full.mkServer (Full.MINT_CACHE s) true)
            (sdk_calls s ++ [GetContract; c])%list [Del (to_key fid)]
      end
  end.
Proof.
  intros Hf Hr Hs Hst Hsdk. unfold Full.mint_nft.
  rewrite Hf, Hr, (entry_ready_true _ _ r Hs Hst), entry_record_read, Hs.
  rewrite (full_getSDK_available w s Hsdk). simpl.
  unfold nft_name_of.
  destruct (getContract w) as [u|msg]; simpl; [|reflexivity].
  destruct (erc721_mint w rcp _ (metadataUri r)) as [tx|msg]; reflexivity.
Qed.

(** Once the record of the key is gone, a mint request with a recipient
    is refused with 409 and calls nothing. *)
Lemma full_mint_absent (w : World) (fid rcp : jsval) (s : Full.Server) :
  truthy fid = true -> truthy rcp = true ->
  Full.MINT_CACHE s !! to_key fid = None ->
  failure_of (response (Full.mint_nft w fid rcp s)) = Some NotReady
  /\ calls (Full.mint_nft w fid rcp s) = [].
Proof.
  intros Hf Hr Hs. unfold Full.mint_nft.
  rewrite Hf, Hr, entry_ready_false; [split; reflexivity|].
  intros r E. rewrite Hs in E. discriminate.
Qed.

Lemma mvp_mint_absent (w : World) (fid rcp : jsval) (c : Cache) :
  truthy fid = true -> truthy rcp = true ->
  c !! to_key fid = None ->
  failure_of (response (Mvp.mint_nft w fid rcp c)) = Some NotReady
  /\ calls (Mvp.mint_nft w fid rcp c) = [].
Proof.
  intros Hf Hr Hs. unfold Mvp.mint_nft.
  rewrite Hf, Hr, entry_ready_false; [split; reflexivity|].
  intros r E. rewrite Hs in E. discriminate.
Qed.

Lemma mvp_mint_ready (w : World) (fid rcp : jsval) (c : Cache)
    (r : JobRecord) :
  truthy fid = true -> truthy rcp = true ->
  c !! to_key fid = Some r -> status r = Ready ->
  Mvp.mint_nft w fid rcp c =
  match randomBytes w with
  | Returned hex =>
      mkHandled
        (json [("success", JBool true); ("txHash", JStr ("0x" ++ hex))])
        (remove (to_key fid) c) [RandomBytes] []
  | Threw msg =>
      mkHandled
        (mkRes 500 [("success", JBool false);
                    ("error", JStr "Mock mint failed.");
                    ("details", JStr (Mvp.or_else msg "Error"))])
        c [RandomBytes] []
  end.
Proof.
  intros Hf Hr Hc Hst. unfold Mvp.mint_nft.
  rewrite Hf, Hr, (entry_ready_true _ _ r Hc Hst). simpl.
  destruct (randomBytes w); reflexivity.
Qed.

Lemma full_status_absent (fid : jsval) (s : Full.Server) :
  read (Full.MINT_CACHE s) (to_key fid) = EUndefined ->
  response (Full.get_status fid s) = no_active_job.
Proof.
  intros Hs. unfold Full.get_status. rewrite Hs, orb_true_r. reflexivity.
Qed.

Lemma mvp_status_absent (fid : jsval) (c : Cache) :
  read c (to_key fid) = EUndefined ->
  response (Mvp.get_status fid c) = no_active_job.
Proof.
  intros Hs. unfold Mvp.get_status. rewrite Hs, orb_true_r. reflexivity.
Qed.

Lemma full_status_present (fid : jsval) (s : Full.Server) (r : JobRecord) :
  truthy fid = true ->
  Full.MINT_CACHE s !! to_key fid = Some r ->
  Full.get_status fid s = mkHandled (json (record_json r)) s [] [].
Proof.
  intros Hf Hs. unfold Full.get_status.
  rewrite Hf, (read_record _ _ r Hs). reflexivity.
Qed.

Lemma mvp_status_present (fid : jsval) (c : Cache) (r : JobRecord) :
  truthy fid = true ->
  c !! to_key fid = Some r ->
  Mvp.get_status fid c = mkHandled (json (record_json r)) c [] [].
Proof.
  intros Hf Hs. unfold Mvp.get_status.
  rewrite Hf, (read_record _ _ r Hs). reflexivity.
Qed.

(** C4.  The MVP server breaks the claim at the key ["__proto__"]: the
    record a job under that key reaches is installed as the prototype
    of the cache, [delete MINT_CACHE["__proto__"]] removes nothing, and
    so after a mint that succeeded the cache is unchanged, a status
    query still returns the Ready record and every further mint
    request succeeds again.  At a key that names a method every object
    inherits, such as ["constructor"], the record is deleted, but the
    status query that follows reads the inherited method and is
    answered 200 without text, not 404. *)
Theorem mint_proto_key_keeps_record (w : World) (rcp : jsval) (c : Cache)
    (r : JobRecord) (hex : string) :
  truthy rcp = true -> status r = Ready ->
  randomBytes w = Returned hex ->
  (c !! "__proto__" = Some r ->
   let h := Mvp.mint_nft w (JStr "__proto__") rcp c in
   response h = minted ("0x" ++ hex)
   /\ mvp_finish h = c
   /\ response (Mvp.get_status (JStr "__proto__") (mvp_finish h))
      = json (record_json r)
   /\ forall w' hex',
        randomBytes w' = Returned hex' ->
        response (Mvp.mint_nft w' (JStr "__proto__") rcp (mvp_finish h))
        = minted ("0x" ++ hex'))
  /\ (forall name,
        name ∈ object_prototype_methods ->
        c !! name = Some r ->
        c !! "__proto__" = None ->
        let h := Mvp.mint_nft w (JStr name) rcp c in
        response h = minted ("0x" ++ hex)
        /\ mvp_finish h !! name = None
        /\ response (Mvp.get_status (JStr name) (mvp_finish h))
           = Respond 200 JNothing).
Proof.
  intros Hr Hst Hx. split.
  - intros Hc h. subst h.
    rewrite (mvp_mint_ready w (JStr "__proto__") rcp c r eq_refl Hr Hc Hst), Hx.
    unfold mvp_finish. simpl. unfold remove. simpl.
    split; [reflexivity|]. split; [reflexivity|]. split.
    + rewrite (mvp_status_present (JStr "__proto__") c r eq_refl Hc).
      reflexivity.
    + intros w' hex' Hx'.
      rewrite (mvp_mint_ready w' (JStr "__proto__") rcp c r eq_refl Hr Hc Hst),
        Hx'.
      reflexivity.
  - intros name Hin Hc Hproto h. subst h.
    assert (Hne : name <> "__proto__").
    { intros ->. rewrite Hc in Hproto. discriminate. }
    assert (Hf : truthy (JStr name) = true).
    { simpl. destruct (String.eqb_spec name "") as [->|_]; [|reflexivity].
      exfalso. rewrite list_elem_of_In in Hin. simpl in Hin.
      repeat (destruct Hin as [Hin|Hin]; [discriminate|]). exact Hin. }
    rewrite (mvp_mint_ready w (JStr name) rcp c r Hf Hr Hc Hst), Hx.
    unfold mvp_finish. simpl.
    split; [reflexivity|]. split; [apply remove_lookup_eq; exact Hne|].
    unfold Mvp.get_status. rewrite Hf. simpl.
    assert (E : read (remove name c) name = EMethod name).
    { unfold read. destruct (String.eqb_spec name "__proto__");
        [contradiction|].
      rewrite (remove_lookup_eq c name Hne).
      rewrite (remove_lookup_ne c name "__proto__") by congruence.
      rewrite Hproto. simpl.
      rewrite bool_decide_eq_true_2 by exact Hin. reflexivity. }
    rewrite E. reflexivity.
Qed.

(** The cache a job for the key ["__proto__"] leaves in the MVP server
    when every service answers. *)
Lemma mint_proto_key_keeps_record_witness :
  mvp_finish (Mvp.start_generation world_ok (JStr "__proto__") ∅)
  = {["__proto__" := ready42]}
  /\ response (Mvp.mint_nft world_ok (JStr "__proto__") (JStr "0xABC")
                 {["__proto__" := ready42]})
     = minted "0xc0ffee"
  /\ mvp_finish (Mvp.mint_nft world_ok (JStr "__proto__") (JStr "0xABC")
                   {["__proto__" := ready42]})
     = {["__proto__" := ready42]}
  /\ response (Mvp.mint_nft world_ok (JStr "__proto__") (JStr "0xABC")
                 (mvp_finish (Mvp.mint_nft world_ok (JStr "__proto__")
                                (JStr "0xABC") {["__proto__" := ready42]})))
     = minted "0xc0ffee".
Proof.
  split; [reflexivity|].
  destruct (mint_proto_key_keeps_record world_ok (JStr "0xABC")
              {["__proto__" := ready42]} ready42 "c0ffee"
              eq_refl eq_refl eq_refl) as [H _].
  destruct (H eq_refl) as (H1 & H2 & _ & H4).
  split; [exact H1|]. split; [exact H2|].
  exact (H4 world_ok "c0ffee" eq_refl).
Defined.

(** A plain key without a record reads [undefined], also right after
    its record was deleted. *)
Lemma read_plain (c : Cache) (k : string) :
  plain_key c k -> c !! k = None -> read c k = EUndefined.
Proof.
  intros (Hp & Hm & Hi) Hk. unfold read.
  destruct (String.eqb_spec k "__proto__"); [contradiction|].
  rewrite Hk, Hi, bool_decide_eq_false_2 by exact Hm. reflexivity.
Qed.

Lemma read_remove_plain (c : Cache) (k : string) :
  plain_key c k -> read (remove k c) k = EUndefined.
Proof.
  intros (Hp & Hm & Hi). apply read_plain.
  - split; [exact Hp|]. split; [exact Hm|].
    rewrite remove_lookup_ne by congruence. exact Hi.
  - apply remove_lookup_eq. exact Hp.
Qed.

(** X21. On a Ready record under a key at which the cache inherits
    nothing, when the mint succeeds, the request is answered with the
    transaction hash and the record is deleted from the cache: a status
    query for the key then gets 404 (NotFound) and a second mint
    request gets 409 (NotReady) without any service call.  In
    [src/index.js] the mint is the [erc721.mint] call on the contract,
    made once with the stored [metadataUri]; in the MVP server it is
    the fake hash drawn from [crypto.randomBytes]. *)
Theorem mint_consumes_plain_record (w : World) (fid rcp : jsval)
    (r : JobRecord) (tx : string) :
  truthy fid = true -> truthy rcp = true -> status r = Ready ->
  (forall s,
      plain_key (Full.MINT_CACHE s) (to_key fid) ->
      Full.MINT_CACHE s !! to_key fid = Some r ->
      sdk_available w s ->
      (exists u, getContract w = Returned u) ->
      erc721_mint w rcp (nft_name_of fid) (metadataUri r) = Returned tx ->
      let h := Full.mint_nft w fid rcp s in
      response h = minted tx
      /\ calls h
         = (sdk_calls s
              ++ [GetContract;
                  Erc721Mint rcp (nft_name_of fid) (metadataUri r)])%list
      /\ Full.MINT_CACHE (full_finish h) = delete (to_key fid) (Full.MINT_CACHE s)
      /\ response (Full.get_status fid (full_finish h)) = no_active_job
      /\ (forall w' rcp',
           truthy rcp' = true ->
           failure_of (response (Full.mint_nft w' fid rcp' (full_finish h)))
           = Some NotReady
           /\ calls (Full.mint_nft w' fid rcp' (full_finish h)) = []))
  /\ (forall c,
      plain_key c (to_key fid) ->
      c !! to_key fid = Some r ->
      randomBytes w = Returned tx ->
      let h := Mvp.mint_nft w fid rcp c in
      response h = minted ("0x" ++ tx)
      /\ mvp_finish h = delete (to_key fid) c
      /\ response (Mvp.get_status fid (mvp_finish h)) = no_active_job
      /\ (forall w' rcp',
           truthy rcp' = true ->
           failure_of (response (Mvp.mint_nft w' fid rcp' (mvp_finish h)))
           = Some NotReady
           /\ calls (Mvp.mint_nft w' fid rcp' (mvp_finish h)) = [])).
Proof.
  intros Hf Hr Hst.
  assert (Hdel : forall c, plain_key c (to_key fid) ->
            remove (to_key fid) c = delete (to_key fid) c).
  { intros c (Hp & _). unfold remove.
    destruct (String.eqb_spec (to_key fid) "__proto__");
      [contradiction | reflexivity]. }
  split.
  - intros s Hplain Hs Hsdk [u Hc] Hm h. subst h.
    rewrite (full_mint_ready w fid rcp s r Hf Hr Hs Hst Hsdk), Hc. simpl.
    rewrite Hm. unfold full_finish. simpl.
    split; [reflexivity|]. split; [reflexivity|].
    split; [apply Hdel; exact Hplain|]. split.
    + apply full_status_absent. simpl. apply read_remove_plain. exact Hplain.
    + intros w' rcp' Hr'. apply full_mint_absent; [exact Hf | exact Hr' |].
      simpl. apply remove_lookup_eq. apply Hplain.
  - intros c Hplain Hc Hm h. subst h.
    rewrite (mvp_mint_ready w fid rcp c r Hf Hr Hc Hst), Hm.
    unfold mvp_finish. simpl.
    split; [reflexivity|]. split; [apply Hdel; exact Hplain|]. split.
    + apply mvp_status_absent. apply read_remove_plain. exact Hplain.
    + intros w' rcp' Hr'. apply mvp_mint_absent; [exact Hf | exact Hr' |].
      apply remove_lookup_eq. apply Hplain.
Qed.

Lemma mint_consumes_plain_record_witness :
  response (Full.mint_nft world_ok (JStr "42") (JStr "0xABC")
              (Full.mkServer cache42 false))
  = minted "0xDEAD"
  /\ response (Full.get_status (JStr "42")
                 (full_finish (Full.mint_nft world_ok (JStr "42") (JStr "0xABC")
                                 (Full.mkServer cache42 false))))
     = no_active_job.
Proof.
  pose proof (mint_consumes_plain_record world_ok (JStr "42") (JStr "0xABC")
                ready42 "0xDEAD" eq_refl eq_refl eq_refl) as [H _].
  destruct (H (Full.mkServer cache42 false)) as (H1 & _ & _ & H4 & _).
  - split; [discriminate|]. split; [|reflexivity].
    intros Hin. apply list_elem_of_In in Hin. simpl in Hin.
    repeat (destruct Hin as [Hin|Hin]; [discriminate|]). exact Hin.
  - reflexivity.
  - right. exists tt. reflexivity.
  - exists tt. reflexivity.
  - reflexivity.
  - split; [exact H1 | exact H4].
Defined.

(** C5. On a Ready record, when the call to the Minting Service throws
    (at [getContract] or at [erc721.mint]), the request is answered
    with 500 "Mint failed." carrying the error's message as [details]
    (MintFailed); no write is made or deferred, so the cache still
    holds the same Ready record with its URIs, and a later mint
    request that the service accepts succeeds. *)
Theorem mint_failure_keeps_record (w : World) (fid rcp : jsval)
    (s : Full.Server) (r : JobRecord) (msg : string) :
  truthy fid = true -> truthy rcp = true ->
  Full.MINT_CACHE s !! to_key fid = Some r -> status r = Ready ->
  sdk_available w s ->
  mint_throws w fid rcp r msg ->
  let h := Full.mint_nft w fid rcp s in
  response h = mint_failed msg
  /\ failure_of (response h) = Some MintFailed
  /\ deferred h = []
  /\ Full.MINT_CACHE (full_finish h) = Full.MINT_CACHE s
  /\ Full.MINT_CACHE (full_finish h) !! to_key fid = Some r
  /\ (forall w' tx,
       (exists u, getContract w' = Returned u) ->
       erc721_mint w' rcp (nft_name_of fid) (metadataUri r) = Returned tx ->
       response (Full.mint_nft w' fid rcp (full_finish h)) = minted tx).
Proof.
  intros Hf Hr Hs Hst Hsdk Hm h. subst h.
  rewrite (full_mint_ready w fid rcp s r Hf Hr Hs Hst Hsdk).
  assert (Hretry : forall w' tx,
             (exists u, getContract w' = Returned u) ->
             erc721_mint w' rcp (nft_name_of fid) (metadataUri r) = Returned tx ->
             response (Full.mint_nft w' fid rcp
                         (Full.mkServer (Full.MINT_CACHE s) true))
             = minted tx).
  { intros w' tx [u Hc] Hm'.
    rewrite (full_mint_ready w' fid rcp
               (Full.mkServer (Full.MINT_CACHE s) true) r Hf Hr Hs Hst
               (or_introl eq_refl)).
    rewrite Hc. simpl. rewrite Hm'. reflexivity. }
  destruct Hm as [Hc | [[u Hc] Hm]]; rewrite Hc; simpl; [|rewrite Hm];
    unfold full_finish; simpl; repeat split; auto.
Qed.

Lemma mint_failure_keeps_record_witness :
  response (Full.mint_nft world_mint_reverts (JStr "42") (JStr "0xABC")
              (Full.mkServer cache42 false))
  = mint_failed "execution reverted"
  /\ Full.MINT_CACHE
       (full_finish (Full.mint_nft world_mint_reverts (JStr "42") (JStr "0xABC")
                       (Full.mkServer cache42 false))) !! "42"
     = Some ready42.
Proof.
  destruct (mint_failure_keeps_record world_mint_reverts (JStr "42")
              (JStr "0xABC") (Full.mkServer cache42 false) ready42
              "execution reverted")
    as (H1 & _ & _ & _ & H5 & _).
  - reflexivity.
  - reflexivity.
  - reflexivity.
  - reflexivity.
  - right. exists tt. reflexivity.
  - right. split; [exists tt|]; reflexivity.
  - split; [exact H1 | exact H5].
Defined.

(** ** The generation pipeline *)

Lemma up_to_stage_app (k : nat) (l1 l2 : list Call) :
  up_to_stage k l1 -> up_to_stage k l2 -> up_to_stage k (l1 ++ l2)%list.
Proof. unfold up_to_stage. intros H1 H2. apply Forall_app. split; assumption. Qed.

Lemma up_to_stage_mono (j k : nat) (l : list Call) :
  j <= k -> up_to_stage j l -> up_to_stage k l.
Proof.
  unfold up_to_stage. intros Hjk H.
  eapply Forall_impl; [exact H|]. simpl. intros c Hc. lia.
Qed.

Lemma getPfpUrl_total (w : World) (fid : jsval) :
  exists o,
    Full.getPfpUrl w fid = ([NeynarFetchBulkUsers fid], Returned o).
Proof.
  unfold Full.getPfpUrl, call. destruct (fetchBulkUsers w fid) as [us|e]; simpl.
  - eexists. reflexivity.
  - exists None. reflexivity.
Qed.

Lemma generateBoxCharacter_total (w : World) (pfpUrl : string) :
  exists o, Full.generateBoxCharacter w pfpUrl = ([ReplicateRun], Returned o).
Proof.
  unfold Full.generateBoxCharacter, call.
  destruct (replicate_run w) as [[[|u us]|]|e]; simpl; eexists; reflexivity.
Qed.

Lemma uploadImageToIpfs_total (w : World) (imageUrl : option string)
    (fid : jsval) :
  exists t o,
    IpfsUploader.uploadImageToIpfs w imageUrl fid = (t, Returned o)
    /\ up_to_stage 3 t
    /\ (forall s, o = Some s -> s <> "").
Proof.
  unfold IpfsUploader.uploadImageToIpfs, call.
  destruct (truthy_str imageUrl); simpl.
  2:{ exists [], None. repeat split; [constructor | discriminate]. }
  destruct (axios_get w _) as [u|e]; simpl.
  2:{ eexists; exists None. repeat split; [|discriminate].
      repeat constructor. }
  destruct (pinFileToIPFS w _) as [h|e]; simpl.
  - do 2 eexists. split; [reflexivity|]. split.
    + repeat constructor.
    + intros s Hs. injection Hs as <-. discriminate.
  - eexists; exists None. repeat split; [|discriminate]. repeat constructor.
Qed.

Lemma uploadMetadataToIpfs_total (w : World) (fid : jsval) (img : string) :
  truthy fid = true ->
  exists t o,
    IpfsUploader.uploadMetadataToIpfs w fid img = (t, Returned o)
    /\ up_to_stage 4 t
    /\ (forall s, o = Some s -> s <> "").
Proof.
  intros Hf. unfold IpfsUploader.uploadMetadataToIpfs.
  assert (Ht : IpfsUploader.fid_toString fid = ret (to_key fid)).
  { destruct fid; try reflexivity; discriminate. }
  rewrite Ht. simpl. unfold call.
  destruct (pinJSONToIPFS w _) as [h|e]; simpl.
  - do 2 eexists. split; [reflexivity|]. split.
    + repeat constructor.
    + intros s Hs. injection Hs as <-. discriminate.
  - eexists; exists None. repeat split; [|discriminate]. repeat constructor.
Qed.

(** A service that throws makes its helper resolve to [null]. *)
Lemma getPfpUrl_service_throws (w : World) (fid : jsval) (e : string) :
  fetchBulkUsers w fid = Threw e -> value (Full.getPfpUrl w fid) = None.
Proof. intros H. unfold Full.getPfpUrl, call. rewrite H. reflexivity. Qed.

Lemma generateBoxCharacter_service_throws (w : World) (p e : string) :
  replicate_run w = Threw e -> value (Full.generateBoxCharacter w p) = None.
Proof. intros H. unfold Full.generateBoxCharacter, call. rewrite H. reflexivity. Qed.

Lemma uploadMetadataToIpfs_service_throws (w : World) (fid : jsval)
    (img : string) :
  truthy fid = true ->
  (forall doc, exists e, pinJSONToIPFS w doc = Threw e) ->
  value (IpfsUploader.uploadMetadataToIpfs w fid img) = None.
Proof.
  intros Hf H. unfold IpfsUploader.uploadMetadataToIpfs.
  assert (Ht : IpfsUploader.fid_toString fid = ret (to_key fid)).
  { destruct fid; try reflexivity; discriminate. }
  rewrite Ht. simpl. unfold call.
  match goal with |- context [pinJSONToIPFS w ?d] => destruct (H d) as [e He]; rewrite He end.
  reflexivity.
Qed.

Lemma value_resolved {A} (m : Eff (option A)) (t : list Call) (o : option A) :
  m = (t, Returned o) -> value m = o.
Proof. intros ->. reflexivity. Qed.

Lemma truthy_str_cases (o : option string) :
  truthy_str o = false \/ exists s, o = Some s /\ s <> "".
Proof.
  destruct (truthy_str o) eqn:E; [right | left; reflexivity].
  apply truthy_str_nonempty. exact E.
Qed.

Lemma require_some (s msg : string) :
  s <> "" -> require (Some s) msg = ret s.
Proof. intros H. unfold require. rewrite (truthy_str_some s H). reflexivity. Qed.

Lemma require_falsy (o : option string) (msg : string) :
  truthy_str o = false -> require o msg = throw msg.
Proof. intros H. unfold require. rewrite H. destruct o; reflexivity. Qed.

Arguments require : simpl never.

Lemma bind_ret {A B} (a : A) (f : A -> Eff B) : bind (ret a) f = f a.
Proof. unfold bind, ret. destruct (f a). reflexivity. Qed.

Lemma bind_throw {A B} (msg : string) (f : A -> Eff B) :
  bind (throw msg) f = throw msg.
Proof. reflexivity. Qed.

Ltac stage_bound :=
  unfold up_to_stage in *; simpl; rewrite ?app_nil_r;
  repeat first
    [ apply List.Forall_nil
    | apply List.Forall_cons; [simpl; lia|]
    | apply Forall_app; split
    | assumption
    | eapply Forall_impl; [eassumption | simpl; intros; lia] ].

(** Use the equation [E] of a helper that resolved, and read its value
    in [H]. *)
Ltac resolved E H :=
  rewrite E in *; unfold value in H; simpl in H.

(** *** [src/index.js] *)

Lemma full_generation_fails (w : World) (fid : jsval) (k : nat) :
  truthy fid = true ->
  full_stage_fails w fid k ->
  result (Full.generation w fid) = Threw (full_stage_message k)
  /\ up_to_stage k (trace (Full.generation w fid)).
Proof.
  intros Hf Hk. unfold Full.generation.
  destruct (getPfpUrl_total w fid) as [o1 E1].
  inversion Hk
    as [H1 | p H1 Hp H2 | p a H1 Hp H2 Ha H3 | p a i H1 Hp H2 Ha H3 Hi H4];
    subst k; resolved E1 H1.
  - simpl. rewrite (require_falsy _ _ H1). simpl.
    split; [reflexivity | stage_bound].
  - subst o1. simpl. rewrite (require_some _ _ Hp), bind_ret.
    destruct (generateBoxCharacter_total w p) as [o2 E2]. resolved E2 H2.
    simpl. rewrite (require_falsy _ _ H2). simpl.
    split; [reflexivity | stage_bound].
  - subst o1. simpl. rewrite (require_some _ _ Hp), bind_ret.
    destruct (generateBoxCharacter_total w p) as [o2 E2]. resolved E2 H2.
    subst o2. simpl. rewrite (require_some _ _ Ha), bind_ret.
    destruct (uploadImageToIpfs_total w (Some a) fid)
      as (t3 & o3 & E3 & T3 & _).
    resolved E3 H3.
    simpl. rewrite (require_falsy _ _ H3). simpl.
    split; [reflexivity | stage_bound].
  - subst o1. simpl. rewrite (require_some _ _ Hp), bind_ret.
    destruct (generateBoxCharacter_total w p) as [o2 E2]. resolved E2 H2.
    subst o2. simpl. rewrite (require_some _ _ Ha), bind_ret.
    destruct (uploadImageToIpfs_total w (Some a) fid)
      as (t3 & o3 & E3 & T3 & _).
    resolved E3 H3.
    subst o3. simpl. rewrite (require_some _ _ Hi), bind_ret.
    destruct (uploadMetadataToIpfs_total w fid i Hf)
      as (t4 & o4 & E4 & T4 & _).
    resolved E4 H4.
    simpl. rewrite (require_falsy _ _ H4). simpl.
    split; [reflexivity | stage_bound].
Qed.

Lemma full_generation_succeeds (w : World) (fid : jsval) (i m : string) :
  truthy fid = true ->
  full_stages_succeed w fid i m ->
  result (Full.generation w fid) = Returned (i, m).
Proof.
  intros Hf (p & a & H1 & Hp & H2 & Ha & H3 & Hi & H4 & Hm).
  unfold Full.generation.
  destruct (getPfpUrl_total w fid) as [o1 E1]. resolved E1 H1.
  subst o1. simpl. rewrite (require_some _ _ Hp), bind_ret.
  destruct (generateBoxCharacter_total w p) as [o2 E2]. resolved E2 H2.
  subst o2. simpl. rewrite (require_some _ _ Ha), bind_ret.
  destruct (uploadImageToIpfs_total w (Some a) fid) as (t3 & o3 & E3 & _).
  resolved E3 H3.
  subst o3. simpl. rewrite (require_some _ _ Hi), bind_ret.
  destruct (uploadMetadataToIpfs_total w fid i Hf) as (t4 & o4 & E4 & _).
  resolved E4 H4.
  subst o4. simpl. rewrite (require_some _ _ Hm). reflexivity.
Qed.

(** Every run of the pipeline ends in one of the two ways. *)
Lemma full_generation_cases (w : World) (fid : jsval) :
  truthy fid = true ->
  (exists k, full_stage_fails w fid k)
  \/ (exists i m, full_stages_succeed w fid i m).
Proof.
  intros Hf.
  destruct (getPfpUrl_total w fid) as [o1 E1].
  apply value_resolved in E1.
  destruct (truthy_str_cases o1) as [F1 | (p & -> & Hp)].
  { left. exists 1. apply full_fails_profile. rewrite E1. exact F1. }
  destruct (generateBoxCharacter_total w p) as [o2 E2].
  apply value_resolved in E2.
  destruct (truthy_str_cases o2) as [F2 | (a & -> & Ha)].
  { left. exists 2. apply (full_fails_generator _ _ p); [assumption..|].
    rewrite E2. exact F2. }
  destruct (uploadImageToIpfs_total w (Some a) fid) as (t3 & o3 & E3 & _).
  apply value_resolved in E3.
  destruct (truthy_str_cases o3) as [F3 | (i & -> & Hi)].
  { left. exists 3. apply (full_fails_image_pin _ _ p a); [assumption..|].
    rewrite E3. exact F3. }
  destruct (uploadMetadataToIpfs_total w fid i Hf) as (t4 & o4 & E4 & _).
  apply value_resolved in E4.
  destruct (truthy_str_cases o4) as [F4 | (m & -> & Hm)].
  { left. exists 4. apply (full_fails_metadata_pin _ _ p a i); [assumption..|].
    rewrite E4. exact F4. }
  right. exists i, m, p, a. repeat split; assumption.
Qed.

(** *** [src/unnamed/part_000] *)

Lemma mvp_generator_cases (fid : jsval) :
  truthy fid = true ->
  (lone_surrogate (to_key fid) = false
   /\ Mvp.generateBoxCharacter fid = ret (placeholder fid))
  \/ (lone_surrogate (to_key fid) = true
      /\ Mvp.generateBoxCharacter fid = throw "URI malformed").
Proof.
  intros Hf. unfold Mvp.generateBoxCharacter, placeholder, encodeURIComponent.
  rewrite Hf. destruct (lone_surrogate (to_key fid)); [right | left];
    split; reflexivity.
Qed.

Lemma mvp_generateBoxCharacter_eq (fid : jsval) :
  truthy fid = true ->
  result (Mvp.generateBoxCharacter fid) = Returned (placeholder fid) ->
  Mvp.generateBoxCharacter fid = ret (placeholder fid).
Proof.
  intros Hf H. destruct (mvp_generator_cases fid Hf) as [[_ E] | [_ E]].
  - exact E.
  - rewrite E in H. discriminate.
Qed.

Lemma mvp_generation_fails (w : World) (fid : jsval) (k : nat) :
  truthy fid = true ->
  mvp_stage_fails w fid k ->
  result (Mvp.generation w fid) = Threw (mvp_stage_message k)
  /\ up_to_stage k (trace (Mvp.generation w fid)).
Proof.
  intros Hf Hk. unfold Mvp.generation.
  inversion Hk as [H2 | H2 H3 | i H2 H3 Hi H4]; subst k.
  { destruct (mvp_generator_cases fid Hf) as [[_ E] | [_ E]];
      rewrite E in *; [discriminate|].
    rewrite bind_throw. split; [reflexivity | constructor]. }
  all: rewrite (mvp_generateBoxCharacter_eq fid Hf H2), bind_ret.
  all: destruct (uploadImageToIpfs_total w (Some (placeholder fid)) fid)
         as (t3 & o3 & E3 & T3 & _).
  all: resolved E3 H3.
  - simpl. rewrite (require_falsy _ _ H3). simpl.
    split; [reflexivity | stage_bound].
  - subst o3. simpl. rewrite (require_some _ _ Hi), bind_ret.
    destruct (uploadMetadataToIpfs_total w fid i Hf)
      as (t4 & o4 & E4 & T4 & _).
    resolved E4 H4.
    simpl. rewrite (require_falsy _ _ H4). simpl.
    split; [reflexivity | stage_bound].
Qed.

Lemma mvp_generation_succeeds (w : World) (fid : jsval) (i m : string) :
  truthy fid = true ->
  mvp_stages_succeed w fid i m ->
  result (Mvp.generation w fid) = Returned (i, m).
Proof.
  intros Hf (H2 & H3 & Hi & H4 & Hm). unfold Mvp.generation.
  rewrite (mvp_generateBoxCharacter_eq fid Hf H2), bind_ret.
  destruct (uploadImageToIpfs_total w (Some (placeholder fid)) fid)
    as (t3 & o3 & E3 & _).
  resolved E3 H3.
  subst o3. simpl. rewrite (require_some _ _ Hi), bind_ret.
  destruct (uploadMetadataToIpfs_total w fid i Hf) as (t4 & o4 & E4 & _).
  resolved E4 H4.
  subst o4. simpl. rewrite (require_some _ _ Hm). reflexivity.
Qed.

Lemma mvp_generation_cases (w : World) (fid : jsval) :
  truthy fid = true ->
  (exists k, mvp_stage_fails w fid k)
  \/ (exists i m, mvp_stages_succeed w fid i m).
Proof.
  intros Hf.
  destruct (mvp_generator_cases fid Hf) as [[_ E] | [_ E]].
  2:{ left. exists 2. apply mvp_fails_generator. rewrite E. reflexivity. }
  assert (H2 : result (Mvp.generateBoxCharacter fid)
               = Returned (placeholder fid)) by (rewrite E; reflexivity).
  destruct (uploadImageToIpfs_total w (Some (placeholder fid)) fid)
    as (t3 & o3 & E3 & _).
  apply value_resolved in E3.
  destruct (truthy_str_cases o3) as [F3 | (i & -> & Hi)].
  { left. exists 3. apply mvp_fails_image_pin; [exact H2|].
    rewrite E3. exact F3. }
  destruct (uploadMetadataToIpfs_total w fid i Hf) as (t4 & o4 & E4 & _).
  apply value_resolved in E4.
  destruct (truthy_str_cases o4) as [F4 | (m & -> & Hm)].
  { left. exists 4. apply (mvp_fails_metadata_pin _ _ i); [assumption..|].
    rewrite E4. exact F4. }
  right. exists i, m. repeat split; assumption.
Qed.

(** An accepted start request: the record becomes Processing, the
    pipeline runs, one write-back stays pending. *)
Lemma full_start_accepted (w : World) (fid : jsval) (s : Full.Server) :
  response (Full.start_generation w fid s) = generation_started ->
  Full.start_generation w fid s
  = mkHandled generation_started
      (Full.set_cache (<[to_key fid := rec_processing]> (Full.MINT_CACHE s)) s)
      (trace (Full.generation w fid))
      [Put (to_key fid) (Full.final_record (result (Full.generation w fid)))].
Proof.
  unfold Full.start_generation.
  destruct (negb (truthy fid)); [discriminate|].
  destruct (entry_and _ _); [|reflexivity].
  destruct (entry_record _) as [r|]; simpl; [|discriminate].
  destruct (status r); discriminate.
Qed.

Lemma mvp_start_accepted (w : World) (fid : jsval) (c : Cache) :
  response (Mvp.start_generation w fid c) = generation_started ->
  Mvp.start_generation w fid c
  = mkHandled generation_started (<[to_key fid := rec_processing]> c)
      (trace (Mvp.generation w fid))
      [Put (to_key fid) (Mvp.final_record (result (Mvp.generation w fid)))].
Proof.
  unfold Mvp.start_generation.
  destruct (negb (truthy fid)); [discriminate|].
  destruct (entry_and _ _); [discriminate|reflexivity].
Qed.

(** [src/index.js] accepts a start request when the cache reads
    [undefined] at the key, or an Error record. *)
Lemma full_start_fresh (w : World) (fid : jsval) (s : Full.Server) :
  truthy fid = true -> read (Full.MINT_CACHE s) (to_key fid) = EUndefined ->
  response (Full.start_generation w fid s) = generation_started.
Proof.
  intros Hf Hs. unfold Full.start_generation. rewrite Hf, Hs. reflexivity.
Qed.

Lemma full_start_over_error (w : World) (fid : jsval) (s : Full.Server)
    (r : JobRecord) :
  truthy fid = true ->
  Full.MINT_CACHE s !! to_key fid = Some r -> status r = Error ->
  response (Full.start_generation w fid s) = generation_started.
Proof.
  intros Hf Hs Hst. unfold Full.start_generation.
  rewrite Hf, (read_record _ _ r Hs). unfold entry_and, entry_status. simpl.
  rewrite Hst. reflexivity.
Qed.

(** The MVP server accepts a start request unless the key has a Ready
    record. *)
Lemma mvp_start_fresh (w : World) (fid : jsval) (c : Cache) :
  truthy fid = true ->
  (forall r, c !! to_key fid = Some r -> status r <> Ready) ->
  response (Mvp.start_generation w fid c) = generation_started.
Proof.
  intros Hf Hs. unfold Mvp.start_generation.
  rewrite Hf, (entry_ready_false _ _ Hs). reflexivity.
Qed.

Lemma lookup_none_not_ready (c : Cache) (k : string) :
  c !! k = None -> forall r, c !! k = Some r -> status r <> Ready.
Proof. intros H r E. rewrite H in E. discriminate. Qed.


Lemma mvp_stage_message_nonempty (k : nat) : mvp_stage_message k <> "".
Proof. destruct k as [|[|[|[|k]]]]; discriminate. Qed.



(** C7. When every stage resolves to a non-empty result, a start
    request that the server accepts (in [src/index.js]: the cache
    reads [undefined] or an Error record at the key; in the MVP
    server: the key has no Ready record) is answered "processing",
    sets the record to Processing, runs the pipeline and leaves exactly
    one write pending: the record [{status: "ready", ipfsUri,
    metadataUri}] with the two URIs the pinning stages returned, both
    non-empty.  Whatever the cache holds when the write lands, the key
    then maps to that record and a status query returns it; so it does
    when the request has run to its end.  Both servers. *)
Theorem all_stages_succeed_records_ready (w : World) (fid : jsval)
    (i m : string) :
  truthy fid = true ->
  (full_stages_succeed w fid i m ->
   let wr := Put (to_key fid) (mkJob Ready (Some i) (Some m) None) in
   i <> "" /\ m <> ""
   /\ (forall s,
        response (Full.start_generation w fid s) = generation_started ->
        deferred (Full.start_generation w fid s) = [wr])
   /\ (forall s,
        let s' := Full.set_cache (apply_write wr (Full.MINT_CACHE s)) s in
        Full.MINT_CACHE s' !! to_key fid
        = Some (mkJob Ready (Some i) (Some m) None)
        /\ response (Full.get_status fid s') = ready_payload i m)
   /\ (forall s,
        read (Full.MINT_CACHE s) (to_key fid) = EUndefined
        \/ (exists r, Full.MINT_CACHE s !! to_key fid = Some r
                      /\ status r = Error) ->
        Full.start_generation w fid s
        = mkHandled generation_started
            (Full.set_cache
               (<[to_key fid := rec_processing]> (Full.MINT_CACHE s)) s)
            (trace (Full.generation w fid)) [wr]
        /\ response
             (Full.get_status fid (full_finish (Full.start_generation w fid s)))
           = ready_payload i m))
  /\ (mvp_stages_succeed w fid i m ->
      let wr := Put (to_key fid) (mkJob Ready (Some i) (Some m) None) in
      i <> "" /\ m <> ""
      /\ (forall c,
           response (Mvp.start_generation w fid c) = generation_started ->
           deferred (Mvp.start_generation w fid c) = [wr])
      /\ (forall c,
           apply_write wr c !! to_key fid
           = Some (mkJob Ready (Some i) (Some m) None)
           /\ response (Mvp.get_status fid (apply_write wr c))
              = ready_payload i m)
      /\ (forall c,
           (forall r, c !! to_key fid = Some r -> status r <> Ready) ->
           Mvp.start_generation w fid c
           = mkHandled generation_started (<[to_key fid := rec_processing]> c)
               (trace (Mvp.generation w fid)) [wr]
           /\ response
                (Mvp.get_status fid (mvp_finish (Mvp.start_generation w fid c)))
              = ready_payload i m)).
Proof.
  intros Hf. split.
  - intros Hok wr.
    pose proof (full_generation_succeeds w fid i m Hf Hok) as Hres.
    destruct Hok as (p & a & _ & _ & _ & _ & _ & Hi & _ & Hm).
    split; [exact Hi|]. split; [exact Hm|].
    assert (Hland : forall s,
               let s' := Full.set_cache (apply_write wr (Full.MINT_CACHE s)) s in
               Full.MINT_CACHE s' !! to_key fid
               = Some (mkJob Ready (Some i) (Some m) None)
               /\ response (Full.get_status fid s') = ready_payload i m).
    { intros s s'. subst s' wr.
      assert (Hl : Full.MINT_CACHE
                     (Full.set_cache
                        (apply_write
                           (Put (to_key fid)
                              (mkJob Ready (Some i) (Some m) None))
                           (Full.MINT_CACHE s)) s) !! to_key fid
                   = Some (mkJob Ready (Some i) (Some m) None))
        by apply lookup_insert_eq.
      split; [exact Hl|].
      rewrite (full_status_present fid _ _ Hf Hl). reflexivity. }
    split; [|split; [exact Hland|]].
    + intros s Hacc. rewrite (full_start_accepted w fid s Hacc). simpl.
      rewrite Hres. reflexivity.
    + intros s Hadm.
      assert (Hacc : response (Full.start_generation w fid s)
                     = generation_started).
      { destruct Hadm as [Hu | (r & Hr & Hst)].
        - apply full_start_fresh; assumption.
        - apply (full_start_over_error w fid s r); assumption. }
      rewrite (full_start_accepted w fid s Hacc), Hres.
      split; [reflexivity|].
      unfold full_finish. cbn [server deferred settle foldl].
      apply (Hland
               (Full.set_cache
                  (<[to_key fid := rec_processing]> (Full.MINT_CACHE s)) s)).
  - intros Hok wr.
    pose proof (mvp_generation_succeeds w fid i m Hf Hok) as Hres.
    destruct Hok as (_ & _ & Hi & _ & Hm).
    split; [exact Hi|]. split; [exact Hm|].
    assert (Hland : forall c,
               apply_write wr c !! to_key fid
               = Some (mkJob Ready (Some i) (Some m) None)
               /\ response (Mvp.get_status fid (apply_write wr c))
                  = ready_payload i m).
    { intros c. subst wr.
      assert (Hl : apply_write
                     (Put (to_key fid) (mkJob Ready (Some i) (Some m) None)) c
                     !! to_key fid
                   = Some (mkJob Ready (Some i) (Some m) None))
        by apply lookup_insert_eq.
      split; [exact Hl|].
      rewrite (mvp_status_present fid _ _ Hf Hl). reflexivity. }
    split; [|split; [exact Hland|]].
    + intros c Hacc. rewrite (mvp_start_accepted w fid c Hacc). simpl.
      rewrite Hres. reflexivity.
    + intros c Hadm.
      pose proof (mvp_start_fresh w fid c Hf Hadm) as Hacc.
      rewrite (mvp_start_accepted w fid c Hacc), Hres.
      split; [reflexivity|].
      unfold mvp_finish. cbn [server deferred settle foldl].
      apply (Hland (<[to_key fid := rec_processing]> c)).
Qed.

Lemma all_stages_succeed_records_ready_witness :
  Full.start_generation world_ok (JStr "42") (Full.mkServer ∅ false)
  = mkHandled generation_started
      (Full.mkServer {["42" := rec_processing]} false)
      (trace (Full.generation world_ok (JStr "42")))
      [Put "42" (mkJob Ready (Some "ipfs://Qa") (Some "ipfs://Qb") None)]
  /\ response
       (Full.get_status (JStr "42")
          (full_finish
             (Full.start_generation world_ok (JStr "42")
                (Full.mkServer ∅ false))))
     = ready_payload "ipfs://Qa" "ipfs://Qb"
  /\ Mvp.start_generation world_ok (JStr "42") processing42
     = mkHandled generation_started processing42
         (trace (Mvp.generation world_ok (JStr "42")))
         [Put "42" (mkJob Ready (Some "ipfs://Qa") (Some "ipfs://Qb") None)]
  /\ response
       (Mvp.get_status (JStr "42")
          (mvp_finish (Mvp.start_generation world_ok (JStr "42") processing42)))
     = ready_payload "ipfs://Qa" "ipfs://Qb".
Proof.
  destruct (all_stages_succeed_records_ready world_ok (JStr "42")
              "ipfs://Qa" "ipfs://Qb" eq_refl) as [HF HM].
  destruct HF as (_ & _ & _ & _ & HF).
  { exists "img://p42", "img://gen42".
    repeat split; (reflexivity || discriminate). }
  destruct HM as (_ & _ & _ & _ & HM).
  { repeat split; (reflexivity || discriminate). }
  destruct (HF (Full.mkServer ∅ false)) as [F1 F2]; [left; reflexivity|].
  destruct (HM processing42) as [M1 M2].
  { intros r Hr. vm_compute in Hr. injection Hr as <-. discriminate. }
  split; [exact F1|]. split; [exact F2|]. split; [exact M1 | exact M2].
Defined.

(** ** The record invariant under interleaving *)

Lemma record_ok_processing : record_ok rec_processing.
Proof.
  unfold record_ok, rec_processing. simpl.
  repeat split; intros H; (discriminate || (destruct H; discriminate)).
Qed.

Lemma record_ok_ready (i m : string) : record_ok (rec_ready i m).
Proof.
  unfold record_ok, rec_ready. simpl.
  repeat split; intros H;
    (reflexivity || discriminate || (destruct H; discriminate) || eauto).
Qed.

Lemma record_ok_error (msg : string) : record_ok (rec_error msg).
Proof.
  unfold record_ok, rec_error. simpl.
  repeat split; intros H;
    (reflexivity || discriminate || (destruct H; discriminate) || eauto).
Qed.

Lemma full_final_record_ok (r : outcome (string * string)) :
  record_ok (Full.final_record r).
Proof.
  destruct r as [[i m]|msg]; [apply record_ok_ready | apply record_ok_error].
Qed.

Lemma mvp_final_record_ok (r : outcome (string * string)) :
  record_ok (Mvp.final_record r).
Proof.
  destruct r as [[i m]|msg]; [apply record_ok_ready | apply record_ok_error].
Qed.

Lemma cache_ok_insert (c : Cache) (k : string) (r : JobRecord) :
  cache_ok c -> record_ok r -> cache_ok (<[k := r]> c).
Proof. intros Hc Hr. apply map_Forall_insert_2; assumption. Qed.

Lemma cache_ok_delete (c : Cache) (k : string) :
  cache_ok c -> cache_ok (delete k c).
Proof. intros Hc. apply map_Forall_delete. exact Hc. Qed.

Lemma cache_ok_remove (c : Cache) (k : string) :
  cache_ok c -> cache_ok (remove k c).
Proof.
  intros Hc. unfold remove. destruct (String.eqb k "__proto__");
    [exact Hc | apply cache_ok_delete; exact Hc].
Qed.

Lemma cache_ok_apply_write (c : Cache) (wr : Write) :
  cache_ok c -> write_ok wr -> cache_ok (apply_write wr c).
Proof.
  intros Hc Hw. destruct wr as [k r | k]; simpl.
  - apply cache_ok_insert; assumption.
  - apply cache_ok_remove; assumption.
Qed.

Lemma full_getSDK_cache (w : World) (s : Full.Server) :
  Full.MINT_CACHE (fst (Full.getSDK w s)) = Full.MINT_CACHE s.
Proof.
  unfold Full.getSDK. destruct (Full.sdkInstance s); [reflexivity|].
  destruct (thirdweb_init w); reflexivity.
Qed.

Lemma full_handle_ok (w : World) (req : Request) (s : Full.Server) :
  cache_ok (Full.MINT_CACHE s) ->
  cache_ok (Full.MINT_CACHE (server (full_handle w req s)))
  /\ Forall write_ok (deferred (full_handle w req s)).
Proof.
  intros Hs. destruct req as [fid | fid | fid rcp]; simpl.
  - unfold Full.start_generation.
    destruct (negb (truthy fid)); [split; [exact Hs | constructor]|].
    destruct (entry_and _ _); [split; [exact Hs | constructor]|].
    simpl. split.
    + apply cache_ok_insert; [exact Hs | apply record_ok_processing].
    + apply List.Forall_cons; [apply full_final_record_ok | constructor].
  - unfold Full.get_status.
    destruct (_ || _); split; (exact Hs || constructor).
  - unfold Full.mint_nft.
    destruct (_ || _); [split; [exact Hs | constructor]|].
    destruct (negb _); [split; [exact Hs | constructor]|].
    pose proof (full_getSDK_cache w s) as Hsdk.
    destruct (Full.getSDK w s) as [s1 sdk]. simpl in Hsdk.
    destruct (result sdk); [|simpl; rewrite Hsdk; split; [exact Hs|constructor]].
    destruct (result _); simpl; rewrite Hsdk;
      (split; [exact Hs | repeat constructor]).
Qed.

Lemma mvp_handle_ok (w : World) (req : Request) (c : Cache) :
  cache_ok c ->
  cache_ok (server (mvp_handle w req c))
  /\ Forall write_ok (deferred (mvp_handle w req c)).
Proof.
  intros Hs. destruct req as [fid | fid | fid rcp]; simpl.
  - unfold Mvp.start_generation.
    destruct (negb (truthy fid)); [split; [exact Hs | constructor]|].
    destruct (entry_and _ _); [split; [exact Hs | constructor]|].
    simpl. split.
    + apply cache_ok_insert; [exact Hs | apply record_ok_processing].
    + apply List.Forall_cons; [apply mvp_final_record_ok | constructor].
  - unfold Mvp.get_status.
    destruct (_ || _); split; (exact Hs || constructor).
  - unfold Mvp.mint_nft.
    destruct (_ || _); [split; [exact Hs | constructor]|].
    destruct (negb _); [split; [exact Hs | constructor]|].
    unfold call, result. simpl.
    destruct (randomBytes w); simpl; split;
      first [exact Hs | apply cache_ok_remove; exact Hs | constructor].
Qed.

Lemma full_step_ok (a b : System Full.Server) :
  system_ok Full.MINT_CACHE a -> full_step a b -> system_ok Full.MINT_CACHE b.
Proof.
  intros [Hc Hp] Hstep. destruct Hstep as [w req sys | s before after wr].
  - destruct (full_handle_ok w req (srv sys) Hc) as [Hc' Hd].
    split; simpl; [exact Hc'|]. apply Forall_app. split; assumption.
  - simpl in *. apply Forall_app in Hp as [Hb Ha].
    inversion Ha as [|? ? Hwr Ha']; subst.
    split; simpl.
    + apply cache_ok_apply_write; assumption.
    + apply Forall_app. split; assumption.
Qed.

Lemma mvp_step_ok (a b : System Cache) :
  system_ok id a -> mvp_step a b -> system_ok id b.
Proof.
  intros [Hc Hp] Hstep. destruct Hstep as [w req sys | s before after wr].
  - destruct (mvp_handle_ok w req (srv sys) Hc) as [Hc' Hd].
    split; simpl; [exact Hc'|]. apply Forall_app. split; assumption.
  - simpl in *. apply Forall_app in Hp as [Hb Ha].
    inversion Ha as [|? ? Hwr Ha']; subst.
    split; simpl.
    + apply cache_ok_apply_write; assumption.
    + apply Forall_app. split; assumption.
Qed.

Lemma full_reachable_ok (sys : System Full.Server) :
  full_reachable sys -> system_ok Full.MINT_CACHE sys.
Proof.
  induction 1 as [|a b _ IH Hstep].
  - split; [unfold cache_ok; simpl; apply map_Forall_empty | constructor].
  - exact (full_step_ok a b IH Hstep).
Qed.

Lemma mvp_reachable_ok (sys : System Cache) :
  mvp_reachable sys -> system_ok id sys.
Proof.
  induction 1 as [|a b _ IH Hstep].
  - split; [unfold cache_ok; simpl; apply map_Forall_empty | constructor].
  - exact (mvp_step_ok a b IH Hstep).
Qed.

(** C8. Every event of either server (a start, status or mint
    request, or the resumption of a handler that writes back after an
    [await], in any order) preserves the invariant that each record of
    the cache, and each record still to be written, has [ipfsUri] set
    exactly when its status is Ready, [metadataUri] set exactly when
    its status is Ready, and [message] set exactly when its status is
    Error.  The empty cache at boot satisfies it, so every record of
    every reachable cache does. *)
Theorem record_invariant_preserved :
  (forall a b,
      system_ok Full.MINT_CACHE a -> full_step a b ->
      system_ok Full.MINT_CACHE b)
  /\ (forall a b, system_ok id a -> mvp_step a b -> system_ok id b)
  /\ (forall sys key r,
        full_reachable sys ->
        Full.MINT_CACHE (srv sys) !! key = Some r ->
        (is_Some (ipfsUri r) <-> status r = Ready)
        /\ (is_Some (metadataUri r) <-> status r = Ready)
        /\ (is_Some (message r) <-> status r = Error))
  /\ (forall sys key r,
        mvp_reachable sys ->
        srv sys !! key = Some r ->
        (is_Some (ipfsUri r) <-> status r = Ready)
        /\ (is_Some (metadataUri r) <-> status r = Ready)
        /\ (is_Some (message r) <-> status r = Error)).
Proof.
  split; [exact full_step_ok|]. split; [exact mvp_step_ok|]. split.
  - intros sys key r Hreach Hl.
    destruct (full_reachable_ok sys Hreach) as [Hc _].
    exact (Hc key r Hl).
  - intros sys key r Hreach Hl.
    destruct (mvp_reachable_ok sys Hreach) as [Hc _].
    exact (Hc key r Hl).
Qed.

Lemma run42_reachable : mvp_reachable run42.
Proof.
  apply (reach_step _ _ _ _ mid42).
  - apply (reach_step _ _ _ _ mvp_boot); [apply reach_init|].
    replace mid42
      with (mkSystem
              (server (mvp_handle world_ok (StartGeneration (JStr "42"))
                         (srv mvp_boot)))
              (pending mvp_boot
                 ++ deferred (mvp_handle world_ok (StartGeneration (JStr "42"))
                                (srv mvp_boot)))%list)
      by reflexivity.
    apply step_request.
  - replace run42
      with (mkSystem
              ((fun c (_ : Cache) => c)
                 (apply_write (Put "42" ready42)
                    (id (<["42" := rec_processing]> ∅)))
                 (<["42" := rec_processing]> ∅))
              ([] ++ [])%list)
      by reflexivity.
    apply (step_resume id (fun c _ => c) mvp_handle
             (<["42" := rec_processing]> ∅) [] [] (Put "42" ready42)).
Qed.

Lemma record_invariant_preserved_witness :
  (is_Some (ipfsUri ready42) <-> status ready42 = Ready)
  /\ (is_Some (metadataUri ready42) <-> status ready42 = Ready)
  /\ (is_Some (message ready42) <-> status ready42 = Error).
Proof.
  destruct record_invariant_preserved as (_ & _ & _ & H).
  apply (H run42 "42" ready42).
  - exact run42_reachable.
  - reflexivity.
Defined.


(** * Further properties of the code *)

(** ** CORS *)

(** X1. The CORS check of both servers lets a request through exactly
    when it carries no origin (or an empty one) or its origin is one of
    the two front-end origins; every other origin gets the error "Not
    allowed by CORS". *)
Theorem cors_origin_allowed (origin : option string) :
  (cors_origin origin = Returned true <->
   origin = None \/ origin = Some ""
   \/ origin = Some "https://farcaster-box-frontend.vercel.app"
   \/ origin = Some "https://farcaster-box-frame.vercel.app")
  /\ (cors_origin origin = Returned true
      \/ cors_origin origin = Threw "Not allowed by CORS").
Proof.
  unfold cors_origin. destruct origin as [o|]; simpl.
  2:{ split; [split; auto | left; reflexivity]. }
  destruct (String.eqb_spec o "") as [->|Hne]; simpl.
  { split; [split; auto | left; reflexivity]. }
  destruct (bool_decide_reflect (o ∈ allowedOrigins)) as [Hin|Hout].
  - split; [|left; reflexivity]. split; [intros _|reflexivity].
    unfold allowedOrigins in Hin.
    apply elem_of_cons in Hin as [->|Hin]; [auto|].
    apply elem_of_cons in Hin as [->|Hin]; [auto|].
    apply elem_of_nil in Hin. contradiction.
  - split; [|right; reflexivity]. split; [discriminate|].
    intros [H|[H|[H|H]]]; try discriminate; injection H as ->.
    + contradiction.
    + exfalso. apply Hout. unfold allowedOrigins. set_solver.
    + exfalso. apply Hout. unfold allowedOrigins. set_solver.
Qed.

(** ** The helpers of the pipeline *)

(** X2. [getPfpUrl] never throws and calls Neynar exactly once.  It
    resolves to a non-empty string exactly when the service answers
    with at least one user whose first entry has a non-empty
    [pfp_url], and to [null] in every other case, a throwing service
    included; it never resolves to the empty string. *)
Theorem getPfpUrl_resolves (w : World) (fid : jsval) :
  exists o,
    Full.getPfpUrl w fid = ([NeynarFetchBulkUsers fid], Returned o)
    /\ o <> Some ""
    /\ (forall p,
         o = Some p <->
         exists u us,
           fetchBulkUsers w fid = Returned (u :: us)
           /\ pfp_url u = Some p /\ p <> "").
Proof.
  unfold Full.getPfpUrl, call.
  destruct (fetchBulkUsers w fid) as [[|u us]|e]; simpl.
  - exists None. split; [reflexivity|]. split; [discriminate|].
    intros p. split; [discriminate|]. intros (u & us & H & _). discriminate.
  - exists (or_null (pfp_url u)). split; [reflexivity|].
    unfold or_null. destruct (truthy_str (pfp_url u)) eqn:E.
    + apply truthy_str_nonempty in E as (p0 & Hp0 & Hne). rewrite Hp0.
      split; [intros H; injection H as ->; contradiction|].
      intros p. split.
      * intros H. injection H as ->. exists u, us. auto.
      * intros (u' & us' & H & Hp & _). injection H as <- <-.
        rewrite Hp0 in Hp. exact Hp.
    + split; [discriminate|]. intros p. split; [discriminate|].
      intros (u' & us' & H & Hp & Hne). injection H as <- <-.
      rewrite Hp in E. rewrite (truthy_str_some p Hne) in E. discriminate.
  - exists None. split; [reflexivity|]. split; [discriminate|].
    intros p. split; [discriminate|]. intros (u & us & H & _). discriminate.
Qed.

(** X3. The image generator of [src/index.js] does not use the profile
    picture it is given: its outcome is the same for every [pfpUrl].
    It never throws, calls Replicate exactly once, and resolves to the
    first element of the output when that is a non-empty array, to
    [null] otherwise. *)
Theorem generateBoxCharacter_ignores_profile (w : World) (p1 p2 : string) :
  Full.generateBoxCharacter w p1 = Full.generateBoxCharacter w p2
  /\ exists o,
       Full.generateBoxCharacter w p1 = ([ReplicateRun], Returned o)
       /\ (forall u,
            o = Some u <->
            exists us, replicate_run w = Returned (RArray (u :: us))).
Proof.
  split; [reflexivity|].
  unfold Full.generateBoxCharacter, call.
  destruct (replicate_run w) as [[[|u us]|]|e]; simpl.
  - exists None. split; [reflexivity|]. intros u.
    split; [discriminate | intros [us H]; discriminate].
  - exists (Some u). split; [reflexivity|]. intros u'. split.
    + intros H. injection H as ->. exists us. reflexivity.
    + intros [us' H]. injection H as -> _. reflexivity.
  - exists None. split; [reflexivity|]. intros u.
    split; [discriminate | intros [us H]; discriminate].
  - exists None. split; [reflexivity|]. intros u.
    split; [discriminate | intros [us H]; discriminate].
Qed.

(** X4. [uploadImageToIpfs] never throws.  With an empty or null image
    URL it resolves to [null] without calling any service.  Otherwise
    it downloads the image first and calls Pinata only when the
    download succeeded, under the file path
    [box_charakter_fid_<fid>.png]; it resolves to ["ipfs://"] followed
    by the hash Pinata answered, and to [null] when either call
    throws. *)
Theorem uploadImageToIpfs_resolves (w : World) (imageUrl : option string)
    (fid : jsval) :
  exists t o,
    IpfsUploader.uploadImageToIpfs w imageUrl fid = (t, Returned o)
    /\ (truthy_str imageUrl = false -> t = [] /\ o = None)
    /\ (forall url,
         imageUrl = Some url -> url <> "" ->
         (t = [AxiosGet url] /\ o = None
          /\ exists e, axios_get w url = Threw e)
         \/ (t = [AxiosGet url; PinFileToIPFS (image_filepath fid)]
             /\ (exists u, axios_get w url = Returned u)
             /\ o = match pinFileToIPFS w (image_filepath fid) with
                    | Returned h => Some ("ipfs://" ++ h)
                    | Threw _ => None
                    end)).
Proof.
  unfold IpfsUploader.uploadImageToIpfs.
  destruct (truthy_str imageUrl) eqn:E; simpl.
  2:{ exists [], None. split; [reflexivity|]. split; [auto|].
      intros url -> Hne. rewrite (truthy_str_some url Hne) in E.
      discriminate. }
  apply truthy_str_nonempty in E as (url0 & -> & Hne0). simpl.
  fold (image_filepath fid). unfold call.
  destruct (axios_get w url0) as [u|e] eqn:Ha; simpl.
  - destruct (pinFileToIPFS w (image_filepath fid)) as [h|e] eqn:Hp; simpl.
    + do 2 eexists. split; [reflexivity|]. split; [discriminate|].
      intros url H _. injection H as <-. right.
      split; [reflexivity|]. split; [exists u; exact Ha|reflexivity].
    + do 2 eexists. split; [reflexivity|]. split; [discriminate|].
      intros url H _. injection H as <-. right.
      split; [reflexivity|]. split; [exists u; exact Ha|reflexivity].
  - do 2 eexists. split; [reflexivity|]. split; [discriminate|].
    intros url H _. injection H as <-. left.
    split; [reflexivity|]. split; [reflexivity|]. exists e. exact Ha.
Qed.

Lemma uploadImageToIpfs_resolves_witness :
  exists t o,
    IpfsUploader.uploadImageToIpfs world_ok (Some "") (JStr "42")
    = (t, Returned o)
    /\ t = [] /\ o = None.
Proof.
  destruct (uploadImageToIpfs_resolves world_ok (Some "") (JStr "42"))
    as (t & o & H & H0 & _).
  exists t, o. split; [exact H|]. apply H0. reflexivity.
Defined.

Lemma fid_toString_defined (fid : jsval) :
  fid <> JUndefined -> fid <> JNull ->
  IpfsUploader.fid_toString fid = ret (to_key fid).
Proof. intros H1 H2. destruct fid; try reflexivity; contradiction. Qed.

(** X5. [uploadMetadataToIpfs] builds its document before the [try]:
    for a [fid] that is [undefined] or [null] it throws a [TypeError]
    and calls no service.  For every other [fid] it never throws and
    calls Pinata exactly once, with the document whose [image] is the
    URI it was given and whose ["FID"] attribute is the text of the
    [fid]; it resolves to ["ipfs://"] followed by the hash Pinata
    answered, and to [null] when Pinata throws. *)
Theorem uploadMetadataToIpfs_resolves (w : World) (fid : jsval)
    (img : string) :
  (fid = JUndefined \/ fid = JNull ->
   exists msg, IpfsUploader.uploadMetadataToIpfs w fid img = ([], Threw msg))
  /\ (fid <> JUndefined -> fid <> JNull ->
      IpfsUploader.uploadMetadataToIpfs w fid img
      = ([PinJSONToIPFS (metadata_of fid img)],
         Returned match pinJSONToIPFS w (metadata_of fid img) with
                  | Returned h => Some ("ipfs://" ++ h)
                  | Threw _ => None
                  end)
      /\ image (metadata_of fid img) = img
      /\ In ("FID", to_key fid) (attributes (metadata_of fid img))).
Proof.
  split.
  - intros [-> | ->]; eexists; reflexivity.
  - intros H1 H2. split; [|split; [reflexivity | simpl; auto]].
    unfold IpfsUploader.uploadMetadataToIpfs.
    rewrite (fid_toString_defined fid H1 H2), bind_ret.
    fold (metadata_of fid img). unfold call.
    destruct (pinJSONToIPFS w (metadata_of fid img)); reflexivity.
Qed.

Lemma uploadMetadataToIpfs_resolves_witness :
  (exists msg,
      IpfsUploader.uploadMetadataToIpfs world_ok JUndefined "ipfs://Qa"
      = ([], Threw msg))
  /\ IpfsUploader.uploadMetadataToIpfs world_ok (JNum 42) "ipfs://Qa"
     = ([PinJSONToIPFS (metadata_of (JNum 42) "ipfs://Qa")],
        Returned (Some "ipfs://Qb")).
Proof.
  destruct (uploadMetadataToIpfs_resolves world_ok JUndefined "ipfs://Qa")
    as [H _].
  destruct (uploadMetadataToIpfs_resolves world_ok (JNum 42) "ipfs://Qa")
    as [_ H'].
  split.
  - apply H. left. reflexivity.
  - destruct H' as [H' _]; [discriminate | discriminate | exact H'].
Defined.

(** X6. [getSDK] builds the SDK at most once: after a call that
    succeeded the instance is cached and every later call, whatever
    the services do, succeeds without calling anything.  A call that
    fails leaves the server as it was, so the next request tries
    again, and its error text is the fixed "Blockchain SDK konnte
    nicht initialisiert werden.", not the cause.  The job cache is
    never touched. *)
Theorem getSDK_caches (w : World) (s : Full.Server) :
  Full.MINT_CACHE (fst (Full.getSDK w s)) = Full.MINT_CACHE s
  /\ ((exists u, result (snd (Full.getSDK w s)) = Returned u) ->
      Full.sdkInstance (fst (Full.getSDK w s)) = true
      /\ forall w',
          Full.getSDK w' (fst (Full.getSDK w s))
          = (fst (Full.getSDK w s), ([], Returned tt)))
  /\ (forall msg,
        result (snd (Full.getSDK w s)) = Threw msg ->
        fst (Full.getSDK w s) = s
        /\ Full.sdkInstance s = false
        /\ trace (snd (Full.getSDK w s)) = [ThirdwebInit]
        /\ msg = "Blockchain SDK konnte nicht initialisiert werden.").
Proof.
  unfold Full.getSDK. destruct s as [c [|]]; simpl.
  - split; [reflexivity|]. split; [|discriminate].
    intros _. split; reflexivity.
  - destruct (thirdweb_init w) as [u|e]; simpl.
    + split; [reflexivity|]. split; [|discriminate].
      intros _. split; reflexivity.
    + split; [reflexivity|]. split; [intros [u H]; discriminate|].
      intros msg H. injection H as <-. repeat split.
Qed.

Lemma getSDK_caches_witness :
  Full.getSDK world_mint_reverts
    (fst (Full.getSDK world_ok (Full.mkServer cache42 false)))
  = (Full.mkServer cache42 true, ([], Returned tt)).
Proof.
  destruct (getSDK_caches world_ok (Full.mkServer cache42 false))
    as (_ & H & _).
  destruct H as [_ H]; [exists tt; reflexivity|].
  exact (H world_mint_reverts).
Defined.

(** ** The shape of a pipeline run *)

Lemma uploadImageToIpfs_eq (w : World) (url : string) (fid : jsval) :
  url <> "" ->
  IpfsUploader.uploadImageToIpfs w (Some url) fid =
  match axios_get w url with
  | Threw _ => ([AxiosGet url], Returned None)
  | Returned _ =>
      ([AxiosGet url; PinFileToIPFS (image_filepath fid)],
       Returned match pinFileToIPFS w (image_filepath fid) with
                | Returned h => Some ("ipfs://" ++ h)
                | Threw _ => None
                end)
  end.
Proof.
  intros Hne. unfold IpfsUploader.uploadImageToIpfs.
  rewrite (truthy_str_some url Hne). simpl.
  fold (image_filepath fid). unfold call.
  destruct (axios_get w url); simpl; [|reflexivity].
  destruct (pinFileToIPFS w (image_filepath fid)); reflexivity.
Qed.

Lemma truthy_defined (fid : jsval) :
  truthy fid = true -> fid <> JUndefined /\ fid <> JNull.
Proof. destruct fid; simpl; intros H; split; discriminate. Qed.

Lemma uploadMetadataToIpfs_eq (w : World) (fid : jsval) (img : string) :
  truthy fid = true ->
  IpfsUploader.uploadMetadataToIpfs w fid img
  = ([PinJSONToIPFS (metadata_of fid img)],
     Returned match pinJSONToIPFS w (metadata_of fid img) with
              | Returned h => Some ("ipfs://" ++ h)
              | Threw _ => None
              end).
Proof.
  intros Hf. destruct (truthy_defined fid Hf) as [H1 H2].
  unfold IpfsUploader.uploadMetadataToIpfs.
  rewrite (fid_toString_defined fid H1 H2), bind_ret.
  fold (metadata_of fid img). unfold call.
  destruct (pinJSONToIPFS w (metadata_of fid img)); reflexivity.
Qed.

Lemma placeholder_nonempty (fid : jsval) : placeholder fid <> "".
Proof. discriminate. Qed.

(** The five calls of a complete run of [src/index.js], in order. *)
Lemma full_generation_success_eq (w : World) (fid : jsval) (i m : string) :
  truthy fid = true ->
  full_stages_succeed w fid i m ->
  exists a,
    Full.generation w fid
    = ([NeynarFetchBulkUsers fid; ReplicateRun; AxiosGet a;
        PinFileToIPFS (image_filepath fid);
        PinJSONToIPFS (metadata_of fid i)],
       Returned (i, m))
    /\ (exists p, value (Full.getPfpUrl w fid) = Some p
                  /\ value (Full.generateBoxCharacter w p) = Some a)
    /\ (exists u, axios_get w a = Returned u)
    /\ (exists h, pinFileToIPFS w (image_filepath fid) = Returned h
                  /\ i = "ipfs://" ++ h)
    /\ (exists h, pinJSONToIPFS w (metadata_of fid i) = Returned h
                  /\ m = "ipfs://" ++ h).
Proof.
  intros Hf (p & a & H1 & Hp & H2 & Ha & H3 & Hi & H4 & Hm).
  exists a. unfold Full.generation.
  destruct (getPfpUrl_total w fid) as [o1 E1].
  pose proof H1 as H1'. resolved E1 H1. subst o1.
  destruct (generateBoxCharacter_total w p) as [o2 E2].
  pose proof H2 as H2'. rewrite E2 in H2. unfold value in H2. simpl in H2.
  subst o2.
  rewrite (uploadImageToIpfs_eq w a fid Ha) in H3.
  rewrite (uploadMetadataToIpfs_eq w fid i Hf) in H4.
  unfold value in H3, H4.
  destruct (axios_get w a) as [u|e] eqn:Ga; simpl in H3; [|discriminate].
  destruct (pinFileToIPFS w (image_filepath fid)) as [h1|e] eqn:Gp;
    [|discriminate].
  injection H3 as H3.
  simpl in H4.
  destruct (pinJSONToIPFS w (metadata_of fid i)) as [h2|e] eqn:Gj;
    [|discriminate].
  injection H4 as H4.
  subst i m. split.
  - cbn [bind app]. rewrite (require_some _ _ Hp), bind_ret, E2.
    cbn [bind app]. rewrite (require_some _ _ Ha), bind_ret.
    rewrite (uploadImageToIpfs_eq w a fid Ha), Ga, Gp. cbn [bind app].
    rewrite (require_some _ _ Hi), bind_ret.
    rewrite (uploadMetadataToIpfs_eq w fid _ Hf), Gj. cbn [bind app].
    rewrite (require_some _ _ Hm). reflexivity.
  - split; [exists p; split; [exact H1' | rewrite E2; reflexivity]|].
    split; [exists u; reflexivity|].
    split; [exists h1; split; reflexivity|].
    exists h2. split; reflexivity.
Qed.

Lemma mvp_generation_success_eq (w : World) (fid : jsval) (i m : string) :
  truthy fid = true ->
  mvp_stages_succeed w fid i m ->
  Mvp.generation w fid
  = ([AxiosGet (placeholder fid); PinFileToIPFS (image_filepath fid);
      PinJSONToIPFS (metadata_of fid i)],
     Returned (i, m))
  /\ (exists u, axios_get w (placeholder fid) = Returned u)
  /\ (exists h, pinFileToIPFS w (image_filepath fid) = Returned h
                /\ i = "ipfs://" ++ h)
  /\ (exists h, pinJSONToIPFS w (metadata_of fid i) = Returned h
                /\ m = "ipfs://" ++ h).
Proof.
  intros Hf (H2 & H3 & Hi & H4 & Hm). unfold Mvp.generation.
  rewrite (mvp_generateBoxCharacter_eq fid Hf H2), bind_ret.
  rewrite (uploadImageToIpfs_eq w _ fid (placeholder_nonempty fid)) in *.
  rewrite (uploadMetadataToIpfs_eq w fid i Hf) in H4.
  unfold value in H3, H4.
  destruct (axios_get w (placeholder fid)) as [u|e] eqn:Ga; simpl in H3;
    [|discriminate].
  destruct (pinFileToIPFS w (image_filepath fid)) as [h1|e] eqn:Gp;
    [|discriminate].
  injection H3 as H3. simpl in H4.
  destruct (pinJSONToIPFS w (metadata_of fid i)) as [h2|e] eqn:Gj;
    [|discriminate].
  injection H4 as H4. subst i m. split.
  - cbn [bind app]. rewrite (require_some _ _ Hi), bind_ret.
    rewrite (uploadMetadataToIpfs_eq w fid _ Hf), Gj. cbn [bind app].
    rewrite (require_some _ _ Hm). reflexivity.
  - split; [exists u; reflexivity|].
    split; [exists h1; split; reflexivity|].
    exists h2. split; reflexivity.
Qed.

Lemma full_generation_returned (w : World) (fid : jsval) (i m : string) :
  truthy fid = true ->
  result (Full.generation w fid) = Returned (i, m) ->
  full_stages_succeed w fid i m.
Proof.
  intros Hf Hres.
  destruct (full_generation_cases w fid Hf) as [[k Hk] | (i' & m' & Hok)].
  - destruct (full_generation_fails w fid k Hf Hk) as [H _].
    rewrite H in Hres. discriminate.
  - rewrite (full_generation_succeeds w fid i' m' Hf Hok) in Hres.
    injection Hres as <- <-. exact Hok.
Qed.

Lemma mvp_generation_returned (w : World) (fid : jsval) (i m : string) :
  truthy fid = true ->
  result (Mvp.generation w fid) = Returned (i, m) ->
  mvp_stages_succeed w fid i m.
Proof.
  intros Hf Hres.
  destruct (mvp_generation_cases w fid Hf) as [[k Hk] | (i' & m' & Hok)].
  - destruct (mvp_generation_fails w fid k Hf Hk) as [H _].
    rewrite H in Hres. discriminate.
  - rewrite (mvp_generation_succeeds w fid i' m' Hf Hok) in Hres.
    injection Hres as <- <-. exact Hok.
Qed.

(** X7. A pipeline run that succeeds called every service of its
    server exactly once and in order, and the two URIs it returns are
    ["ipfs://"] followed by the hashes Pinata answered: the first for
    the image file, the second for the metadata document, whose
    [image] field is the first URI.  In [src/index.js] the run has five
    calls (Neynar, Replicate, download, two pins); in the MVP server
    three (download of the placeholder, two pins). *)
Theorem ready_uris_come_from_pinata (w : World) (fid : jsval) (i m : string) :
  truthy fid = true ->
  (result (Full.generation w fid) = Returned (i, m) ->
   exists a h1 h2,
     trace (Full.generation w fid)
     = [NeynarFetchBulkUsers fid; ReplicateRun; AxiosGet a;
        PinFileToIPFS (image_filepath fid);
        PinJSONToIPFS (metadata_of fid i)]
     /\ pinFileToIPFS w (image_filepath fid) = Returned h1
     /\ i = "ipfs://" ++ h1
     /\ pinJSONToIPFS w (metadata_of fid i) = Returned h2
     /\ m = "ipfs://" ++ h2)
  /\ (result (Mvp.generation w fid) = Returned (i, m) ->
      exists h1 h2,
        trace (Mvp.generation w fid)
        = [AxiosGet (placeholder fid); PinFileToIPFS (image_filepath fid);
           PinJSONToIPFS (metadata_of fid i)]
        /\ pinFileToIPFS w (image_filepath fid) = Returned h1
        /\ i = "ipfs://" ++ h1
        /\ pinJSONToIPFS w (metadata_of fid i) = Returned h2
        /\ m = "ipfs://" ++ h2).
Proof.
  intros Hf. split; intros Hres.
  - apply (full_generation_returned w fid i m Hf) in Hres.
    destruct (full_generation_success_eq w fid i m Hf Hres)
      as (a & E & _ & _ & (h1 & G1 & ->) & (h2 & G2 & ->)).
    exists a, h1, h2. rewrite E. repeat split; assumption.
  - apply (mvp_generation_returned w fid i m Hf) in Hres.
    destruct (mvp_generation_success_eq w fid i m Hf Hres)
      as (E & _ & (h1 & G1 & ->) & (h2 & G2 & ->)).
    exists h1, h2. rewrite E. repeat split; assumption.
Qed.

Lemma ready_uris_come_from_pinata_witness :
  exists a h1 h2,
    trace (Full.generation world_ok (JStr "42"))
    = [NeynarFetchBulkUsers (JStr "42"); ReplicateRun; AxiosGet a;
       PinFileToIPFS (image_filepath (JStr "42"));
       PinJSONToIPFS (metadata_of (JStr "42") "ipfs://Qa")]
    /\ pinFileToIPFS world_ok (image_filepath (JStr "42")) = Returned h1
    /\ "ipfs://Qa" = "ipfs://" ++ h1
    /\ pinJSONToIPFS world_ok (metadata_of (JStr "42") "ipfs://Qa")
       = Returned h2
    /\ "ipfs://Qb" = "ipfs://" ++ h2.
Proof.
  destruct (ready_uris_come_from_pinata world_ok (JStr "42")
              "ipfs://Qa" "ipfs://Qb" eq_refl) as [H _].
  apply H. reflexivity.
Defined.

Lemma full_generation_prefix (w : World) (fid : jsval) :
  truthy fid = true ->
  exists a i,
    trace (Full.generation w fid)
      `prefix_of` [NeynarFetchBulkUsers fid; ReplicateRun; AxiosGet a;
                   PinFileToIPFS (image_filepath fid);
                   PinJSONToIPFS (metadata_of fid i)]
    /\ head (trace (Full.generation w fid)) = Some (NeynarFetchBulkUsers fid).
Proof.
  intros Hf. unfold Full.generation.
  destruct (getPfpUrl_total w fid) as [o1 E1]. rewrite E1.
  destruct (truthy_str_cases o1) as [F1 | (p & -> & Hp)].
  { exists "", "". cbn [bind app]. rewrite (require_falsy _ _ F1). simpl.
    split; [eexists; reflexivity | reflexivity]. }
  cbn [bind app]. rewrite (require_some _ _ Hp), bind_ret.
  destruct (generateBoxCharacter_total w p) as [o2 E2]. rewrite E2.
  destruct (truthy_str_cases o2) as [F2 | (a & -> & Ha)].
  { exists "", "". cbn [bind app]. rewrite (require_falsy _ _ F2). simpl.
    split; [eexists; reflexivity | reflexivity]. }
  cbn [bind app]. rewrite (require_some _ _ Ha), bind_ret.
  rewrite (uploadImageToIpfs_eq w a fid Ha).
  destruct (axios_get w a) as [u|e].
  2:{ exists a, "". cbn [bind app]. rewrite require_falsy by reflexivity.
      simpl. split; [eexists; reflexivity | reflexivity]. }
  destruct (pinFileToIPFS w (image_filepath fid)) as [h1|e].
  2:{ exists a, "". cbn [bind app]. rewrite require_falsy by reflexivity.
      simpl. split; [eexists; reflexivity | reflexivity]. }
  exists a, ("ipfs://" ++ h1). cbn [bind app].
  rewrite (require_some _ _ (ipfs_uri_nonempty h1)), bind_ret.
  rewrite (uploadMetadataToIpfs_eq w fid _ Hf).
  destruct (pinJSONToIPFS w _) as [h2|e]; cbn [bind app].
  - rewrite (require_some _ _ (ipfs_uri_nonempty h2)).
    split; [exists []; reflexivity | reflexivity].
  - rewrite require_falsy by reflexivity.
    split; [exists []; reflexivity | reflexivity].
Qed.

Lemma mvp_generation_prefix (w : World) (fid : jsval) :
  truthy fid = true ->
  exists i,
    trace (Mvp.generation w fid)
      `prefix_of` [AxiosGet (placeholder fid);
                   PinFileToIPFS (image_filepath fid);
                   PinJSONToIPFS (metadata_of fid i)]
    /\ (lone_surrogate (to_key fid) = false ->
        head (trace (Mvp.generation w fid))
        = Some (AxiosGet (placeholder fid)))
    /\ (lone_surrogate (to_key fid) = true ->
        Mvp.generation w fid = ([], Threw "URI malformed")).
Proof.
  intros Hf. unfold Mvp.generation.
  destruct (mvp_generator_cases fid Hf) as [[L E] | [L E]]; rewrite E, L.
  2:{ exists "". rewrite bind_throw.
      split; [eexists; reflexivity|]. split; [discriminate | reflexivity]. }
  rewrite bind_ret.
  rewrite (uploadImageToIpfs_eq w _ fid (placeholder_nonempty fid)).
  destruct (axios_get w (placeholder fid)) as [u|e].
  2:{ exists "". cbn [bind app]. rewrite require_falsy by reflexivity.
      split; [eexists; reflexivity|]. split; [reflexivity | discriminate]. }
  destruct (pinFileToIPFS w (image_filepath fid)) as [h1|e].
  2:{ exists "". cbn [bind app]. rewrite require_falsy by reflexivity.
      split; [eexists; reflexivity|]. split; [reflexivity | discriminate]. }
  exists ("ipfs://" ++ h1). cbn [bind app].
  rewrite (require_some _ _ (ipfs_uri_nonempty h1)), bind_ret.
  rewrite (uploadMetadataToIpfs_eq w fid _ Hf).
  destruct (pinJSONToIPFS w _) as [h2|e]; cbn [bind app].
  - rewrite (require_some _ _ (ipfs_uri_nonempty h2)).
    split; [exists []; reflexivity|]. split; [reflexivity | discriminate].
  - rewrite require_falsy by reflexivity.
    split; [exists []; reflexivity|]. split; [reflexivity | discriminate].
Qed.

(** X8. Whatever the services answer, the calls of a pipeline run are an
    initial segment of one fixed sequence: the run stops at the first
    failure, calls no service twice and none out of order, and pins
    the metadata only after the image was pinned.  In [src/index.js]
    the first call, the Neynar lookup, always happens.  In the MVP
    server the first call, the download of the placeholder image,
    happens unless the text of the [fid] holds an unpaired surrogate:
    then [encodeURIComponent] throws and the run ends with "URI
    malformed" before any call. *)
Theorem pipeline_calls_in_order (w : World) (fid : jsval) :
  truthy fid = true ->
  (exists a i,
      trace (Full.generation w fid)
        `prefix_of` [NeynarFetchBulkUsers fid; ReplicateRun; AxiosGet a;
                     PinFileToIPFS (image_filepath fid);
                     PinJSONToIPFS (metadata_of fid i)]
      /\ head (trace (Full.generation w fid))
         = Some (NeynarFetchBulkUsers fid))
  /\ (exists i,
      trace (Mvp.generation w fid)
        `prefix_of` [AxiosGet (placeholder fid);
                     PinFileToIPFS (image_filepath fid);
                     PinJSONToIPFS (metadata_of fid i)]
      /\ (lone_surrogate (to_key fid) = false ->
          head (trace (Mvp.generation w fid))
          = Some (AxiosGet (placeholder fid)))
      /\ (lone_surrogate (to_key fid) = true ->
          Mvp.generation w fid = ([], Threw "URI malformed"))).
Proof.
  intros Hf. split.
  - exact (full_generation_prefix w fid Hf).
  - exact (mvp_generation_prefix w fid Hf).
Qed.

Lemma pipeline_calls_in_order_witness :
  head (trace (Mvp.generation world_no_pin (JNum 42)))
  = Some (AxiosGet (placeholder (JNum 42)))
  /\ Mvp.generation world_ok (JStr lone_d800) = ([], Threw "URI malformed").
Proof.
  split.
  - destruct (pipeline_calls_in_order world_no_pin (JNum 42) eq_refl)
      as [_ (i & _ & H & _)].
    apply H. reflexivity.
  - destruct (pipeline_calls_in_order world_ok (JStr lone_d800) eq_refl)
      as [_ (i & _ & _ & H)].
    apply H. reflexivity.
Defined.

(** ** Admission, keys and frames *)

(** X9. Which start requests are accepted.  [src/index.js] starts a
    pipeline exactly when the [fid] is non-empty and the cache reads
    nothing truthy or an Error record at the key; so a key that names
    something every object inherits (["constructor"], ["__proto__"],
    ...) and has no record is answered [{}] and starts nothing.  The
    MVP server starts a pipeline exactly when the [fid] is non-empty
    and the key has no Ready record (so also over a Processing
    record).  An accepted request puts [{status: "processing"}] under
    the key in place of whatever record was there, an Error record
    with its message included. *)
Theorem start_admission (w : World) (fid : jsval) :
  (forall s,
      (response (Full.start_generation w fid s) = generation_started <->
       truthy fid = true
       /\ (entry_truthy (read (Full.MINT_CACHE s) (to_key fid)) = false
           \/ exists r, Full.MINT_CACHE s !! to_key fid = Some r
                        /\ status r = Error))
      /\ (response (Full.start_generation w fid s) = generation_started ->
          Full.MINT_CACHE (server (Full.start_generation w fid s)) !! to_key fid
          = Some rec_processing)
      /\ (truthy fid = true ->
          Full.MINT_CACHE s !! to_key fid = None ->
          to_key fid = "__proto__" \/ to_key fid ∈ object_prototype_methods ->
          Full.start_generation w fid s = mkHandled (json []) s [] []))
  /\ (forall c,
      (response (Mvp.start_generation w fid c) = generation_started <->
       truthy fid = true
       /\ forall r, c !! to_key fid = Some r -> status r <> Ready)
      /\ (response (Mvp.start_generation w fid c) = generation_started ->
          server (Mvp.start_generation w fid c) !! to_key fid
          = Some rec_processing)).
Proof.
  split.
  - intros s. split; [|split].
    + unfold Full.start_generation. destruct (truthy fid); simpl.
      2:{ split; [discriminate | intros [H _]; discriminate]. }
      destruct (Full.MINT_CACHE s !! to_key fid) as [r|] eqn:Hl.
      * rewrite (read_record _ _ r Hl). unfold entry_and, entry_status. simpl.
        destruct (status r) eqn:E; simpl.
        -- split; [discriminate|]. intros [_ [H | (r' & Hr' & H)]];
             [discriminate | congruence].
        -- split; [discriminate|]. intros [_ [H | (r' & Hr' & H)]];
             [discriminate | congruence].
        -- split; [|reflexivity]. intros _. split; [reflexivity|].
           right. exists r. auto.
      * unfold entry_and, entry_status. rewrite entry_record_read, Hl. simpl.
        destruct (entry_truthy _) eqn:T; simpl.
        -- split; [discriminate|]. intros [_ [H | (r' & Hr' & H)]];
             discriminate.
        -- split; [|reflexivity]. intros _. split; [reflexivity|].
           left. reflexivity.
    + intros H. rewrite (full_start_accepted w fid s H). simpl.
      apply lookup_insert_eq.
    + intros Hf Hl Hk. unfold Full.start_generation. rewrite Hf. simpl.
      assert (T : entry_truthy (read (Full.MINT_CACHE s) (to_key fid)) = true).
      { unfold read. rewrite Hl.
        destruct (String.eqb_spec (to_key fid) "__proto__") as [E|E];
          [reflexivity|].
        destruct Hk as [Hk|Hk]; [contradiction|].
        assert (F : forall o, o ≫= field (to_key fid) = None).
        { intros [r|]; [|reflexivity]. simpl. unfold field.
          rewrite list_elem_of_In in Hk. simpl in Hk.
          repeat (destruct Hk as [Hk|Hk];
                  [rewrite <- Hk; reflexivity|]).
          destruct Hk. }
        rewrite F, bool_decide_eq_true_2 by exact Hk. reflexivity. }
      unfold entry_and, entry_status. rewrite entry_record_read, Hl, T.
      reflexivity.
  - intros c. split.
    + unfold Mvp.start_generation. destruct (truthy fid); simpl.
      2:{ split; [discriminate | intros [H _]; discriminate]. }
      destruct (c !! to_key fid) as [r|] eqn:Hl.
      * rewrite (read_record _ _ r Hl). unfold entry_and, entry_status. simpl.
        destruct (status r) eqn:E; simpl.
        -- split; [|reflexivity]. intros _. split; [reflexivity|].
           intros r' H. injection H as <-. rewrite E. discriminate.
        -- split; [discriminate|]. intros [_ H].
           exfalso. exact (H r eq_refl E).
        -- split; [|reflexivity]. intros _. split; [reflexivity|].
           intros r' H. injection H as <-. rewrite E. discriminate.
      * rewrite entry_ready_false
          by (intros r E; rewrite Hl in E; discriminate).
        split; [|reflexivity]. intros _. split; [reflexivity|]. discriminate.
    + intros H. rewrite (mvp_start_accepted w fid c H). simpl.
      apply lookup_insert_eq.
Qed.

Lemma start_admission_witness :
  Full.MINT_CACHE
    (server (Full.start_generation world_ok (JStr "42")
               (Full.mkServer {["42" := rec_error "IPFS failed."]} false)))
    !! "42"
  = Some rec_processing
  /\ Full.start_generation world_ok (JStr "constructor")
       (Full.mkServer ∅ false)
     = mkHandled (json []) (Full.mkServer ∅ false) [] [].
Proof.
  split.
  - destruct (start_admission world_ok (JStr "42")) as [H _].
    destruct (H (Full.mkServer {["42" := rec_error "IPFS failed."]} false))
      as (_ & H' & _).
    apply H'. reflexivity.
  - destruct (start_admission world_ok (JStr "constructor")) as [H _].
    destruct (H (Full.mkServer ∅ false)) as (_ & _ & H').
    apply H'; [reflexivity | reflexivity |].
    right. apply list_elem_of_In. simpl. auto.
Defined.

(** X10. The cache is keyed by the text of the [fid]: two non-empty
    [fid]s with the same [String(fid)], such as the number 42 and the
    string "42", address the same job.  A status query under one,
    right after a start request under the other was accepted, answers
    [{status: "processing"}].  Both servers. *)
Theorem same_text_same_job (w : World) (fid1 fid2 : jsval) :
  truthy fid1 = true -> truthy fid2 = true ->
  to_key fid1 = to_key fid2 ->
  (forall s,
      response (Full.start_generation w fid1 s) = generation_started ->
      response (Full.get_status fid2 (server (Full.start_generation w fid1 s)))
      = json [("status", JStr "processing")])
  /\ (forall c,
      response (Mvp.start_generation w fid1 c) = generation_started ->
      response (Mvp.get_status fid2 (server (Mvp.start_generation w fid1 c)))
      = json [("status", JStr "processing")]).
Proof.
  intros H1 H2 Hk. split.
  - intros s Hacc. rewrite (full_start_accepted w fid1 s Hacc). simpl.
    rewrite (full_status_present fid2 _ rec_processing H2); [reflexivity|].
    simpl. rewrite Hk. apply lookup_insert_eq.
  - intros c Hacc. rewrite (mvp_start_accepted w fid1 c Hacc). simpl.
    rewrite (mvp_status_present fid2 _ rec_processing H2); [reflexivity|].
    rewrite Hk. apply lookup_insert_eq.
Qed.

Lemma same_text_same_job_witness :
  response (Mvp.get_status (JStr "42")
              (server (Mvp.start_generation world_ok (JNum 42) ∅)))
  = json [("status", JStr "processing")].
Proof.
  destruct (same_text_same_job world_ok (JNum 42) (JStr "42")
              eq_refl eq_refl eq_refl) as [_ H].
  apply (H ∅). reflexivity.
Defined.

Lemma settle_other_key (ws : list Write) (c : Cache) (key k : string) :
  Forall (fun wr => write_key wr = key) ws -> k <> key ->
  settle ws c !! k = c !! k.
Proof.
  intros Hws Hk. revert c. induction Hws as [|wr ws Hwr _ IH]; intros c.
  - reflexivity.
  - unfold settle in *. simpl. rewrite IH.
    destruct wr as [k' r | k']; simpl in *; subst k'.
    + apply lookup_insert_ne. congruence.
    + apply remove_lookup_ne. exact Hk.
Qed.

(** What a lookup reads depends on the key's own slot and on the
    record installed as prototype only. *)
Lemma read_frame (c c' : Cache) (k : string) :
  c' !! k = c !! k -> c' !! "__proto__" = c !! "__proto__" ->
  read c' k = read c k.
Proof. intros H1 H2. unfold read. rewrite H1, H2. reflexivity. Qed.

Lemma full_handle_frame (w : World) (req : Request) (s : Full.Server)
    (k : string) :
  k <> key_of req ->
  Full.MINT_CACHE (server (full_handle w req s)) !! k = Full.MINT_CACHE s !! k
  /\ Forall (fun wr => write_key wr = key_of req)
       (deferred (full_handle w req s)).
Proof.
  intros Hk. destruct req as [fid | fid | fid rcp]; simpl in *.
  - unfold Full.start_generation.
    destruct (negb (truthy fid)); [split; [reflexivity | constructor]|].
    destruct (entry_and _ _); [split; [reflexivity | constructor]|].
    simpl. split.
    + apply lookup_insert_ne. congruence.
    + apply List.Forall_cons; [reflexivity | constructor].
  - unfold Full.get_status.
    destruct (_ || _); split; (reflexivity || constructor).
  - unfold Full.mint_nft.
    destruct (_ || _); [split; [reflexivity | constructor]|].
    destruct (negb _); [split; [reflexivity | constructor]|].
    pose proof (full_getSDK_cache w s) as Hsdk.
    destruct (Full.getSDK w s) as [s1 sdk]. simpl in Hsdk.
    destruct (result sdk);
      [|simpl; rewrite Hsdk; split; [reflexivity | constructor]].
    destruct (result _); simpl; rewrite Hsdk; split;
      first [reflexivity
            | apply List.Forall_cons; [reflexivity | constructor]
            | constructor].
Qed.

Lemma mvp_handle_frame (w : World) (req : Request) (c : Cache) (k : string) :
  k <> key_of req ->
  server (mvp_handle w req c) !! k = c !! k
  /\ Forall (fun wr => write_key wr = key_of req)
       (deferred (mvp_handle w req c)).
Proof.
  intros Hk. destruct req as [fid | fid | fid rcp]; simpl in *.
  - unfold Mvp.start_generation.
    destruct (negb (truthy fid)); [split; [reflexivity | constructor]|].
    destruct (entry_and _ _); [split; [reflexivity | constructor]|].
    simpl. split.
    + apply lookup_insert_ne. congruence.
    + apply List.Forall_cons; [reflexivity | constructor].
  - unfold Mvp.get_status.
    destruct (_ || _); split; (reflexivity || constructor).
  - unfold Mvp.mint_nft.
    destruct (_ || _); [split; [reflexivity | constructor]|].
    destruct (negb _); [split; [reflexivity | constructor]|].
    unfold call, result. simpl.
    destruct (randomBytes w); simpl; split;
      first [reflexivity | constructor | apply remove_lookup_ne; exact Hk].
Qed.

(** X11. A request writes the cache under its own key only: the own
    record of every other key is the same after the handler's
    synchronous part, every write the handler defers is on its own
    key, and so the own record of every other key is still the same
    when the handler has run to its end.  When the request's key is
    not ["__proto__"], what the cache reads at every other key is
    unchanged as well.  Both servers.  A start request for
    ["__proto__"] on the MVP server is the exception: the record it
    writes becomes the prototype of the cache, so a lookup of
    ["status"] then reads the text ["processing"] where it read
    nothing before. *)
Theorem other_keys_untouched (w : World) (req : Request) (k : string) :
  k <> key_of req ->
  (forall s,
      Full.MINT_CACHE (server (full_handle w req s)) !! k
      = Full.MINT_CACHE s !! k
      /\ Forall (fun wr => write_key wr = key_of req)
           (deferred (full_handle w req s))
      /\ Full.MINT_CACHE (full_finish (full_handle w req s)) !! k
         = Full.MINT_CACHE s !! k
      /\ (key_of req <> "__proto__" ->
          read (Full.MINT_CACHE (server (full_handle w req s))) k
          = read (Full.MINT_CACHE s) k
          /\ read (Full.MINT_CACHE (full_finish (full_handle w req s))) k
             = read (Full.MINT_CACHE s) k))
  /\ (forall c,
      server (mvp_handle w req c) !! k = c !! k
      /\ Forall (fun wr => write_key wr = key_of req)
           (deferred (mvp_handle w req c))
      /\ mvp_finish (mvp_handle w req c) !! k = c !! k
      /\ (key_of req <> "__proto__" ->
          read (server (mvp_handle w req c)) k = read c k
          /\ read (mvp_finish (mvp_handle w req c)) k = read c k))
  /\ (read (∅ : Cache) "status" = EUndefined
      /\ read (server (mvp_handle w (StartGeneration (JStr "__proto__")) ∅))
           "status"
         = EText "processing").
Proof.
  intros Hk. split; [|split].
  - intros s. destruct (full_handle_frame w req s k Hk) as [H1 H2].
    assert (H3 : Full.MINT_CACHE (full_finish (full_handle w req s)) !! k
                 = Full.MINT_CACHE s !! k).
    { unfold full_finish. simpl.
      rewrite (settle_other_key _ _ (key_of req) k H2 Hk). exact H1. }
    split; [exact H1|]. split; [exact H2|]. split; [exact H3|].
    intros Hp.
    destruct (full_handle_frame w req s "__proto__") as [P1 _];
      [congruence|].
    split; apply read_frame; try assumption.
    unfold full_finish. simpl.
    rewrite (settle_other_key _ _ (key_of req) "__proto__" H2)
      by congruence.
    exact P1.
  - intros c. destruct (mvp_handle_frame w req c k Hk) as [H1 H2].
    assert (H3 : mvp_finish (mvp_handle w req c) !! k = c !! k).
    { unfold mvp_finish.
      rewrite (settle_other_key _ _ (key_of req) k H2 Hk). exact H1. }
    split; [exact H1|]. split; [exact H2|]. split; [exact H3|].
    intros Hp.
    destruct (mvp_handle_frame w req c "__proto__") as [P1 _];
      [congruence|].
    split; apply read_frame; try assumption.
    unfold mvp_finish.
    rewrite (settle_other_key _ _ (key_of req) "__proto__" H2)
      by congruence.
    exact P1.
  - split; reflexivity.
Qed.

Lemma other_keys_untouched_witness :
  Full.MINT_CACHE
    (full_finish
       (full_handle world_ok (MintNft (JStr "7") (JStr "0xABC"))
          (Full.mkServer cache42 false))) !! "42"
  = Some ready42
  /\ read (mvp_finish
             (mvp_handle world_ok (StartGeneration (JStr "7")) cache42)) "42"
     = ERecord ready42.
Proof.
  destruct (other_keys_untouched world_ok (MintNft (JStr "7") (JStr "0xABC"))
              "42") as [H _]; [discriminate|].
  destruct (H (Full.mkServer cache42 false)) as (_ & _ & H' & _).
  destruct (other_keys_untouched world_ok (StartGeneration (JStr "7"))
              "42") as (_ & G & _); [discriminate|].
  destruct (G cache42) as (_ & _ & _ & G').
  destruct G' as [_ G']; [discriminate|].
  split; [rewrite H'; reflexivity | rewrite G'; reflexivity].
Defined.

(** ** Minting *)

(** X12. In [src/index.js], when the SDK is not cached and cannot be
    built, a mint request on a Ready record ends with 500 "Blockchain
    connection failed." without details: the cause is not reported,
    neither the contract nor the mint is called, and the server, cache
    and SDK slot alike, is exactly as before, so the record stays
    Ready. *)
Theorem mint_without_sdk (w : World) (fid rcp : jsval) (s : Full.Server)
    (r : JobRecord) (cause : string) :
  truthy fid = true -> truthy rcp = true ->
  Full.MINT_CACHE s !! to_key fid = Some r -> status r = Ready ->
  Full.sdkInstance s = false ->
  thirdweb_init w = Threw cause ->
  Full.mint_nft w fid rcp s
  = mkHandled (mkRes 500 [("error", JStr "Blockchain connection failed.")])
      s [ThirdwebInit] []
  /\ failure_of (response (Full.mint_nft w fid rcp s)) = Some ConnectionFailed.
Proof.
  intros Hf Hr Hs Hst Hsdk Hinit.
  assert (E : Full.mint_nft w fid rcp s
              = mkHandled
                  (mkRes 500 [("error", JStr "Blockchain connection failed.")])
                  s [ThirdwebInit] []).
  { unfold Full.mint_nft, Full.getSDK.
    rewrite Hf, Hr, (entry_ready_true _ _ r Hs Hst), Hsdk, Hinit.
    reflexivity. }
  rewrite E. split; reflexivity.
Qed.

Lemma mint_without_sdk_witness :
  Full.mint_nft world_no_chain (JStr "42") (JStr "0xABC")
    (Full.mkServer cache42 false)
  = mkHandled (mkRes 500 [("error", JStr "Blockchain connection failed.")])
      (Full.mkServer cache42 false) [ThirdwebInit] [].
Proof.
  apply (mint_without_sdk world_no_chain (JStr "42") (JStr "0xABC")
           (Full.mkServer cache42 false) ready42 "invalid private key");
    reflexivity.
Defined.

(** X13. [src/index.js] deletes the record only after the mint call
    returned, so the record is still Ready while a mint request waits
    for the chain.  A second mint request for the same key that
    arrives in between passes the readiness check too: both requests
    call [erc721.mint] with the same metadata URI, both are answered
    with a transaction hash, and each defers its own delete. *)
Theorem overlapping_mints_both_succeed (w1 w2 : World) (fid rcp1 rcp2 : jsval)
    (s : Full.Server) (r : JobRecord) (tx1 tx2 : string) :
  truthy fid = true -> truthy rcp1 = true -> truthy rcp2 = true ->
  Full.MINT_CACHE s !! to_key fid = Some r -> status r = Ready ->
  sdk_available w1 s ->
  (exists u, getContract w1 = Returned u) ->
  (exists u, getContract w2 = Returned u) ->
  erc721_mint w1 rcp1 (nft_name_of fid) (metadataUri r) = Returned tx1 ->
  erc721_mint w2 rcp2 (nft_name_of fid) (metadataUri r) = Returned tx2 ->
  let first := Full.mint_nft w1 fid rcp1 s in
  let second := Full.mint_nft w2 fid rcp2 (server first) in
  response first = minted tx1
  /\ response second = minted tx2
  /\ In (Erc721Mint rcp1 (nft_name_of fid) (metadataUri r)) (calls first)
  /\ In (Erc721Mint rcp2 (nft_name_of fid) (metadataUri r)) (calls second)
  /\ deferred first = [Del (to_key fid)]
  /\ deferred second = [Del (to_key fid)].
Proof.
  intros Hf Hr1 Hr2 Hs Hst Hsdk [u1 Hc1] [u2 Hc2] Hm1 Hm2 first second.
  subst second first.
  rewrite (full_mint_ready w1 fid rcp1 s r Hf Hr1 Hs Hst Hsdk), Hc1.
  cbn zeta. rewrite Hm1. cbn [server].
  rewrite (full_mint_ready w2 fid rcp2
             (Full.mkServer (Full.MINT_CACHE s) true) r Hf Hr2 Hs Hst
             (or_introl eq_refl)), Hc2.
  cbn zeta. rewrite Hm2. cbn [response calls deferred].
  split; [reflexivity|]. split; [reflexivity|].
  split; [apply in_or_app; right; simpl; auto|].
  split; [apply in_or_app; right; simpl; auto|].
  split; reflexivity.
Qed.

Lemma overlapping_mints_both_succeed_witness :
  response (Full.mint_nft world_ok (JStr "42") (JStr "0xABC")
              (Full.mkServer cache42 false)) = minted "0xDEAD"
  /\ response (Full.mint_nft world_ok (JStr "42") (JStr "0xDEF")
                 (server (Full.mint_nft world_ok (JStr "42") (JStr "0xABC")
                            (Full.mkServer cache42 false))))
     = minted "0xDEAD".
Proof.
  destruct (overlapping_mints_both_succeed world_ok world_ok (JStr "42")
              (JStr "0xABC") (JStr "0xDEF") (Full.mkServer cache42 false)
              ready42 "0xDEAD" "0xDEAD")
    as (H1 & H2 & _); try reflexivity.
  - right. exists tt. reflexivity.
  - exists tt. reflexivity.
  - exists tt. reflexivity.
  - split; [exact H1 | exact H2].
Defined.

Lemma mvp_mint_code_200 (w : World) (fid rcp : jsval) (c : Cache) :
  code (response (Mvp.mint_nft w fid rcp c)) = 200%Z ->
  truthy fid = true /\ truthy rcp = true
  /\ (exists r, c !! to_key fid = Some r /\ status r = Ready)
  /\ exists hex, randomBytes w = Returned hex.
Proof.
  unfold Mvp.mint_nft.
  destruct (truthy fid), (truthy rcp); simpl; try discriminate.
  destruct (entry_and _ _) eqn:E; simpl; [|discriminate].
  unfold call, result. simpl.
  destruct (randomBytes w) as [hex|e]; simpl; [|discriminate].
  intros _. repeat split; [|exists hex; reflexivity].
  unfold entry_and, entry_status in E. rewrite entry_record_read in E.
  apply andb_true_iff in E as [_ E]. apply bool_decide_eq_true in E.
  destruct (c !! to_key fid) as [r|]; [|discriminate].
  injection E as E. exists r. auto.
Qed.

(** X14. The MVP mint has no [await]: it never defers a write.  A mint
    request answered with 200 has run [delete MINT_CACHE[fid]] before
    it returns and its hash is "0x" followed by the random bytes.  At
    every key but ["__proto__"] the record is gone then, and a further
    mint request for that key handled right after it is not answered
    with 200; at ["__proto__"] the delete removes nothing and the
    cache is as before.  When [crypto.randomBytes] throws, the request
    ends with 500 "Mock mint failed." and the cache is as before. *)
Theorem mvp_mint_is_atomic (w : World) (fid rcp : jsval) (c : Cache) :
  deferred (Mvp.mint_nft w fid rcp c) = []
  /\ (code (response (Mvp.mint_nft w fid rcp c)) = 200%Z ->
      (exists hex, randomBytes w = Returned hex
                   /\ response (Mvp.mint_nft w fid rcp c) = minted ("0x" ++ hex))
      /\ server (Mvp.mint_nft w fid rcp c) = remove (to_key fid) c
      /\ (to_key fid <> "__proto__" ->
          server (Mvp.mint_nft w fid rcp c) !! to_key fid = None
          /\ forall w' rcp',
              code (response (Mvp.mint_nft w' fid rcp'
                                (server (Mvp.mint_nft w fid rcp c))))
              <> 200%Z)
      /\ (to_key fid = "__proto__" -> server (Mvp.mint_nft w fid rcp c) = c))
  /\ (code (response (Mvp.mint_nft w fid rcp c)) = 500%Z ->
      (exists msg, randomBytes w = Threw msg)
      /\ server (Mvp.mint_nft w fid rcp c) = c).
Proof.
  split; [|split].
  - unfold Mvp.mint_nft.
    destruct (_ || _); [reflexivity|].
    destruct (negb _); [reflexivity|].
    unfold call, result. simpl. destruct (randomBytes w); reflexivity.
  - intros H200.
    destruct (mvp_mint_code_200 w fid rcp c H200)
      as (Hf & Hr & (r & Hc & Hst) & (hex & Hx)).
    rewrite (mvp_mint_ready w fid rcp c r Hf Hr Hc Hst), Hx. simpl.
    split; [exists hex; split; reflexivity|]. split; [reflexivity|]. split.
    + intros Hne. split; [apply remove_lookup_eq; exact Hne|].
      intros w' rcp' H.
      destruct (mvp_mint_code_200 w' fid rcp' _ H)
        as (_ & _ & (r' & Hl & _) & _).
      rewrite (remove_lookup_eq c _ Hne) in Hl. discriminate.
    + intros ->. reflexivity.
  - unfold Mvp.mint_nft.
    destruct (_ || _); [discriminate|].
    destruct (negb _); [discriminate|].
    unfold call, result. simpl.
    destruct (randomBytes w) as [hex|msg]; simpl; [discriminate|].
    intros _. split; [exists msg|]; reflexivity.
Qed.

Lemma mvp_mint_is_atomic_witness :
  server (Mvp.mint_nft world_ok (JStr "42") (JStr "0xABC") cache42) !! "42"
  = None
  /\ server (Mvp.mint_nft world_ok (JStr "__proto__") (JStr "0xABC")
               {["__proto__" := ready42]})
     = {["__proto__" := ready42]}
  /\ server (Mvp.mint_nft world_no_chain (JStr "42") (JStr "0xABC") cache42)
     = cache42.
Proof.
  split; [|split].
  - destruct (mvp_mint_is_atomic world_ok (JStr "42") (JStr "0xABC") cache42)
      as (_ & H & _).
    destruct H as (_ & _ & H & _); [reflexivity|].
    destruct H as [H _]; [discriminate | exact H].
  - destruct (mvp_mint_is_atomic world_ok (JStr "__proto__") (JStr "0xABC")
                {["__proto__" := ready42]}) as (_ & H & _).
    destruct H as (_ & _ & _ & H); [reflexivity|].
    apply H. reflexivity.
  - destruct (mvp_mint_is_atomic world_no_chain (JStr "42") (JStr "0xABC")
                cache42) as (_ & _ & H).
    destruct H as [_ H]; [reflexivity | exact H].
Defined.

(** ** A job from start to mint *)

(** X15. The life of a job for a key at which the cache reads nothing
    (no record of its own and nothing inherited, so not ["__proto__"],
    ["constructor"] and the like), when every pipeline stage and the
    mint succeed and no other request for the key comes in between:
    the start request is answered "processing" and a status query sees
    Processing; once the pipeline has written back, a status query
    returns the Ready record with the two URIs; the mint request mints
    the stored [metadataUri] and is answered with the transaction
    hash; after that a status query gets 404 and the cache is the one
    the job started from.  Both servers. *)
Theorem job_lifecycle (w w' : World) (fid rcp : jsval) (i m tx : string) :
  truthy fid = true -> truthy rcp = true ->
  (forall s,
      read (Full.MINT_CACHE s) (to_key fid) = EUndefined ->
      full_stages_succeed w fid i m ->
      sdk_available w' s ->
      (exists u, getContract w' = Returned u) ->
      erc721_mint w' rcp (nft_name_of fid) (Some m) = Returned tx ->
      let started := Full.start_generation w fid s in
      let ready := full_finish started in
      let minting := Full.mint_nft w' fid rcp ready in
      let done := full_finish minting in
      response started = generation_started
      /\ response (Full.get_status fid (server started))
         = json [("status", JStr "processing")]
      /\ response (Full.get_status fid ready) = ready_payload i m
      /\ response minting = minted tx
      /\ In (Erc721Mint rcp (nft_name_of fid) (Some m)) (calls minting)
      /\ response (Full.get_status fid done) = no_active_job
      /\ Full.MINT_CACHE done = Full.MINT_CACHE s)
  /\ (forall c,
      read c (to_key fid) = EUndefined ->
      mvp_stages_succeed w fid i m ->
      randomBytes w' = Returned tx ->
      let started := Mvp.start_generation w fid c in
      let ready := mvp_finish started in
      let minting := Mvp.mint_nft w' fid rcp ready in
      let done := mvp_finish minting in
      response started = generation_started
      /\ response (Mvp.get_status fid (server started))
         = json [("status", JStr "processing")]
      /\ response (Mvp.get_status fid ready) = ready_payload i m
      /\ response minting = minted ("0x" ++ tx)
      /\ response (Mvp.get_status fid done) = no_active_job
      /\ done = c).
Proof.
  intros Hf Hr. split.
  - intros s Hread Hok Hsdk Hc Hm started ready minting done.
    destruct (read_undefined _ _ Hread) as [Hs Hne].
    pose proof (full_start_fresh w fid s Hf Hread) as Hacc.
    pose proof (full_start_accepted w fid s Hacc) as Estart.
    rewrite (full_generation_succeeds w fid i m Hf Hok) in Estart.
    simpl in Estart.
    assert (Eready : ready
                     = Full.mkServer
                         (<[to_key fid := rec_ready i m]> (Full.MINT_CACHE s))
                         (Full.sdkInstance s)).
    { subst ready started. rewrite Estart. unfold full_finish. simpl.
      unfold Full.set_cache. simpl. rewrite insert_insert_eq. reflexivity. }
    assert (Hl : Full.MINT_CACHE ready !! to_key fid = Some (rec_ready i m)).
    { rewrite Eready. simpl. apply lookup_insert_eq. }
    assert (Hsdk' : sdk_available w' ready).
    { rewrite Eready. exact Hsdk. }
    assert (Emint : minting
                    = mkHandled (minted tx)
                        (Full.mkServer (Full.MINT_CACHE ready) true)
                        (sdk_calls ready
                           ++ [GetContract;
                               Erc721Mint rcp (nft_name_of fid) (Some m)])%list
                        [Del (to_key fid)]).
    { subst minting.
      rewrite (full_mint_ready w' fid rcp ready (rec_ready i m) Hf Hr Hl
                 eq_refl Hsdk').
      destruct Hc as [u Hc]. rewrite Hc. cbn zeta.
      change (metadataUri (rec_ready i m)) with (Some m).
      rewrite Hm. reflexivity. }
    assert (Edone : Full.MINT_CACHE done = Full.MINT_CACHE s).
    { subst done. rewrite Emint. unfold full_finish. rewrite Eready. simpl.
      apply remove_insert_id; assumption. }
    split; [exact Hacc|]. split.
    { subst started. rewrite Estart. simpl.
      rewrite (full_status_present fid _ rec_processing Hf); [reflexivity|].
      simpl. apply lookup_insert_eq. }
    split.
    { rewrite (full_status_present fid ready (rec_ready i m) Hf Hl).
      reflexivity. }
    split; [rewrite Emint; reflexivity|].
    split; [rewrite Emint; simpl; apply in_or_app; right; simpl; auto|].
    split; [|exact Edone].
    apply full_status_absent. rewrite Edone. exact Hread.
  - intros c Hread Hok Hx started ready minting done.
    destruct (read_undefined _ _ Hread) as [Hs Hne].
    pose proof (mvp_start_fresh w fid c Hf (lookup_none_not_ready _ _ Hs))
      as Hacc.
    pose proof (mvp_start_accepted w fid c Hacc) as Estart.
    rewrite (mvp_generation_succeeds w fid i m Hf Hok) in Estart.
    simpl in Estart.
    assert (Eready : ready = <[to_key fid := rec_ready i m]> c).
    { subst ready started. rewrite Estart. unfold mvp_finish. simpl.
      rewrite insert_insert_eq. reflexivity. }
    assert (Hl : ready !! to_key fid = Some (rec_ready i m)).
    { rewrite Eready. apply lookup_insert_eq. }
    assert (Emint : minting
                    = mkHandled (minted ("0x" ++ tx))
                        (remove (to_key fid) ready) [RandomBytes] []).
    { subst minting.
      rewrite (mvp_mint_ready w' fid rcp ready (rec_ready i m) Hf Hr Hl
                 eq_refl), Hx. reflexivity. }
    assert (Edone : done = c).
    { subst done. rewrite Emint. unfold mvp_finish. rewrite Eready. simpl.
      apply remove_insert_id; assumption. }
    split; [exact Hacc|]. split.
    { subst started. rewrite Estart. simpl.
      rewrite (mvp_status_present fid _ rec_processing Hf); [reflexivity|].
      apply lookup_insert_eq. }
    split.
    { rewrite (mvp_status_present fid ready (rec_ready i m) Hf Hl).
      reflexivity. }
    split; [rewrite Emint; reflexivity|].
    split; [|exact Edone].
    apply mvp_status_absent. rewrite Edone. exact Hread.
Qed.

Lemma job_lifecycle_witness :
  response (Full.get_status (JStr "42")
              (full_finish (Full.start_generation world_ok (JStr "42")
                              (Full.mkServer ∅ false))))
  = ready_payload "ipfs://Qa" "ipfs://Qb"
  /\ Full.MINT_CACHE
       (full_finish
          (Full.mint_nft world_ok (JStr "42") (JStr "0xABC")
             (full_finish (Full.start_generation world_ok (JStr "42")
                             (Full.mkServer ∅ false)))))
     = ∅
  /\ mvp_finish
       (Mvp.mint_nft world_ok (JStr "42") (JStr "0xABC")
          (mvp_finish (Mvp.start_generation world_ok (JStr "42") ∅)))
     = ∅.
Proof.
  destruct (job_lifecycle world_ok world_ok (JStr "42") (JStr "0xABC")
              "ipfs://Qa" "ipfs://Qb" "0xDEAD" eq_refl eq_refl) as [H _].
  destruct (H (Full.mkServer ∅ false)) as (_ & _ & H3 & _ & _ & _ & H7).
  - reflexivity.
  - exists "img://p42", "img://gen42".
    repeat split; (reflexivity || discriminate).
  - right. exists tt. reflexivity.
  - exists tt. reflexivity.
  - reflexivity.
  - split; [exact H3|]. split; [exact H7|].
    reflexivity.
Defined.

(** ** What a reachable cache can hold *)

Section RecordInvariant.
Variable P : JobRecord -> Prop.
Hypothesis P_processing : P rec_processing.

Lemma keeps_apply_write (c : Cache) (wr : Write) :
  map_Forall (fun _ r => P r) c -> write_keeps P wr ->
  map_Forall (fun _ r => P r) (apply_write wr c).
Proof.
  intros Hc Hw. destruct wr as [k r | k]; simpl.
  - apply map_Forall_insert_2; assumption.
  - unfold remove. destruct (String.eqb k "__proto__"); [exact Hc|].
    apply map_Forall_delete. exact Hc.
Qed.

Lemma full_handle_keeps (w : World) (req : Request) (s : Full.Server) :
  (forall w fid,
      truthy fid = true ->
      P (Full.final_record (result (Full.generation w fid)))) ->
  map_Forall (fun _ r => P r) (Full.MINT_CACHE s) ->
  map_Forall (fun _ r => P r) (Full.MINT_CACHE (server (full_handle w req s)))
  /\ Forall (write_keeps P) (deferred (full_handle w req s)).
Proof.
  intros Hfin Hs. destruct req as [fid | fid | fid rcp]; simpl.
  - unfold Full.start_generation. destruct (truthy fid) eqn:Hf; simpl;
      [|split; [exact Hs | constructor]].
    destruct (entry_and _ _); [split; [exact Hs | constructor]|].
    simpl. split.
    + apply map_Forall_insert_2; assumption.
    + apply List.Forall_cons; [apply Hfin; exact Hf | constructor].
  - unfold Full.get_status.
    destruct (_ || _); split; (exact Hs || constructor).
  - unfold Full.mint_nft.
    destruct (_ || _); [split; [exact Hs | constructor]|].
    destruct (negb _); [split; [exact Hs | constructor]|].
    pose proof (full_getSDK_cache w s) as Hsdk.
    destruct (Full.getSDK w s) as [s1 sdk]. simpl in Hsdk.
    destruct (result sdk); [|simpl; rewrite Hsdk; split; [exact Hs|constructor]].
    destruct (result _); simpl; rewrite Hsdk; split;
      first [exact Hs
            | apply List.Forall_cons; [exact I | constructor]
            | constructor].
Qed.

Lemma mvp_handle_keeps (w : World) (req : Request) (c : Cache) :
  (forall w fid,
      truthy fid = true ->
      P (Mvp.final_record (result (Mvp.generation w fid)))) ->
  map_Forall (fun _ r => P r) c ->
  map_Forall (fun _ r => P r) (server (mvp_handle w req c))
  /\ Forall (write_keeps P) (deferred (mvp_handle w req c)).
Proof.
  intros Hfin Hs. destruct req as [fid | fid | fid rcp]; simpl.
  - unfold Mvp.start_generation. destruct (truthy fid) eqn:Hf; simpl;
      [|split; [exact Hs | constructor]].
    destruct (entry_and _ _); [split; [exact Hs | constructor]|].
    simpl. split.
    + apply map_Forall_insert_2; assumption.
    + apply List.Forall_cons; [apply Hfin; exact Hf | constructor].
  - unfold Mvp.get_status.
    destruct (_ || _); split; (exact Hs || constructor).
  - unfold Mvp.mint_nft.
    destruct (_ || _); [split; [exact Hs | constructor]|].
    destruct (negb _); [split; [exact Hs | constructor]|].
    unfold call, result. simpl.
    destruct (randomBytes w); simpl; split;
      first [exact Hs | constructor
            | unfold remove; destruct (String.eqb _ "__proto__");
              [exact Hs | apply map_Forall_delete; exact Hs]].
Qed.

Lemma full_reachable_keeps (sys : System Full.Server) :
  (forall w fid,
      truthy fid = true ->
      P (Full.final_record (result (Full.generation w fid)))) ->
  full_reachable sys ->
  map_Forall (fun _ r => P r) (Full.MINT_CACHE (srv sys))
  /\ Forall (write_keeps P) (pending sys).
Proof.
  intros Hfin. induction 1 as [|a b _ [Hc Hp] Hstep].
  - split; [simpl; apply map_Forall_empty | constructor].
  - destruct Hstep as [w req sys | s before after wr].
    + destruct (full_handle_keeps w req (srv sys) Hfin Hc) as [Hc' Hd].
      split; simpl; [exact Hc'|]. apply Forall_app. split; assumption.
    + simpl in *. apply Forall_app in Hp as [Hb Ha].
      inversion Ha as [|? ? Hwr Ha']; subst.
      split; [apply keeps_apply_write; assumption|].
      apply Forall_app. split; assumption.
Qed.

Lemma mvp_reachable_keeps (sys : System Cache) :
  (forall w fid,
      truthy fid = true ->
      P (Mvp.final_record (result (Mvp.generation w fid)))) ->
  mvp_reachable sys ->
  map_Forall (fun _ r => P r) (srv sys)
  /\ Forall (write_keeps P) (pending sys).
Proof.
  intros Hfin. induction 1 as [|a b _ [Hc Hp] Hstep].
  - split; [simpl; apply map_Forall_empty | constructor].
  - destruct Hstep as [w req sys | s before after wr].
    + destruct (mvp_handle_keeps w req (srv sys) Hfin Hc) as [Hc' Hd].
      split; simpl; [exact Hc'|]. apply Forall_app. split; assumption.
    + simpl in *. apply Forall_app in Hp as [Hb Ha].
      inversion Ha as [|? ? Hwr Ha']; subst.
      split; [apply keeps_apply_write; assumption|].
      apply Forall_app. split; assumption.
Qed.
End RecordInvariant.

Lemma full_final_record_shape (w : World) (fid : jsval) :
  truthy fid = true ->
  full_record_shape (Full.final_record (result (Full.generation w fid))).
Proof.
  intros Hf.
  destruct (full_generation_cases w fid Hf) as [[k Hk] | (i & m & Hok)].
  - destruct (full_generation_fails w fid k Hf Hk) as [H _]. rewrite H.
    right. right. exists k. split; [|reflexivity].
    inversion Hk; lia.
  - destruct (full_generation_success_eq w fid i m Hf Hok)
      as (a & E & _ & _ & (h1 & _ & ->) & (h2 & _ & ->)).
    rewrite E. right. left. exists h1, h2. reflexivity.
Qed.

Lemma mvp_final_record_shape (w : World) (fid : jsval) :
  truthy fid = true ->
  mvp_record_shape (Mvp.final_record (result (Mvp.generation w fid))).
Proof.
  intros Hf.
  destruct (mvp_generation_cases w fid Hf) as [[k Hk] | (i & m & Hok)].
  - destruct (mvp_generation_fails w fid k Hf Hk) as [H _]. rewrite H.
    right. right. exists k. split; [inversion Hk; lia|].
    simpl. unfold Mvp.or_else.
    destruct (String.eqb_spec (mvp_stage_message k) "") as [E|_];
      [|reflexivity].
    exfalso. exact (mvp_stage_message_nonempty k E).
  - destruct (mvp_generation_success_eq w fid i m Hf Hok)
      as (E & _ & (h1 & _ & ->) & (h2 & _ & ->)).
    rewrite E. right. left. exists h1, h2. reflexivity.
Qed.

(** X16. Whatever requests arrive and however the write-backs
    interleave, a record in the cache is one of three: the bare
    [{status: "processing"}]; a Ready record whose two URIs both start
    with ["ipfs://"]; or an Error record whose message is one of a
    fixed list of texts: the four stage texts in [src/index.js]; in
    the MVP server the two pinning texts and ["URI malformed"], the
    message of the error [encodeURIComponent] throws on a [fid] with
    an unpaired surrogate.  That last record is reached indeed.  No
    message of a service's own error ever reaches the cache. *)
Theorem reachable_records_shape :
  (forall sys key r,
      full_reachable sys ->
      Full.MINT_CACHE (srv sys) !! key = Some r ->
      r = rec_processing
      \/ (exists h1 h2, r = rec_ready ("ipfs://" ++ h1) ("ipfs://" ++ h2))
      \/ r = rec_error "No PFP found."
      \/ r = rec_error "AI generation failed."
      \/ r = rec_error "IPFS failed."
      \/ r = rec_error "Metadata failed.")
  /\ (forall sys key r,
        mvp_reachable sys ->
        srv sys !! key = Some r ->
        r = rec_processing
        \/ (exists h1 h2, r = rec_ready ("ipfs://" ++ h1) ("ipfs://" ++ h2))
        \/ r = rec_error "URI malformed"
        \/ r = rec_error "IPFS image upload failed."
        \/ r = rec_error "IPFS metadata upload failed.")
  /\ (exists sys,
        mvp_reachable sys
        /\ srv sys !! lone_d800 = Some (rec_error "URI malformed")).
Proof.
  split; [|split].
  - intros sys key r Hreach Hl.
    destruct (full_reachable_keeps full_record_shape (or_introl eq_refl) sys
                full_final_record_shape Hreach) as [Hc _].
    destruct (Hc key r Hl) as [H | [H | (k & Hk & H)]]; [auto | auto |].
    right. right.
    assert (Hcases : k = 1 \/ k = 2 \/ k = 3 \/ k = 4) by lia.
    destruct Hcases as [-> | [-> | [-> | ->]]]; simpl in H; auto.
  - intros sys key r Hreach Hl.
    destruct (mvp_reachable_keeps mvp_record_shape (or_introl eq_refl) sys
                mvp_final_record_shape Hreach) as [Hc _].
    destruct (Hc key r Hl) as [H | [H | (k & Hk & H)]]; [auto | auto |].
    right. right.
    assert (Hcases : k = 2 \/ k = 3 \/ k = 4) by lia.
    destruct Hcases as [-> | [-> | ->]]; simpl in H; auto.
  - exists (mkSystem
              ((fun c (_ : Cache) => c)
                 (apply_write (Put lone_d800 (rec_error "URI malformed"))
                    (id (<[lone_d800 := rec_processing]> ∅)))
                 (<[lone_d800 := rec_processing]> ∅))
              ([] ++ [])%list).
    split; [|simpl; apply lookup_insert_eq].
    apply (reach_step _ _ _ _
             (mkSystem (<[lone_d800 := rec_processing]> ∅)
                ([] ++ [Put lone_d800 (rec_error "URI malformed")])%list)).
    + apply (reach_step _ _ _ _ mvp_boot); [apply reach_init|].
      replace (mkSystem (<[lone_d800 := rec_processing]> ∅)
                 ([] ++ [Put lone_d800 (rec_error "URI malformed")])%list)
        with (mkSystem
                (server (mvp_handle world_ok (StartGeneration (JStr lone_d800))
                           (srv mvp_boot)))
                (pending mvp_boot
                   ++ deferred (mvp_handle world_ok
                                  (StartGeneration (JStr lone_d800))
                                  (srv mvp_boot)))%list)
        by reflexivity.
      apply step_request.
    + apply (step_resume id (fun c _ => c) mvp_handle
               (<[lone_d800 := rec_processing]> ∅) [] []
               (Put lone_d800 (rec_error "URI malformed"))).
Qed.

Lemma reachable_records_shape_witness :
  ready42 = rec_processing
  \/ (exists h1 h2, ready42 = rec_ready ("ipfs://" ++ h1) ("ipfs://" ++ h2))
  \/ ready42 = rec_error "URI malformed"
  \/ ready42 = rec_error "IPFS image upload failed."
  \/ ready42 = rec_error "IPFS metadata upload failed.".
Proof.
  destruct reachable_records_shape as (_ & H & _).
  apply (H run42 "42" ready42).
  - exact run42_reachable.
  - reflexivity.
Defined.

(** ** Which services a request calls *)

Lemma up_to_stage_prefix (k : nat) (l1 l2 : list Call) :
  l1 `prefix_of` l2 -> up_to_stage k l2 -> up_to_stage k l1.
Proof.
  intros [rest ->] H. unfold up_to_stage in *.
  apply Forall_app in H as [H _]. exact H.
Qed.

Lemma full_generation_up_to_4 (w : World) (fid : jsval) :
  truthy fid = true -> up_to_stage 4 (trace (Full.generation w fid)).
Proof.
  intros Hf. destruct (full_generation_prefix w fid Hf) as (a & i & Hp & _).
  apply (up_to_stage_prefix 4 _ _ Hp). stage_bound.
Qed.

Lemma mvp_generation_up_to_4 (w : World) (fid : jsval) :
  truthy fid = true -> up_to_stage 4 (trace (Mvp.generation w fid)).
Proof.
  intros Hf. destruct (mvp_generation_prefix w fid Hf) as (i & Hp & _).
  apply (up_to_stage_prefix 4 _ _ Hp). stage_bound.
Qed.

Lemma full_start_calls (w : World) (fid : jsval) (s : Full.Server) :
  up_to_stage 4 (calls (Full.start_generation w fid s)).
Proof.
  unfold Full.start_generation. destruct (truthy fid) eqn:Hf; simpl;
    [|constructor].
  destruct (entry_and _ _); simpl; [constructor|].
  apply full_generation_up_to_4. exact Hf.
Qed.

Lemma mvp_start_calls (w : World) (fid : jsval) (c : Cache) :
  up_to_stage 4 (calls (Mvp.start_generation w fid c)).
Proof.
  unfold Mvp.start_generation. destruct (truthy fid) eqn:Hf; simpl;
    [|constructor].
  destruct (entry_and _ _); simpl; [constructor|].
  apply mvp_generation_up_to_4. exact Hf.
Qed.

Lemma full_mint_calls (w : World) (fid rcp : jsval) (s : Full.Server) :
  Forall (fun c => stage_of c = 5) (calls (Full.mint_nft w fid rcp s))
  /\ (Full.sdkInstance s = true ->
      ~ In ThirdwebInit (calls (Full.mint_nft w fid rcp s))).
Proof.
  unfold Full.mint_nft, Full.getSDK.
  destruct (_ || _); [split; [constructor | intros _ []]|].
  destruct (negb _); [split; [constructor | intros _ []]|].
  unfold call, result, trace.
  destruct (Full.sdkInstance s); simpl.
  - destruct (getContract w); simpl.
    + destruct (erc721_mint w rcp _ _); simpl; split;
        try (repeat constructor);
        intros _ [H|[H|[]]]; discriminate.
    + split; [repeat constructor|]. intros _ [H|[]]. discriminate.
  - destruct (thirdweb_init w); simpl.
    + destruct (getContract w); simpl.
      * destruct (erc721_mint w rcp _ _); simpl; split;
          try (repeat constructor); discriminate.
      * split; [repeat constructor | discriminate].
    + split; [repeat constructor | discriminate].
Qed.

(** X17. Each handler keeps to its own services.  A start request
    calls pipeline services only (Neynar, Replicate, the image
    download, Pinata), never the SDK, the contract, the mint or the
    random source; a status query calls nothing; a mint request calls
    minting services only, and in [src/index.js] it does not build the
    SDK again once the instance is cached.  Both servers. *)
Theorem handlers_keep_to_their_services (w : World) (fid rcp : jsval) :
  (forall s,
      up_to_stage 4 (calls (Full.start_generation w fid s))
      /\ calls (Full.get_status fid s) = []
      /\ Forall (fun c => stage_of c = 5) (calls (Full.mint_nft w fid rcp s))
      /\ (Full.sdkInstance s = true ->
          ~ In ThirdwebInit (calls (Full.mint_nft w fid rcp s))))
  /\ (forall c,
      up_to_stage 4 (calls (Mvp.start_generation w fid c))
      /\ calls (Mvp.get_status fid c) = []
      /\ Forall (fun c => stage_of c = 5) (calls (Mvp.mint_nft w fid rcp c))).
Proof.
  split.
  - intros s. split; [apply full_start_calls|]. split.
    + unfold Full.get_status. destruct (_ || _); reflexivity.
    + apply full_mint_calls.
  - intros c. split; [apply mvp_start_calls|]. split.
    + unfold Mvp.get_status. destruct (_ || _); reflexivity.
    + unfold Mvp.mint_nft.
      destruct (_ || _); [constructor|].
      destruct (negb _); [constructor|].
      unfold call, result. simpl.
      destruct (randomBytes w); simpl; repeat constructor.
Qed.

Lemma handlers_keep_to_their_services_witness :
  ~ In ThirdwebInit
      (calls (Full.mint_nft world_ok (JStr "42") (JStr "0xABC")
                (Full.mkServer cache42 true))).
Proof.
  destruct (handlers_keep_to_their_services world_ok (JStr "42")
              (JStr "0xABC")) as [H _].
  destruct (H (Full.mkServer cache42 true)) as (_ & _ & _ & H').
  apply H'. reflexivity.
Defined.

Lemma full_handle_sdk (w : World) (req : Request) (s : Full.Server) :
  Full.sdkInstance s = true ->
  Full.sdkInstance (server (full_handle w req s)) = true.
Proof.
  intros Hs. destruct req as [fid | fid | fid rcp]; simpl.
  - unfold Full.start_generation.
    destruct (negb (truthy fid)); [exact Hs|].
    destruct (entry_and _ _); exact Hs.
  - unfold Full.get_status. destruct (_ || _); exact Hs.
  - unfold Full.mint_nft, Full.getSDK.
    destruct (_ || _); [exact Hs|]. destruct (negb _); [exact Hs|].
    rewrite Hs. simpl.
    destruct (result _); simpl; exact Hs.
Qed.

(** X18. The SDK slot of [src/index.js] only ever goes from empty to
    filled: no request and no write-back clears it, in any
    interleaving, and start requests, status queries and write-backs
    leave it exactly as it is. *)
Theorem sdk_instance_is_kept (a b : System Full.Server) :
  full_step a b ->
  (Full.sdkInstance (srv a) = true -> Full.sdkInstance (srv b) = true)
  /\ (forall w fid s,
        Full.sdkInstance (server (Full.start_generation w fid s))
        = Full.sdkInstance s
        /\ Full.sdkInstance (server (Full.get_status fid s))
           = Full.sdkInstance s)
  /\ (forall wr s,
        Full.sdkInstance
          (Full.set_cache (apply_write wr (Full.MINT_CACHE s)) s)
        = Full.sdkInstance s).
Proof.
  intros Hstep. split; [|split].
  - destruct Hstep as [w req sys | s before after wr]; simpl.
    + apply full_handle_sdk.
    + auto.
  - intros w fid s. split.
    + unfold Full.start_generation.
      destruct (negb (truthy fid)); [reflexivity|].
      destruct (entry_and _ _); reflexivity.
    + unfold Full.get_status. destruct (_ || _); reflexivity.
  - reflexivity.
Qed.

Lemma sdk_instance_is_kept_witness :
  Full.sdkInstance
    (srv (mkSystem
            (server (full_handle world_no_chain
                       (MintNft (JStr "42") (JStr "0xABC"))
                       (Full.mkServer cache42 true)))
            ([] ++ deferred (full_handle world_no_chain
                               (MintNft (JStr "42") (JStr "0xABC"))
                               (Full.mkServer cache42 true)))%list))
  = true.
Proof.
  destruct (sdk_instance_is_kept
              (mkSystem (Full.mkServer cache42 true) [])
              (mkSystem
                 (server (full_handle world_no_chain
                            (MintNft (JStr "42") (JStr "0xABC"))
                            (Full.mkServer cache42 true)))
                 ([] ++ deferred (full_handle world_no_chain
                                    (MintNft (JStr "42") (JStr "0xABC"))
                                    (Full.mkServer cache42 true)))%list))
    as [H _].
  - apply (step_request Full.MINT_CACHE Full.set_cache full_handle
             world_no_chain (MintNft (JStr "42") (JStr "0xABC"))
             (mkSystem (Full.mkServer cache42 true) [])).
  - apply H. reflexivity.
Defined.

(** ** The placeholder image of the MVP server *)

Lemma hex_digit_unreserved (n : N) : unreserved (hex_digit n) = true.
Proof.
  destruct n as [|p]; [reflexivity|].
  do 4 (destruct p as [p|p|]; try reflexivity).
Qed.

Lemma unreserved_not_percent (c : ascii) :
  unreserved c = true -> c <> "%"%char.
Proof. intros H ->. discriminate. Qed.

Lemma hex_digit_inj (a b : N) :
  (a < 16)%N -> (b < 16)%N -> hex_digit a = hex_digit b -> a = b.
Proof.
  intros Ha Hb.
  assert (Hcases : forall n, (n < 16)%N ->
            n = 0%N \/ n = 1%N \/ n = 2%N \/ n = 3%N \/ n = 4%N \/ n = 5%N
            \/ n = 6%N \/ n = 7%N \/ n = 8%N \/ n = 9%N \/ n = 10%N
            \/ n = 11%N \/ n = 12%N \/ n = 13%N \/ n = 14%N \/ n = 15%N)
    by (intros n Hn; lia).
  destruct (Hcases a Ha) as [->|[->|[->|[->|[->|[->|[->|[->|[->|[->|[->|[->|
                             [->|[->|[->| ->]]]]]]]]]]]]]]];
    destruct (Hcases b Hb) as [->|[->|[->|[->|[->|[->|[->|[->|[->|[->|[->|
                               [->|[->|[->|[->| ->]]]]]]]]]]]]]]];
    simpl; intros H; first [reflexivity | discriminate H].
Qed.

Lemma percent_encode_url_safe (s : string) :
  Forall (fun c => url_safe c = true)
    (list_ascii_of_string (percent_encode s)).
Proof.
  induction s as [|c rest IH]; simpl; [constructor|].
  destruct (unreserved c) eqn:E; simpl.
  - constructor; [|exact IH]. unfold url_safe. rewrite E. reflexivity.
  - constructor; [reflexivity|].
    constructor; [unfold url_safe; rewrite hex_digit_unreserved; reflexivity|].
    constructor; [unfold url_safe; rewrite hex_digit_unreserved; reflexivity|].
    exact IH.
Qed.

Lemma percent_encode_inj (s1 s2 : string) :
  percent_encode s1 = percent_encode s2 -> s1 = s2.
Proof.
  revert s2. induction s1 as [|c1 r1 IH]; intros [|c2 r2]; simpl.
  - reflexivity.
  - destruct (unreserved c2); discriminate.
  - destruct (unreserved c1); discriminate.
  - destruct (unreserved c1) eqn:E1, (unreserved c2) eqn:E2; intros H.
    + injection H as -> H. f_equal. apply IH. exact H.
    + injection H as -> _. discriminate.
    + injection H as <- _. discriminate.
    + injection H as Hhi Hlo H. f_equal; [|apply IH; exact H].
      pose proof (N_ascii_bounded c1) as B1.
      pose proof (N_ascii_bounded c2) as B2.
      apply hex_digit_inj in Hhi;
        [|apply N.Div0.div_lt_upper_bound; lia
         |apply N.Div0.div_lt_upper_bound; lia].
      apply hex_digit_inj in Hlo;
        [|apply N.mod_lt; lia | apply N.mod_lt; lia].
      rewrite <- (ascii_N_embedding c1), <- (ascii_N_embedding c2).
      f_equal.
      rewrite (N.div_mod (N_of_ascii c1) 16), (N.div_mod (N_of_ascii c2) 16)
        by lia.
      rewrite Hhi, Hlo. reflexivity.
Qed.

Lemma string_app_inv_head (p a b : string) : p ++ a = p ++ b -> a = b.
Proof.
  induction p as [|c p IH]; simpl; [auto|].
  intros H. injection H as H. apply IH. exact H.
Qed.

Lemma string_app_length (a b : string) :
  String.length (a ++ b) = (String.length a + String.length b)%nat.
Proof. induction a as [|c a IH]; simpl; [reflexivity | rewrite IH; reflexivity]. Qed.

Lemma string_app_inv_tail (a b q : string) : a ++ q = b ++ q -> a = b.
Proof.
  revert b. induction a as [|c a IH]; intros [|d b] H.
  - reflexivity.
  - exfalso. apply (f_equal String.length) in H.
    rewrite (string_app_length "" q), (string_app_length (String d b) q) in H.
    simpl in H. lia.
  - exfalso. apply (f_equal String.length) in H.
    rewrite (string_app_length "" q), (string_app_length (String c a) q) in H.
    simpl in H. lia.
  - simpl in H. injection H as -> H. f_equal. apply IH. exact H.
Qed.

(** X19. The mock generator of the MVP server calls no service.  For
    a non-empty [fid] whose text has no unpaired surrogate it resolves
    to ["https://picsum.photos/seed/<seed>/1024/1024"], where the seed
    is the percent-encoded text of the [fid]; for a [fid] whose text
    has one it throws ["URI malformed"].  The seed consists of
    unreserved characters and ["%"] only, so it holds no ["/"] and the
    URL keeps its path shape; and a [fid] with another text does not
    get the URL of a [fid] the generator resolved. *)
Theorem placeholder_url (fid : jsval) :
  truthy fid = true ->
  trace (Mvp.generateBoxCharacter fid) = []
  /\ (lone_surrogate (to_key fid) = false ->
      Mvp.generateBoxCharacter fid
      = ([], Returned ("https://picsum.photos/seed/"
                         ++ percent_encode (to_key fid) ++ "/1024/1024")))
  /\ (lone_surrogate (to_key fid) = true ->
      Mvp.generateBoxCharacter fid = ([], Threw "URI malformed"))
  /\ Forall (fun c => url_safe c = true)
       (list_ascii_of_string (percent_encode (to_key fid)))
  /\ ~ In "/"%char (list_ascii_of_string (percent_encode (to_key fid)))
  /\ (forall fid',
        truthy fid' = true ->
        lone_surrogate (to_key fid) = false ->
        result (Mvp.generateBoxCharacter fid')
        = result (Mvp.generateBoxCharacter fid) ->
        to_key fid' = to_key fid).
Proof.
  intros Hf.
  assert (Hgen : forall f, truthy f = true ->
            Mvp.generateBoxCharacter f
            = if lone_surrogate (to_key f)
              then ([], Threw "URI malformed")
              else ([], Returned ("https://picsum.photos/seed/"
                                    ++ percent_encode (to_key f)
                                    ++ "/1024/1024"))).
  { intros f H. unfold Mvp.generateBoxCharacter, encodeURIComponent.
    rewrite H. destruct (lone_surrogate (to_key f)); reflexivity. }
  split; [|split; [|split; [|split; [|split]]]].
  - rewrite (Hgen fid Hf). destruct (lone_surrogate _); reflexivity.
  - intros H. rewrite (Hgen fid Hf), H. reflexivity.
  - intros H. rewrite (Hgen fid Hf), H. reflexivity.
  - apply percent_encode_url_safe.
  - intros Hin.
    pose proof (percent_encode_url_safe (to_key fid)) as H.
    rewrite List.Forall_forall in H. specialize (H _ Hin). discriminate.
  - intros fid' Hf' Hw H.
    rewrite (Hgen fid Hf), (Hgen fid' Hf'), Hw in H.
    destruct (lone_surrogate (to_key fid')); [discriminate|].
    unfold result in H. simpl snd in H. injection H as H.
    apply string_app_inv_head in H. apply string_app_inv_tail in H.
    apply percent_encode_inj. exact H.
Qed.

Lemma placeholder_url_witness :
  Mvp.generateBoxCharacter (JStr "4 2/x")
  = ([], Returned "https://picsum.photos/seed/4%202%2Fx/1024/1024")
  /\ Mvp.generateBoxCharacter (JStr lone_d800) = ([], Threw "URI malformed").
Proof.
  destruct (placeholder_url (JStr "4 2/x") eq_refl) as (_ & H & _).
  destruct (placeholder_url (JStr lone_d800) eq_refl) as (_ & _ & G & _).
  split; [apply H | apply G]; reflexivity.
Defined.

(** ** Two pipelines for one key in the MVP server *)

(** X20. In the MVP server a start request over a Processing record is
    accepted, so two pipelines can be in flight for one key, and each
    writes back whatever the cache holds by then.  When both succeed
    and the job is minted after the first write-back, the second
    write-back puts a Ready record back under the key (at every key
    but ["__proto__"] the mint had just deleted it), and a further
    mint request succeeds: the key is minted twice although no start
    request followed the first mint. *)
Theorem mvp_second_pipeline_revives_record (w1 w2 w3 w4 : World)
    (fid rcp : jsval) (c : Cache) (i1 m1 i2 m2 tx1 tx2 : string) :
  truthy fid = true -> truthy rcp = true ->
  c !! to_key fid = None ->
  mvp_stages_succeed w1 fid i1 m1 ->
  mvp_stages_succeed w2 fid i2 m2 ->
  randomBytes w3 = Returned tx1 ->
  randomBytes w4 = Returned tx2 ->
  let first := Mvp.start_generation w1 fid c in
  let second := Mvp.start_generation w2 fid (server first) in
  let landed1 := settle (deferred first) (server second) in
  let mint1 := Mvp.mint_nft w3 fid rcp landed1 in
  let landed2 := settle (deferred second) (server mint1) in
  let mint2 := Mvp.mint_nft w4 fid rcp landed2 in
  response first = generation_started
  /\ response second = generation_started
  /\ response mint1 = minted ("0x" ++ tx1)
  /\ server mint1 = remove (to_key fid) landed1
  /\ (to_key fid <> "__proto__" -> server mint1 !! to_key fid = None)
  /\ landed2 !! to_key fid = Some (rec_ready i2 m2)
  /\ response mint2 = minted ("0x" ++ tx2).
Proof.
  intros Hf Hr Hc Hok1 Hok2 Hx1 Hx2.
  pose proof (mvp_start_fresh w1 fid c Hf (lookup_none_not_ready _ _ Hc))
    as Hacc1.
  pose proof (mvp_start_accepted w1 fid c Hacc1) as E1.
  rewrite (mvp_generation_succeeds w1 fid i1 m1 Hf Hok1) in E1.
  simpl in E1. rewrite E1. cbn [server deferred response].
  assert (Hacc2 : response (Mvp.start_generation w2 fid
                              (<[to_key fid := rec_processing]> c))
                  = generation_started).
  { apply mvp_start_fresh; [exact Hf|]. intros r E.
    rewrite lookup_insert_eq in E. injection E as <-. discriminate. }
  pose proof (mvp_start_accepted w2 fid _ Hacc2) as E2.
  rewrite (mvp_generation_succeeds w2 fid i2 m2 Hf Hok2) in E2.
  simpl in E2. rewrite E2. cbn [server deferred response settle foldl apply_write].
  assert (Hl1 : <[to_key fid := rec_ready i1 m1]>
                  (<[to_key fid := rec_processing]>
                     (<[to_key fid := rec_processing]> c)) !! to_key fid
                = Some (rec_ready i1 m1)) by apply lookup_insert_eq.
  rewrite (mvp_mint_ready w3 fid rcp _ (rec_ready i1 m1) Hf Hr Hl1 eq_refl), Hx1.
  cbn [server deferred response].
  assert (Hl2 : <[to_key fid := rec_ready i2 m2]>
                  (remove (to_key fid)
                     (<[to_key fid := rec_ready i1 m1]>
                        (<[to_key fid := rec_processing]>
                           (<[to_key fid := rec_processing]> c))))
                  !! to_key fid
                = Some (rec_ready i2 m2)) by apply lookup_insert_eq.
  rewrite (mvp_mint_ready w4 fid rcp _ (rec_ready i2 m2) Hf Hr Hl2 eq_refl), Hx2.
  cbn [response].
  split; [reflexivity|]. split; [reflexivity|]. split; [reflexivity|].
  split; [reflexivity|].
  split; [intros Hne; apply remove_lookup_eq; exact Hne|].
  split; [exact Hl2 | reflexivity].
Qed.

Lemma mvp_second_pipeline_revives_record_witness :
  response
    (Mvp.mint_nft world_ok (JStr "42") (JStr "0xABC")
       (settle
          (deferred (Mvp.start_generation world_ok (JStr "42")
                       (server (Mvp.start_generation world_ok (JStr "42") ∅))))
          (server
             (Mvp.mint_nft world_ok (JStr "42") (JStr "0xABC")
                (settle
                   (deferred (Mvp.start_generation world_ok (JStr "42") ∅))
                   (server
                      (Mvp.start_generation world_ok (JStr "42")
                         (server
                            (Mvp.start_generation world_ok (JStr "42")
                               ∅)))))))))
  = minted "0xc0ffee".
Proof.
  destruct (mvp_second_pipeline_revives_record world_ok world_ok world_ok
              world_ok (JStr "42") (JStr "0xABC") ∅
              "ipfs://Qa" "ipfs://Qb" "ipfs://Qa" "ipfs://Qb"
              "c0ffee" "c0ffee")
    as (_ & _ & _ & _ & _ & _ & H);
    [ reflexivity | reflexivity | reflexivity
    | repeat split; (reflexivity || discriminate)
    | repeat split; (reflexivity || discriminate)
    | reflexivity | reflexivity
    | exact H ].
Defined.
